(** * Compliance checker: similarity matcher, rule engine and aggregator

    A shallow embedding of the checking core of the repository
    (base_checker.py, docx_compliance.py, pptx_compliance.py, config.py and
    the monolithic smart_compliance_checker_complete_Version2.py) together
    with the properties of its specification.

    Modelling conventions.
    - Python [str] is [string]; characters are read as ASCII code points, and
      the Unicode-aware operations of Python ([str.strip], [str.lower],
      [str.upper], the regex classes [\d], [\s], [\w], [\b]) are given on
      that range.  Bytes above 127 are caseless symbols that are neither
      space, digit nor word characters.
    - Python [float] scores are exact rationals ([Qc]) in the checks; this
      is the reading for bounds and for verdicts against a threshold.  Where
      the rounding of binary64 arithmetic decides the outcome, in the mean
      of the aggregator and in the sums of the PLT status check, the code
      is also given on the machine's floats (module [Binary64] and
      [_check_plt_status_compliance_binary64]).
    - A [dict] compared with [==] is a [gmap]; a dict literal whose order is
      only presentation is an association list.
    - Code that can raise runs in the [result] monad; [try]/[except] is a
      match on the result. *)

From Stdlib Require Import QArith Qcanon ZArith Ascii String List Permutation.
From Stdlib Require Import Decimal DecimalString.
From Stdlib Require Import PrimFloat.
From Stdlib Require Uint63.
From stdpp Require Import gmap strings list fin_maps numbers.

Open Scope string_scope.
Open Scope Qc_scope.

Set Warnings "-inexact-float".

(** ** Python values, exceptions and strings *)

Module Py.

(** An exception, reduced to what the code observes: [str(e)]. *)
Record exn : Type := Exn { exn_kind : string; exn_msg : string }.

Inductive result (A : Type) : Type :=
| Ok (a : A)
| Raise (e : exn).
Arguments Ok {A} a.
Arguments Raise {A} e.

Definition bind {A B : Type} (m : result A) (k : A -> result B) : result B :=
  match m with
  | Ok a => k a
  | Raise e => Raise e
  end.

(** [try: m except Exception as e: h e] *)
Definition try_except {A : Type} (m : result A) (h : exn -> A) : A :=
  match m with
  | Ok a => a
  | Raise e => h e
  end.

Definition raises {A : Type} (m : result A) : Prop :=
  match m with
  | Ok _ => False
  | Raise _ => True
  end.

(** Truthiness of a [str]: [not s]. *)
Definition str_not (s : string) : bool :=
  match s with
  | EmptyString => true
  | String _ _ => false
  end.

(** Truthiness of an optional [str] ([None] or [""] are falsy). *)
Definition opt_not (o : option string) : bool :=
  match o with
  | None => true
  | Some s => str_not s
  end.

Definition code (c : ascii) : N := N_of_ascii c.

Definition in_range (lo hi : N) (c : ascii) : bool :=
  ((lo <=? code c) && (code c <=? hi))%N.

(** [c.isspace()]: TAB..CR, FS..US and the space. *)
Definition isspace (c : ascii) : bool :=
  in_range 9 13 c || in_range 28 32 c.

Definition isdigit (c : ascii) : bool := in_range 48 57 c.
Definition isupper (c : ascii) : bool := in_range 65 90 c.
Definition islower (c : ascii) : bool := in_range 97 122 c.

(** [\w] of the regex engine. *)
Definition isword (c : ascii) : bool :=
  isdigit c || isupper c || islower c || Ascii.eqb c "_".

Definition lower_char (c : ascii) : ascii :=
  if isupper c then ascii_of_N (code c + 32) else c.

Definition upper_char (c : ascii) : ascii :=
  if islower c then ascii_of_N (code c - 32) else c.

Fixpoint map_str (f : ascii -> ascii) (s : string) : string :=
  match s with
  | EmptyString => EmptyString
  | String c r => String (f c) (map_str f r)
  end.

(** [s.lower()], [s.upper()] *)
Definition lower (s : string) : string := map_str lower_char s.
Definition upper (s : string) : string := map_str upper_char s.

Fixpoint lstrip (s : string) : string :=
  match s with
  | EmptyString => EmptyString
  | String c r => if isspace c then lstrip r else s
  end.

Fixpoint rstrip (s : string) : string :=
  match s with
  | EmptyString => EmptyString
  | String c r =>
      match rstrip r with
      | EmptyString => if isspace c then EmptyString else String c EmptyString
      | r' => String c r'
      end
  end.

(** [s.strip()] *)
Definition strip (s : string) : string := rstrip (lstrip s).

(** [s.replace(c, "")] for a one-character [c]. *)
Fixpoint remove_char (c : ascii) (s : string) : string :=
  match s with
  | EmptyString => EmptyString
  | String d r =>
      if Ascii.eqb d c then remove_char c r else String d (remove_char c r)
  end.

(** [int(s)] on a text of decimal digits, and [str(n)]. *)
Definition int_of (s : string) : result nat :=
  match NilZero.uint_of_string s with
  | Some u => Ok (Nat.of_uint u)
  | None => Raise (Exn "ValueError" "invalid literal for int() with base 10")
  end.

Definition str_of_nat (n : nat) : string :=
  NilEmpty.string_of_uint (Nat.to_uint n).

(** A text between double quotes. *)
Definition quoted (s : string) : string :=
  String (ascii_of_N 34) s ++ String (ascii_of_N 34) EmptyString.

(** [set(s)] *)
Definition set_of_str (s : string) : gset ascii :=
  list_to_set (list_ascii_of_string s).

Definition Qc_of_nat (n : nat) : Qc := Q2Qc (inject_Z (Z.of_nat n)).

Definition Qc_leb (a b : Qc) : bool := bool_decide (a <= b).
Definition Qc_ltb (a b : Qc) : bool := bool_decide (a < b).

(** [sum(l)] and [max(l)]; [max] keeps the first of equal maxima and
    raises on an empty list. *)
Definition fsum (l : list Qc) : Qc := foldl Qcplus 0 l.

Definition max_step (cur y : Qc) : Qc := if Qc_ltb cur y then y else cur.

Definition fmax (l : list Qc) : result Qc :=
  match l with
  | [] => Raise (Exn "ValueError" "max() arg is an empty sequence")
  | x :: xs => Ok (foldl max_step x xs)
  end.

(** [l.index(x)] *)
Fixpoint index_of (l : list Qc) (x : Qc) : result nat :=
  match l with
  | [] => Raise (Exn "ValueError" "x is not in list")
  | y :: r => if bool_decide (y = x) then Ok 0%nat
              else bind (index_of r x) (fun i => Ok (S i))
  end.

(** [l[i]] *)
Definition getitem {A : Type} (l : list A) (i : nat) : result A :=
  match l !! i with
  | Some a => Ok a
  | None => Raise (Exn "IndexError" "list index out of range")
  end.

End Py.

#[export] Instance result_ret : MRet Py.result := @Py.Ok.
#[export] Instance result_bind : MBind Py.result :=
  fun A B k m => Py.bind m k.

(** ** config.py *)

Module Config.

Definition COMPLIANCE_THRESHOLD : Qc := Q2Qc (6 # 10).
Definition PARTIAL_MATCH_WEIGHT : Qc := Q2Qc (5 # 10).

End Config.

(** ** base_checker.py *)

Module BaseChecker.
Import Py.

(** The values a [details] dict holds. *)
#[warnings="-register-all"]
Inductive detail : Type :=
| DNone
| DStr (s : string)
| DBool (b : bool)
| DInt (n : nat)
| DNum (q : Qc)
| DStrs (l : list string)
| DDict (l : list (string * detail)).

Record ComplianceResult : Type := mkResult {
  check_name : string;
  passed : bool;
  score : Qc;
  details : list (string * detail);
  errors : list string
}.

Definition _normalize_text_cached (text : string) : string :=
  if str_not text then ""
  else remove_char "_" (remove_char "-" (remove_char " " (lower (strip text)))).

Definition _calculate_similarity_score (text1 text2 : string) : Qc :=
  if str_not text1 || str_not text2 then 0
  else
    let norm1 := _normalize_text_cached text1 in
    let norm2 := _normalize_text_cached text2 in
    if String.eqb norm1 norm2 then 1
    else
      let set1 := set_of_str norm1 in
      let set2 := set_of_str norm2 in
      let intersection := size (set1 ∩ set2) in
      let union := size (set1 ∪ set2) in
      if (0 <? union)%nat then Qc_of_nat intersection / Qc_of_nat union
      else 0.

Definition DEFAULT_MATCH_THRESHOLD : Qc := Q2Qc (8 # 10).

Definition _vectorized_text_match
    (target : string) (candidates : list string) (threshold : Qc)
    : result (bool * Qc * option string) :=
  if str_not target || bool_decide (candidates = []) then Ok (false, 0, None)
  else
    let similarities := map (_calculate_similarity_score target) candidates in
    if bool_decide (similarities = []) then Ok (false, 0, None)
    else
      max_similarity ← fmax similarities;
      best_match_idx ← index_of similarities max_similarity;
      best_match ← getitem candidates best_match_idx;
      Ok (Qc_leb threshold max_similarity, max_similarity, Some best_match).

(** [str(document_value)] on the values that reach it. *)
Definition str_of_opt (o : option string) : string := default "" o.

Definition _check_field_compliance
    (field_name : string) (document_value : option string)
    (excel_values : list (option string)) : ComplianceResult :=
  let errors : list string := [] in
  try_except
    (if opt_not document_value then
       Ok (mkResult (field_name ++ "_validation") false 0
             [("error", DStr (field_name ++ " not found in document"))]
             [field_name ++ " not found in document"])
     else if bool_decide (excel_values = []) then
       Ok (mkResult (field_name ++ "_validation") false 0
             [("error", DStr (field_name ++ " not found in Excel data"))]
             [field_name ++ " not found in Excel data"])
     else
       let doc_str := str_of_opt document_value in
       let excel_strs := omap id excel_values in
       '(is_match, score, best_match) ←
          _vectorized_text_match doc_str excel_strs DEFAULT_MATCH_THRESHOLD;
       Ok (mkResult (field_name ++ "_validation") is_match score
             [("document_value", DStr doc_str);
              ("excel_values", DStrs excel_strs);
              ("best_match", from_option DStr DNone best_match);
              ("similarity_score", DNum score)]
             errors))
    (fun e =>
       let error_msg := "Error checking " ++ field_name ++ ": " ++ exn_msg e in
       mkResult (field_name ++ "_validation") false 0
         [("error", DStr error_msg)] (errors ++ [error_msg])).

(** What a check function hands back: a [ComplianceResult], a dict in the
    legacy format, or some other object. *)
Record legacy_dict : Type := mkLegacy {
  l_passed : option bool;
  l_score : option Qc;
  l_errors : option (list string);
  l_items : list (string * detail)
}.

Inductive check_output : Type :=
| OutResult (r : ComplianceResult)
| OutLegacy (d : legacy_dict)
| OutOther.

(** A bound check method: its [__name__] and what calling it does. *)
Record check_function : Type := mkCheck {
  __name__ : string;
  call : result check_output
}.

(** The body of the [for future in as_completed(...)] loop: one future's
    outcome becomes one collected result. *)
Definition collect (check_func : check_function) : ComplianceResult :=
  let check_name := __name__ check_func in
  try_except
    (result ← call check_func;
     match result with
     | OutResult r => Ok r
     | OutLegacy d =>
         Ok (mkResult check_name (default false (l_passed d))
               (default 0 (l_score d)) (l_items d) (default [] (l_errors d)))
     | OutOther =>
         Raise (Exn "AttributeError" "object has no attribute 'get'")
     end)
    (fun e => mkResult check_name false 0
                [("error", DStr (exn_msg e))] [exn_msg e]).

(** [len(results)], [sum(1 for r in results if r.passed)] *)
Definition passed_count (results : list ComplianceResult) : nat :=
  length (filter (fun r => passed r = true) results).

(** [np.mean(scores)] *)
Definition mean (scores : list Qc) : Qc :=
  fsum scores / Qc_of_nat (length scores).

(** A dict comprehension [{k: v for ...}]: a later pair overwrites. *)
Definition dict_of {V : Type} (items : list (string * V)) : gmap string V :=
  foldl (fun m kv => <[kv.1 := kv.2]> m) ∅ items.

Record overall_stats : Type := mkStats {
  overall_score : Qc;
  pass_rate : option Qc;
  passed_checks : nat;
  total_checks : nat;
  compliance_level : string;
  individual_scores : option (gmap string Qc)
}.

Definition _calculate_overall_score (results : list ComplianceResult)
    : overall_stats :=
  if bool_decide (results = []) then
    mkStats 0 None 0 0 "Non-compliant" None
  else
    let scores := map score results in
    let passed_count := passed_count results in
    let overall_score := mean scores in
    let pass_rate := Qc_of_nat passed_count / Qc_of_nat (length results) in
    let compliance_level :=
      if Qc_leb (Q2Qc (9 # 10)) overall_score then "Fully Compliant"
      else if Qc_leb Config.COMPLIANCE_THRESHOLD overall_score then "Compliant"
      else if Qc_leb (Q2Qc (4 # 10)) overall_score then "Partially Compliant"
      else "Non-compliant" in
    mkStats overall_score (Some pass_rate) passed_count (length results)
      compliance_level
      (Some (dict_of (map (fun r => (check_name r, score r)) results))).

Record legacy_result : Type := mkLegacyResult {
  lr_passed : bool;
  lr_score : Qc;
  lr_details : list (string * detail);
  lr_errors : list string
}.

Record run_metadata : Type := mkMeta {
  total_processing_time : Qc;
  parallel_execution : bool;
  max_workers_used : Z
}.

Record report : Type := mkReport {
  individual_checks : gmap string legacy_result;
  overall_statistics : overall_stats;
  metadata : option run_metadata;
  error : option string
}.

(** The loop [legacy_results[result.check_name] = {...}]. *)
Definition legacy_results (results : list ComplianceResult)
    : gmap string legacy_result :=
  dict_of (map (fun r => (check_name r,
                          mkLegacyResult (passed r) (score r) (details r)
                            (errors r))) results).

Section Scheduler.

(** The order in which [as_completed] yields the submitted futures. *)
Variable as_completed : list check_function -> list check_function.

Definition _run_checks_parallel
    (check_functions : list check_function) (max_workers : Z)
    : result (list ComplianceResult) :=
  if (max_workers <=? 0)%Z then
    Raise (Exn "ValueError" "max_workers must be greater than 0")
  else Ok (map collect (as_completed check_functions)).

(** [[check_func() for check_func in check_functions]]: the first raise
    ends the comprehension. *)
Fixpoint call_all (check_functions : list check_function)
    : result (list check_output) :=
  match check_functions with
  | [] => Ok []
  | f :: fs => r ← call f; rs ← call_all fs; Ok (r :: rs)
  end.

(** Attribute access [result.score], [result.check_name], ... fails on
    anything that is not a [ComplianceResult]; the message names the
    type of the object, which is known here for a dict. *)
Fixpoint as_results (outs : list check_output)
    : result (list ComplianceResult) :=
  match outs with
  | [] => Ok []
  | OutResult r :: os => rs ← as_results os; Ok (r :: rs)
  | OutLegacy _ :: _ =>
      Raise (Exn "AttributeError" "'dict' object has no attribute 'score'")
  | OutOther :: _ =>
      Raise (Exn "AttributeError" "object has no attribute 'score'")
  end.

Definition run_all_checks
    (get_check_functions : result (list check_function))
    (parallel : bool) (max_workers : Z) : report :=
  try_except
    (check_functions ← get_check_functions;
     results ←
       (if parallel && (1 <? length check_functions)%nat then
          _run_checks_parallel check_functions max_workers
        else outs ← call_all check_functions; as_results outs);
     let overall_stats := _calculate_overall_score results in
     let legacy_results := legacy_results results in
     Ok (mkReport legacy_results overall_stats
           (Some (mkMeta 0 parallel (if parallel then max_workers else 1%Z)))
           None))
    (fun e =>
       mkReport ∅ (mkStats 0 None 0 0 "Error" None) None (Some (exn_msg e))).

End Scheduler.

End BaseChecker.

(** ** The aggregator in binary64

    The scores of the results are Python floats and [np.mean] adds them
    in binary64, where addition rounds and is not associative.  This
    module gives [_calculate_overall_score] on the machine's numbers;
    the module above gives it on exact rationals, which suffices for
    bounds and for what does not depend on the order of a sum. *)

Module Binary64.
Import Py BaseChecker.

(** An integer as a float; exact below 2^53 in absolute value. *)
Definition float_of_Z (z : Z) : float :=
  match z with
  | Z0 => 0%float
  | Zpos _ => of_uint63 (Uint63.of_Z z)
  | Zneg p => PrimFloat.opp (of_uint63 (Uint63.of_Z (Zpos p)))
  end.

Definition float_of_nat (n : nat) : float := float_of_Z (Z.of_nat n).

(** The float that a score stands for: the binary64 number nearest to
    the rational, as Python reads the literal [0.7] and as it divides two
    integers.  Numerator and denominator are taken below 2^53, so that
    both convert exactly and the division rounds once. *)
Definition to_float (q : Qc) : float :=
  PrimFloat.div (float_of_Z (Qnum q)) (float_of_Z (Zpos (Qden q))).

(** [a >= b] on floats; [False] when one of them is a NaN. *)
Definition geb (a b : float) : bool := PrimFloat.leb b a.

(** *** [np.mean]

    numpy's add-reduction of a contiguous binary64 array (the sum of
    [np.mean]): fewer than eight values are added in order; up to 128
    values go into eight running sums, one for each position modulo 8,
    which are added pairwise before the values left over are added in
    order; a longer array is cut in two near its middle, at a multiple
    of eight, and the sums of the halves are added. *)

Definition add_in_order (res : float) (a : list float) : float :=
  foldl PrimFloat.add res a.

(** [r[k] += a[i + k]] for the blocks of eight that [a] still holds;
    returns the running sums and the values left over. *)
Fixpoint add_blocks (fuel : nat) (r a : list float)
    : list float * list float :=
  match fuel with
  | O => (r, a)
  | S fuel' =>
      if (8 <=? length a)%nat
      then add_blocks fuel' (zip_with PrimFloat.add r (take 8 a)) (drop 8 a)
      else (r, a)
  end.

Definition add_pairs (r : list float) : float :=
  match r with
  | [r0; r1; r2; r3; r4; r5; r6; r7] =>
      (((r0 + r1) + (r2 + r3)) + ((r4 + r5) + (r6 + r7)))%float
  | _ => 0%float
  end.

Fixpoint pairwise_sum (fuel : nat) (a : list float) : float :=
  let n := length a in
  if (n <? 8)%nat then add_in_order 0%float a
  else if (n <=? 128)%nat then
    let '(r, rest) := add_blocks n (take 8 a) (drop 8 a) in
    add_in_order (add_pairs r) rest
  else
    match fuel with
    | O => 0%float
    | S fuel' =>
        let n2 := (n / 2)%nat in
        let n2 := (n2 - n2 mod 8)%nat in
        (pairwise_sum fuel' (take n2 a) + pairwise_sum fuel' (drop n2 a))%float
    end.

Definition np_sum (a : list float) : float := pairwise_sum (length a) a.

Definition np_mean (a : list float) : float :=
  (np_sum a / float_of_nat (length a))%float.

Record overall_stats : Type := mkStats {
  overall_score : float;
  pass_rate : option float;
  passed_checks : nat;
  total_checks : nat;
  compliance_level : string;
  individual_scores : option (gmap string float)
}.

Definition COMPLIANCE_THRESHOLD : float := 0.6%float.

Definition _calculate_overall_score (results : list ComplianceResult)
    : overall_stats :=
  if bool_decide (results = []) then
    mkStats 0%float None 0 0 "Non-compliant" None
  else
    let scores := map (fun result => to_float (score result)) results in
    let passed_count := passed_count results in
    let overall_score := np_mean scores in
    let pass_rate :=
      (float_of_nat passed_count / float_of_nat (length results))%float in
    let compliance_level :=
      if geb overall_score 0.9%float then "Fully Compliant"
      else if geb overall_score COMPLIANCE_THRESHOLD then "Compliant"
      else if geb overall_score 0.4%float then "Partially Compliant"
      else "Non-compliant" in
    mkStats overall_score (Some pass_rate) passed_count (length results)
      compliance_level
      (Some (dict_of (map (fun result =>
                             (check_name result, to_float (score result)))
                        results))).

End Binary64.

(** ** docx_compliance.py and pptx_compliance.py *)

Module Compliance.
Import Py BaseChecker.

(** [excel_data]: canonical field name to candidate values, [None] allowed
    among them. *)
Abbreviation excel_data := (gmap string (list (option string))).

(** A dict of extracted field values; [d.get(k)] is [None] for a missing
    key and for a key holding [None]. *)
Abbreviation field_values := (gmap string (option string)).

Definition get_field (d : field_values) (k : string) : option string :=
  default None (d !! k).

(** [d.get(k, False)] on a dict of markers. *)
Definition get_flag (d : gmap string bool) (k : string) : bool :=
  default false (d !! k).

(** ['k' in self.excel_data and self.excel_data['k']] *)
Definition available (excel : excel_data) (k : string) : bool :=
  match excel !! k with
  | Some (_ :: _) => true
  | _ => false
  end.

Definition excel_get (excel : excel_data) (k : string) : list (option string) :=
  default [] (excel !! k).

(** The four [if ...: field_checks.append(...)] blocks, in source order. *)
Definition CHECKED_FIELDS : list string :=
  ["business_app_id"; "enterprise_release_id"; "project_name"; "task_id"].

Definition field_checks (excel : excel_data) (data : field_values)
    : list ComplianceResult :=
  flat_map
    (fun k =>
       if available excel k
       then [_check_field_compliance k (get_field data k) (excel_get excel k)]
       else [])
    CHECKED_FIELDS.

(** [all(check.passed for check in field_checks)] *)
Definition all_passed (checks : list ComplianceResult) : bool :=
  forallb passed checks.

Record docx_data : Type := mkDocx {
  first_page_data : field_values;
  table_of_contents : gmap string bool
}.

Definition _check_first_page_compliance (excel : excel_data) (doc : docx_data)
    : ComplianceResult :=
  let field_checks := field_checks excel (first_page_data doc) in
  let '(average_score, all_passed) :=
    if bool_decide (field_checks = []) then (0, false)
    else
      let total_score := fsum (map score field_checks) in
      (total_score / Qc_of_nat (length field_checks), all_passed field_checks) in
  mkResult "first_page_validation" all_passed average_score
    [("field_checks",
      DDict (map (fun c => (check_name c, DDict (details c))) field_checks));
     ("total_fields_checked", DInt (length field_checks));
     ("fields_passed", DInt (passed_count field_checks))]
    [].

Definition scope_missing : string :=
  "Section 3.3 " ++ quoted "In Scope" ++ " not found".

Definition _check_table_of_contents_compliance (doc : docx_data)
    : ComplianceResult :=
  let toc_data := table_of_contents doc in
  let has_toc := get_flag toc_data "has_table_of_contents" in
  let has_scope_section := get_flag toc_data "has_scope_section" in
  let score : Qc := 0 in
  let errors : list string := [] in
  let '(score, errors) :=
    if has_toc then (score + Q2Qc (6 # 10), errors)
    else (score, (errors ++ ["Table of contents not found"])%list) in
  let '(score, errors) :=
    if has_scope_section then (score + Q2Qc (4 # 10), errors)
    else (score, (errors ++ [scope_missing])%list) in
  let passed := Qc_leb (Q2Qc (8 # 10)) score in
  mkResult "table_of_contents_validation" passed score
    [("has_table_of_contents", DBool has_toc);
     ("has_scope_section", DBool has_scope_section);
     ("requirements_met", DInt (2 - length errors))]
    errors.

Record first_slide : Type := mkSlide {
  has_content : bool;
  slide_fields : field_values
}.

Definition _check_first_slide_compliance
    (excel : excel_data) (first_slide_data : first_slide) : ComplianceResult :=
  if negb (has_content first_slide_data) then
    mkResult "first_slide_validation" false 0
      [("error", DStr "First slide has no content")]
      ["First slide has no content"]
  else
    let field_checks := field_checks excel (slide_fields first_slide_data) in
    let '(average_score, all_passed) :=
      if bool_decide (field_checks = []) then (0, false)
      else
        let total_score := fsum (map score field_checks) in
        (total_score / Qc_of_nat (length field_checks),
         all_passed field_checks) in
    mkResult "first_slide_validation" all_passed average_score
      [("field_checks",
        DDict (map (fun c => (check_name c, DDict (details c))) field_checks));
       ("total_fields_checked", DInt (length field_checks));
       ("fields_passed", DInt (passed_count field_checks));
       ("slide_has_content", DBool (has_content first_slide_data))]
      [].

End Compliance.

(** ** The regular expressions of the code

    A backtracking matcher for the fragment of Python's [re] that the
    patterns below use.  A pattern is transcribed constructor by
    constructor; the matcher tries alternatives left to right and
    repetitions longest first, as [re] does. *)

Module Re.
Import Py.

Inductive re : Type :=
| Chr (p : ascii -> bool)                 (* a class: [\d], [\s], [[:\s]], one character *)
| Lit (s : string)                        (* literal text *)
| Seq (a b : re)
| Alt (a b : re)                          (* [a|b] *)
| Rep (lo : nat) (hi : option nat) (a : re)  (* [a{lo,hi}], [a*], [a+], [a?] *)
| Grp (a : re)                            (* a capturing group *)
| Bol                                     (* [^] *)
| Eol                                     (* [$] *)
| WordB.                                  (* [\b] *)

Record flags : Type := mkFlags { IGNORECASE : bool; MULTILINE : bool }.

(** A position in the subject: the character before it, the text after it,
    and the groups closed so far (the groups of the patterns here are
    neither nested nor repeated, so closing order is group order). *)
Record pos : Type := mkPos {
  prev : option ascii;
  rest : string;
  caps : list string
}.

Definition newline : ascii := ascii_of_N 10.

Definition same_char (fl : flags) (c d : ascii) : bool :=
  if IGNORECASE fl then Ascii.eqb (lower_char c) (lower_char d)
  else Ascii.eqb c d.

Fixpoint lit_match (fl : flags) (l : string) (prev : option ascii) (s : string)
    : option (option ascii * string) :=
  match l with
  | EmptyString => Some (prev, s)
  | String d l' =>
      match s with
      | String c s' =>
          if same_char fl c d then lit_match fl l' (Some c) s' else None
      | EmptyString => None
      end
  end.

Definition at_bol (fl : flags) (p : pos) : bool :=
  match prev p with
  | None => true
  | Some c => MULTILINE fl && Ascii.eqb c newline
  end.

Definition at_eol (fl : flags) (p : pos) : bool :=
  match rest p with
  | EmptyString => true
  | String c EmptyString => Ascii.eqb c newline
  | String c _ => MULTILINE fl && Ascii.eqb c newline
  end.

Definition word_before (p : pos) : bool :=
  match prev p with
  | Some c => isword c
  | None => false
  end.

Definition word_after (p : pos) : bool :=
  match rest p with
  | String c _ => isword c
  | EmptyString => false
  end.

Definition at_wordb (p : pos) : bool := xorb (word_before p) (word_after p).

(** The text consumed between two positions of the same subject. *)
Definition taken (from to : string) : string :=
  substring 0 (String.length from - String.length to) from.

Fixpoint run (fl : flags) (r : re) (p : pos) (k : pos -> option pos)
    : option pos :=
  match r with
  | Chr cls =>
      match rest p with
      | String c s' => if cls c then k (mkPos (Some c) s' (caps p)) else None
      | EmptyString => None
      end
  | Lit l =>
      match lit_match fl l (prev p) (rest p) with
      | Some (pr, s') => k (mkPos pr s' (caps p))
      | None => None
      end
  | Seq a b => run fl a p (fun p' => run fl b p' k)
  | Alt a b =>
      match run fl a p k with
      | Some e => Some e
      | None => run fl b p k
      end
  | Rep lo hi a =>
      (fix rep (n lo : nat) (p : pos) {struct n} : option pos :=
         match n with
         | O => if (lo =? 0)%nat then k p else None
         | S n' =>
             match run fl a p (fun p' => rep n' (pred lo) p') with
             | Some e => Some e
             | None => if (lo =? 0)%nat then k p else None
             end
         end)
        (match hi with
         | Some h => h
         | None => String.length (rest p)
         end) lo p
  | Grp a =>
      run fl a p
        (fun p' =>
           k (mkPos (prev p') (rest p')
                (caps p' ++ [taken (rest p) (rest p')])))
  | Bol => if at_bol fl p then k p else None
  | Eol => if at_eol fl p then k p else None
  | WordB => if at_wordb p then k p else None
  end.

(** [pattern.match(s)]: the end position of a match at the start of [s]. *)
Definition re_match (fl : flags) (r : re) (s : string) : option pos :=
  run fl r (mkPos None s []) Some.

(** [pattern.search(s)]: the leftmost match. *)
Fixpoint search_from (fl : flags) (r : re) (pr : option ascii) (s : string)
    : option pos :=
  match run fl r (mkPos pr s []) Some with
  | Some e => Some e
  | None =>
      match s with
      | EmptyString => None
      | String c s' => search_from fl r (Some c) s'
      end
  end.

Definition search (fl : flags) (r : re) (s : string) : option pos :=
  search_from fl r None s.

Definition found (fl : flags) (r : re) (s : string) : bool :=
  bool_decide (is_Some (search fl r s)).

(** [pattern.findall(s)] for a pattern with one group: the group of each
    match, scanning left to right without overlap. *)
Fixpoint findall_from (fuel : nat) (fl : flags) (r : re)
    (pr : option ascii) (s : string) : list string :=
  match fuel with
  | O => []
  | S fuel' =>
      match run fl r (mkPos pr s []) Some with
      | Some e =>
          default "" (head (caps e)) ::
            (if (String.length (rest e) <? String.length s)%nat
             then findall_from fuel' fl r (prev e) (rest e)
             else match s with
                  | EmptyString => []
                  | String c s' => findall_from fuel' fl r (Some c) s'
                  end)
      | None =>
          match s with
          | EmptyString => []
          | String c s' => findall_from fuel' fl r (Some c) s'
          end
      end
  end.

Definition findall (fl : flags) (r : re) (s : string) : list string :=
  findall_from (S (String.length s)) fl r None s.

(** [\d], [\s], and the quantifiers by their usual names. *)
Definition d : re := Chr isdigit.
Definition s : re := Chr isspace.
Definition star (a : re) : re := Rep 0 None a.
Definition plus (a : re) : re := Rep 1 None a.
Definition opt (a : re) : re := Rep 0 (Some 1%nat) a.
Definition times (n : nat) (a : re) : re := Rep n (Some n) a.

End Re.

Infix "~>" := Re.Seq (at level 60, right associativity).

(** ** smart_compliance_checker_complete_Version2.py *)

Module Version2.
Import Py Re.

Definition no_flags : flags := mkFlags false false.
Definition re_I : flags := mkFlags true false.
Definition re_I_M : flags := mkFlags true true.

Definition slash : re := Chr (Ascii.eqb "/").
Definition dot : re := Chr (Ascii.eqb ".").

(** [(\d{1,2})/(\d{1,2})/(\d{4})], the pattern of [normalize_date] *)
Definition date_pattern : re :=
  Grp (Rep 1 (Some 2%nat) d) ~> slash ~> Grp (Rep 1 (Some 2%nat) d) ~> slash
  ~> Grp (times 4 d).

Definition normalize_date (date_str : string) : string :=
  if str_not date_str then date_str
  else
    let date_str := strip date_str in
    try_except
      (match re_match no_flags date_pattern date_str with
       | Some e =>
           match caps e with
           | [month; day; year] =>
               month ← int_of month;
               day ← int_of day;
               Ok (str_of_nat month ++ "/" ++ str_of_nat day ++ "/" ++ year)
           | _ => Ok date_str
           end
       | None => Ok date_str
       end)
      (fun _ => date_str).

(** The shape the pattern looks for at the start of a text: one or two
    digits, a slash, one or two digits, a slash, four digits, and whatever
    follows. *)
Definition digits (t : string) : bool :=
  forallb isdigit (list_ascii_of_string t).

Definition one_or_two_digits (t : string) : bool :=
  digits t && (1 <=? String.length t)%nat && (String.length t <=? 2)%nat.

Definition four_digits (t : string) : bool :=
  digits t && (String.length t =? 4)%nat.

Definition mdy_prefix (t month day year rest : string) : Prop :=
  t = month ++ "/" ++ day ++ "/" ++ year ++ rest
  ∧ one_or_two_digits month = true
  ∧ one_or_two_digits day = true
  ∧ four_digits year = true.

(** A text that is a date and nothing else. *)
Definition mdy_shaped (t : string) : Prop :=
  ∃ month day year, mdy_prefix t month day year "".

(** A two-digit number without its leading zero. *)
Definition strip_leading_zero (t : string) : string :=
  match t with
  | String "0" (String c EmptyString) => String c EmptyString
  | _ => t
  end.

Module OptimizedPatterns.

(** [\d{1,2}/\d{1,2}/\d{4}] *)
Definition date_body : re :=
  Rep 1 (Some 2%nat) d ~> slash ~> Rep 1 (Some 2%nat) d ~> slash ~> times 4 d.

(** [Implementation\s+Date[:\s]*(\d{1,2}/\d{1,2}/\d{4})], IGNORECASE | MULTILINE *)
Definition DATE_IMPLEMENTATION : re :=
  Lit "Implementation" ~> plus s ~> Lit "Date"
  ~> star (Chr (fun c => Ascii.eqb c ":" || isspace c)) ~> Grp date_body.

(** [(\d{1,2}/\d{1,2}/\d{4})], IGNORECASE *)
Definition DATE_GENERAL : re := Grp date_body.

End OptimizedPatterns.

(** The format patterns of [_validate_id_format]. *)

(** [^RLSE\d{7}$] *)
Definition release_format : re := Bol ~> Lit "RLSE" ~> times 7 d ~> Eol.
(** [^\d{8}$] *)
Definition business_app_id_format : re := Bol ~> times 8 d ~> Eol.
(** [^PRJ0\d{4}$] *)
Definition clarity_project_id_format : re :=
  Bol ~> Lit "PRJ0" ~> times 4 d ~> Eol.
(** [\b\d{4}\.M\d{2}\b] *)
Definition enterprise_release_id_format : re :=
  WordB ~> times 4 d ~> dot ~> Lit "M" ~> times 2 d ~> WordB.

(** Truthiness of [re.match(...)]. *)
Definition matches (fl : flags) (r : re) (s : string) : bool :=
  bool_decide (is_Some (re_match fl r s)).

(** The truthiness of what the method returns ([True], [False] or [None]). *)
Definition _validate_id_format (field_type excel_value doc_value : string)
    : bool :=
  if String.eqb (lower excel_value) (lower doc_value) then true
  else if String.eqb field_type "release" then
    matches re_I release_format doc_value
    && String.eqb (upper excel_value) (upper doc_value)
  else if String.eqb field_type "business_app_id" then
    matches no_flags business_app_id_format doc_value
    && String.eqb excel_value doc_value
  else if String.eqb field_type "clarity_project_id" then
    matches re_I clarity_project_id_format doc_value
    && String.eqb (upper excel_value) (upper doc_value)
  else if String.eqb field_type "enterprise_release_id" then
    matches re_I enterprise_release_id_format doc_value
    && String.eqb (upper excel_value) (upper doc_value)
  else String.eqb (lower excel_value) (lower doc_value).

Record field_result : Type := mkField {
  expected : option string;
  actual : option string;
  fmatch : bool;
  status : string
}.

Inductive sub_result : Type :=
| SubField (r : field_result)
| SubSection (found : bool) (name description : string).

(** The dataclass of this file.  Its display texts ([details], [expected],
    [actual]) are left out; [failed] tells the result built by an
    [except] branch from the others. *)
Record ComplianceResult : Type := mkResult {
  passed : bool;
  score : Qc;
  failed : bool;
  sub_results : list (string * sub_result)
}.

Abbreviation excel_data := (gmap string (list (option string))).
Abbreviation field_values := (gmap string (option string)).

(** [(excel_field, doc_field, display_name)] *)
Definition field_mappings : list (string * string * string) :=
  [("business_application", "application_name", "Business Application");
   ("business_app_id", "application_id", "Application ID");
   ("clarity_project_id", "project_id", "Project ID");
   ("project_name", "project_name", "Project Name");
   ("release", "release", "Release");
   ("enterprise_release_id", "enterprise_release_id",
    "Enterprise Release ID")].

(** [self.excel_data.get(excel_field, [None])[0]] *)
Definition first_excel_value (excel : excel_data) (excel_field : string)
    : result (option string) :=
  getitem (default [None] (excel !! excel_field)) 0.

(** One turn of the loop over [field_mappings]. *)
Definition check_field (excel : excel_data) (first_page_data : field_values)
    (acc : nat * list (string * sub_result))
    (mapping : string * string * string)
    : result (nat * list (string * sub_result)) :=
  let '(matches, field_results) := acc in
  let '(excel_field, doc_field, display_name) := mapping in
  excel_value ← first_excel_value excel excel_field;
  let doc_value := default None (first_page_data !! doc_field) in
  let '(matches, fm, st) :=
    if negb (opt_not excel_value) && negb (opt_not doc_value) then
      let excel_normalized := strip (default "" excel_value) in
      let doc_normalized := strip (default "" doc_value) in
      if _validate_id_format excel_field excel_normalized doc_normalized
      then (S matches, true, "match")
      else (matches, false, "mismatch")
    else if opt_not excel_value then (matches, false, "missing_excel")
    else (matches, false, "missing_document") in
  Ok (matches,
      (field_results
       ++ [(display_name, SubField (mkField excel_value doc_value fm st))])%list).

Fixpoint for_each {A S : Type} (body : S -> A -> result S) (l : list A) (acc : S)
    : result S :=
  match l with
  | [] => Ok acc
  | x :: l' => acc' ← body acc x; for_each body l' acc'
  end.

Definition _check_first_page_compliance
    (excel : excel_data) (first_page_data : field_values) : ComplianceResult :=
  try_except
    (let total_fields := length field_mappings in
     '(matches, field_results) ←
        for_each (check_field excel first_page_data) field_mappings (0%nat, []);
     let score :=
       if (0 <? total_fields)%nat
       then Qc_of_nat matches / Qc_of_nat total_fields else 0 in
     let passed := Qc_leb (Q2Qc (6 # 10)) score in
     Ok (mkResult passed score false field_results))
    (fun e => mkResult false 0 true []).

(** The entries of [sub_results] whose ['match'] is [True]. *)
Definition is_matched (kv : string * sub_result) : bool :=
  match kv.2 with
  | SubField f => fmatch f
  | SubSection _ _ _ => false
  end.

Definition matched (subs : list (string * sub_result)) : nat :=
  length (filter (fun kv => is_matched kv = true) subs).

(** *** The table-of-contents markers *)

Record toc_section : Type := mkSection {
  section_key : string;
  pattern : re;
  section_name : string;
  section_description : string
}.

Definition sp_or_hyphen : re := Chr (fun c => isspace c || Ascii.eqb c "-").
Definition sp_or_slash : re := Chr (fun c => isspace c || Ascii.eqb c "/").

(** [REQUIRED_TOC_SECTIONS], every pattern with IGNORECASE:
    [\b3\.3\.?\s*(?:non[\s\-]?functional\s+requirement|nfr)\b],
    [\b3\.4\.?\s*(?:in[\s\-]?scope)\b],
    [\b3\.5\.?\s*(?:out[\s\-]?of[\s\-]?scope|out[\s\-]?scope)\b],
    [\b4\.1\.?\s*(?:test[\s\-]?execution)\b],
    [\b12\.?\s*(?:milestones|deliverables|milestones[\s/]*deliverables)\b] *)
Definition REQUIRED_TOC_SECTIONS : list toc_section :=
  [mkSection "non_functional_requirement"
     (WordB ~> Lit "3" ~> dot ~> Lit "3" ~> opt dot ~> star s
      ~> Alt (Lit "non" ~> opt sp_or_hyphen ~> Lit "functional" ~> plus s
              ~> Lit "requirement")
             (Lit "nfr")
      ~> WordB)
     "3.3 - Non Functional Requirement"
     "Section 3.3 - Non Functional Requirements";
   mkSection "in_scope"
     (WordB ~> Lit "3" ~> dot ~> Lit "4" ~> opt dot ~> star s
      ~> (Lit "in" ~> opt sp_or_hyphen ~> Lit "scope")
      ~> WordB)
     "3.4 - In Scope"
     "Section 3.4 - In Scope";
   mkSection "out_of_scope"
     (WordB ~> Lit "3" ~> dot ~> Lit "5" ~> opt dot ~> star s
      ~> Alt (Lit "out" ~> opt sp_or_hyphen ~> Lit "of" ~> opt sp_or_hyphen
              ~> Lit "scope")
             (Lit "out" ~> opt sp_or_hyphen ~> Lit "scope")
      ~> WordB)
     "3.5 - Out of Scope"
     "Section 3.5 - Out of Scope";
   mkSection "test_execution"
     (WordB ~> Lit "4" ~> dot ~> Lit "1" ~> opt dot ~> star s
      ~> (Lit "test" ~> opt sp_or_hyphen ~> Lit "execution")
      ~> WordB)
     "4.1 - Test Execution"
     "Section 4.1 - Test Execution";
   mkSection "milestones"
     (WordB ~> Lit "12" ~> opt dot ~> star s
      ~> Alt (Lit "milestones")
             (Alt (Lit "deliverables")
                  (Lit "milestones" ~> star sp_or_slash ~> Lit "deliverables"))
      ~> WordB)
     "12. Milestones/Deliverables"
     "Section 12 - Milestones/Deliverables"].

(** [table\s+of\s+contents] *)
Definition toc_header : re :=
  Lit "table" ~> plus s ~> Lit "of" ~> plus s ~> Lit "contents".

Record toc_data : Type := mkToc {
  has_table_of_contents : bool;
  has_comprehensive_toc : bool;
  toc_compliance_percentage : Qc;
  found_sections_count : nat;
  total_sections_count : nat;
  required_sections : list (string * sub_result)
}.

(** [sum] over the loop [if section_found: found_sections += 1]. *)
Definition count_found (document_text : string) : nat :=
  length (filter (fun sec => found re_I (pattern sec) document_text = true)
            REQUIRED_TOC_SECTIONS).

Definition _check_table_of_contents (document_text : string) : toc_data :=
  let has_header := found re_I toc_header document_text in
  let found_sections := count_found document_text in
  let total := length REQUIRED_TOC_SECTIONS in
  mkToc has_header
    (Qc_leb (Qc_of_nat total * Q2Qc (6 # 10)) (Qc_of_nat found_sections))
    (Qc_of_nat found_sections / Qc_of_nat total * Q2Qc (100 # 1))
    found_sections total
    (map (fun sec => (section_key sec,
                      SubSection (found re_I (pattern sec) document_text)
                        (section_name sec) (section_description sec)))
       REQUIRED_TOC_SECTIONS).

(** The checker reads the analysis with [.get]; a missing
    [table_of_contents] entry is the empty dict and its defaults. *)
Definition toc_defaults : toc_data := mkToc false false 0 0 0 [].

Definition _check_table_of_contents_compliance (toc : option toc_data)
    : ComplianceResult :=
  let toc_data := default toc_defaults toc in
  let has_toc := has_table_of_contents toc_data in
  let compliance_percentage := toc_compliance_percentage toc_data in
  let score := compliance_percentage / Q2Qc (100 # 1) in
  let passed := has_toc && Qc_leb (Q2Qc (6 # 10)) score in
  mkResult passed score false (required_sections toc_data).

(** *** Milestone dates *)

(** What the analyzer reads of a python-docx document. *)
Record document : Type := mkDocument {
  paragraphs : list string;
  tables : list (list (list string))       (* table, row, cell text *)
}.

(** ['\n'.join(parts)], [' '.join(parts)] *)
Fixpoint join (sep : string) (parts : list string) : string :=
  match parts with
  | [] => ""
  | [x] => x
  | x :: rest => x ++ sep ++ join sep rest
  end.

Definition nonblank (t : string) : bool := negb (str_not (strip t)).

Definition _extract_full_text (doc : document) : string :=
  let text_parts :=
    (map strip (filter (fun t => nonblank t = true) (paragraphs doc))
     ++ map strip
          (filter (fun t => nonblank t = true) (concat (concat (tables doc)))))%list in
  join (String newline "") text_parts.

(** [\b12\.?\s*(?:milestones|deliverables)\b], [\bimplementation\b],
    [\bmilestone\b], [\b(?:milestone|deliverable|completion|finish)\b] *)
Definition section12 : re :=
  WordB ~> Lit "12" ~> opt dot ~> star s
  ~> Alt (Lit "milestones") (Lit "deliverables") ~> WordB.
Definition implementation_word : re := WordB ~> Lit "implementation" ~> WordB.
Definition milestone_word : re := WordB ~> Lit "milestone" ~> WordB.
Definition milestone_keyword : re :=
  WordB
  ~> Alt (Lit "milestone")
         (Alt (Lit "deliverable") (Alt (Lit "completion") (Lit "finish")))
  ~> WordB.

(** [dates.append(x)] where [dates] is a [str]. *)
Definition str_append (dates : string) (x : string) : result unit :=
  Raise (Exn "AttributeError" "'str' object has no attribute 'append'").

(** [for date_match in date_matches: ...] of both branches. *)
Definition append_dates (dates : string) (date_matches : list string)
    : result unit :=
  for_each
    (fun _ date_match =>
       let normalized_date := normalize_date date_match in
       if negb (str_not normalized_date) then str_append dates normalized_date
       else Ok tt)
    date_matches tt.

(** The cells of a row from index [cell_idx] on. *)
Fixpoint scan_cells (dates : string) (cells : list string) : result unit :=
  match cells with
  | [] => Ok tt
  | cell_text :: next_cells =>
      _ ← (if found re_I implementation_word cell_text then
             for_each
               (fun _ next_cell =>
                  append_dates dates
                    (findall re_I OptimizedPatterns.DATE_GENERAL next_cell))
               next_cells tt
           else if found re_I milestone_keyword cell_text then
             append_dates dates
               (findall re_I OptimizedPatterns.DATE_GENERAL cell_text)
           else Ok tt);
      scan_cells dates next_cells
  end.

Definition scan_table (dates : string) (table : list (list string))
    : result unit :=
  let table_text :=
    filter (fun row => row ≠ [])
      (map (fun row => map strip (filter (fun t => nonblank t = true) row))
         table) in
  let table_full_text := join " " (map (join " ") table_text) in
  if found re_I section12 table_full_text
     || found re_I implementation_word table_full_text
     || found re_I milestone_word table_full_text
  then for_each (fun _ row_data => scan_cells dates row_data) table_text tt
  else Ok tt.

Definition _extract_dates_from_milestones_table (doc : document) : string :=
  let dates := "" in
  try_except
    (_ ← for_each (fun _ table => scan_table dates table) (tables doc) tt;
     Ok dates)
    (fun _ => dates).

(** A value that is a [str] or a list of [str]. *)
Inductive str_or_list : Type :=
| VStr (s : string)
| VList (l : list string).

(** [dates.extend(x)]: a [str] is iterated character by character. *)
Definition extend (dates : list string) (x : str_or_list) : list string :=
  match x with
  | VList l => dates ++ l
  | VStr t => dates ++ map (fun c => String c "") (list_ascii_of_string t)
  end%list.

(** The loop with [seen] and [unique_dates]. *)
Fixpoint unique (seen : gset string) (dates : list string) : list string :=
  match dates with
  | [] => []
  | date :: rest =>
      if bool_decide (date ∈ seen) then unique seen rest
      else date :: unique ({[date]} ∪ seen) rest
  end.

(** [str(l)] for a list of texts free of quotes and escapes, as dates are. *)
Definition repr_list (l : list string) : string :=
  "[" ++ join ", " (map (fun t => "'" ++ t ++ "'") l) ++ "]".

Definition _extract_implementation_dates_enhanced
    (doc : document) (document_text : string) : str_or_list :=
  let matches :=
    findall re_I_M OptimizedPatterns.DATE_IMPLEMENTATION document_text in
  let dates :=
    map normalize_date (filter (fun date => str_not date = false) matches) in
  let table_dates := _extract_dates_from_milestones_table doc in
  let dates := extend dates (VStr table_dates) in
  let unique_dates := unique ∅ dates in
  VStr (repr_list unique_dates).

(** The ['implementation_dates'] entry of [analyze]. *)
Definition implementation_dates (doc : document) : str_or_list :=
  _extract_implementation_dates_enhanced doc (_extract_full_text doc).

End Version2.

(** ** More of Python's [str] *)

Module Str.
Import Py.

(** [a in b]: [a] occurs in [b] as a run of consecutive characters. *)
Fixpoint contains (b a : string) : bool :=
  String.prefix a b
  || match b with
     | EmptyString => false
     | String _ b' => contains b' a
     end.

(** [any(k in text for k in keys)] *)
Definition contains_any (text : string) (keys : list string) : bool :=
  existsb (contains text) keys.

(** [min(a, b)], which keeps [a] when the two are equal. *)
Definition fmin (a b : Qc) : Qc := if Qc_ltb b a then b else a.

(** The text of each entry of a list of numbers. *)
Definition strs_of_nats (l : list nat) : list string := map str_of_nat l.

End Str.

(** ** docx_compliance.py and pptx_compliance.py, the other checks *)

(** What the analyzers put under the keys the checks read.  A missing
    key is the default its [.get] names: [False], [None], the empty
    list. *)
Module DocumentData.
Import Py BaseChecker Compliance.

Record footer_data : Type := mkFooter {
  project_name_in_footer : option string
}.

Record embedded_excel_data : Type := mkEmbedded {
  has_embedded_excel : bool;
  worksheet_names : list string;
  has_architecture_sheet : bool;
  embedded_excel_count : nat
}.

Record milestones_data : Type := mkMilestones {
  has_milestones_section : bool;
  milestone_slides : list nat;
  implementation_dates : list string
}.

Record plt_data : Type := mkPlt {
  has_plt_status : bool;
  plt_status : option string;
  plt_slides : list nat
}.

Record docx_document : Type := mkDocxDocument {
  docx_page : docx_data;
  footer : footer_data;
  docx_embedded_excel : embedded_excel_data;
  docx_milestones : milestones_data
}.

Record pptx_document : Type := mkPptxDocument {
  slide_count : nat;
  first_slide_data : first_slide;
  pptx_embedded_excel : embedded_excel_data;
  pptx_milestones : milestones_data;
  pptx_plt_status : plt_data
}.

(** [REQUIRED_WORKSHEETS] of config.py.  It is a frozenset, whose
    iteration order Python does not fix: the checks count its members,
    which does not depend on the order, and list them in the details,
    where the order of this list stands for the order of the run. *)
Definition REQUIRED_WORKSHEETS : list string :=
  ["Cover Page"; "General Details"; "Business Scenario(s)";
   "Data Requirement"; "Architecture"; "Logs&Contacts"].

(** The loop over [REQUIRED_WORKSHEETS]: a required sheet is found when
    its lowercased name occurs in a lowercased worksheet name. *)
Definition worksheet_found (worksheet_names : list string)
    (required_ws : string) : bool :=
  existsb (fun ws => Str.contains (lower ws) (lower required_ws))
    worksheet_names.

Definition found_worksheets (worksheet_names : list string) : list string :=
  filter (fun required_ws => worksheet_found worksheet_names required_ws = true)
    REQUIRED_WORKSHEETS.

(** [[str(name) for name in names if name]] *)
Definition truthy_names (names : list (option string)) : list string :=
  omap (fun name => match name with
                    | Some t => if str_not t then None else Some t
                    | None => None
                    end) names.

(** A list with [None] entries, shown by the text of each entry. *)
Definition shown (values : list (option string)) : list string :=
  map (from_option id "None") values.

End DocumentData.

(** Each check of the two files wraps its body in [try]/[except] and turns
    an exception into a failed result.  On entries of the types above the
    bodies below raise nothing, except through the matcher that
    [_check_footer_compliance] calls: that check keeps its handler, the
    others are their [try] body. *)

Module DocxChecks.
Import Py BaseChecker Compliance Str DocumentData.

Definition _check_footer_compliance (excel : excel_data) (doc : docx_document)
    : ComplianceResult :=
  try_except
    (let project_in_footer := project_name_in_footer (footer doc) in
     if opt_not project_in_footer then
       Ok (mkResult "footer_validation" false 0
             [("error", DStr "No project name found in footer")]
             ["No project name found in footer"])
     else if available excel "project_name" then
       '(is_match, score, best_match) ←
          _vectorized_text_match (str_of_opt project_in_footer)
            (truthy_names (excel_get excel "project_name"))
            DEFAULT_MATCH_THRESHOLD;
       Ok (mkResult "footer_validation" is_match score
             [("footer_project_name", DStr (str_of_opt project_in_footer));
              ("excel_project_names",
               DStrs (shown (excel_get excel "project_name")));
              ("best_match", from_option DStr DNone best_match);
              ("similarity_score", DNum score)]
             (if is_match then []
              else ["Project name in footer does not match Excel data"]))
     else
       Ok (mkResult "footer_validation" false 0
             [("error", DStr "No project names in Excel data")]
             ["No project names in Excel data"]))
    (fun e =>
       let error_msg := "Error checking footer compliance: " ++ exn_msg e in
       mkResult "footer_validation" false 0 [("error", DStr error_msg)]
         [error_msg]).

Definition _check_embedded_excel_compliance (doc : docx_document)
    : ComplianceResult :=
  let excel_data := docx_embedded_excel doc in
  if negb (has_embedded_excel excel_data) then
    mkResult "embedded_excel_validation" false 0
      [("error", DStr "No embedded Excel files found")]
      ["No embedded Excel files found"]
  else
    let worksheet_names := worksheet_names excel_data in
    let has_architecture := has_architecture_sheet excel_data in
    let score : Qc := 0 in
    let errors : list string := [] in
    let found_worksheets := found_worksheets worksheet_names in
    let worksheet_score :=
      Qc_of_nat (length found_worksheets)
      / Qc_of_nat (length REQUIRED_WORKSHEETS) in
    let score := score + worksheet_score * Q2Qc (8 # 10) in
    let '(score, errors) :=
      if has_architecture then (score + Q2Qc (2 # 10), errors)
      else (score, (errors ++ ["Architecture sheet not found"])%list) in
    let passed := Qc_leb (Q2Qc (7 # 10)) score in
    mkResult "embedded_excel_validation" passed score
      [("has_embedded_excel", DBool (has_embedded_excel excel_data));
       ("worksheet_names", DStrs worksheet_names);
       ("required_worksheets", DStrs REQUIRED_WORKSHEETS);
       ("found_worksheets", DStrs found_worksheets);
       ("has_architecture_sheet", DBool has_architecture);
       ("worksheet_compliance_rate", DNum worksheet_score)]
      errors.

Definition _check_milestones_compliance (excel : excel_data)
    (doc : docx_document) : ComplianceResult :=
  let milestones_data := docx_milestones doc in
  let has_milestones := has_milestones_section milestones_data in
  let implementation_dates := implementation_dates milestones_data in
  if negb has_milestones then
    mkResult "milestones_validation" false 0
      [("error", DStr "Milestones section not found")]
      ["Section 12 milestones not found"]
  else
    let score := Q2Qc (6 # 10) in
    let score :=
      if negb (bool_decide (implementation_dates = [])) then
        let score := score + Q2Qc (4 # 10) in
        if available excel "end_date" then fmin (score + Q2Qc (2 # 10)) 1
        else score
      else score in
    let passed := Qc_leb (Q2Qc (6 # 10)) score in
    mkResult "milestones_validation" passed score
      [("has_milestones_section", DBool has_milestones);
       ("implementation_dates", DStrs implementation_dates);
       ("excel_end_dates", DStrs (shown (excel_get excel "end_date")));
       ("dates_found", DInt (length implementation_dates))]
      (if passed then [] else ["Milestones section incomplete"]).

(** The bound methods, each with its [__name__]; none of them lets an
    exception out. *)
Definition get_check_functions (excel : excel_data) (doc : docx_document)
    : list check_function :=
  [mkCheck "_check_first_page_compliance"
     (Ok (OutResult (_check_first_page_compliance excel (docx_page doc))));
   mkCheck "_check_footer_compliance"
     (Ok (OutResult (_check_footer_compliance excel doc)));
   mkCheck "_check_table_of_contents_compliance"
     (Ok (OutResult (_check_table_of_contents_compliance (docx_page doc))));
   mkCheck "_check_embedded_excel_compliance"
     (Ok (OutResult (_check_embedded_excel_compliance doc)));
   mkCheck "_check_milestones_compliance"
     (Ok (OutResult (_check_milestones_compliance excel doc)))].

End DocxChecks.

Module PptxChecks.
Import Py BaseChecker Compliance Str DocumentData.

Definition _check_embedded_excel_compliance (doc : pptx_document)
    : ComplianceResult :=
  let excel_data := pptx_embedded_excel doc in
  if negb (has_embedded_excel excel_data) then
    mkResult "embedded_excel_validation" false 0
      [("error", DStr "No embedded Excel files found in PPTX")]
      ["No embedded Excel files found in PPTX"]
  else
    let worksheet_names := worksheet_names excel_data in
    let has_architecture := has_architecture_sheet excel_data in
    let score : Qc := 0 in
    let errors : list string := [] in
    let found_worksheets := found_worksheets worksheet_names in
    let worksheet_score :=
      if negb (bool_decide (REQUIRED_WORKSHEETS = [])) then
        Qc_of_nat (length found_worksheets)
        / Qc_of_nat (length REQUIRED_WORKSHEETS)
      else 0 in
    let score := score + worksheet_score * Q2Qc (8 # 10) in
    let '(score, errors) :=
      if has_architecture then (score + Q2Qc (2 # 10), errors)
      else (score,
            (errors ++ ["Architecture sheet not found in embedded Excel"])%list) in
    let passed := Qc_leb (Q2Qc (7 # 10)) score in
    mkResult "embedded_excel_validation" passed score
      [("has_embedded_excel", DBool (has_embedded_excel excel_data));
       ("worksheet_names", DStrs worksheet_names);
       ("required_worksheets", DStrs REQUIRED_WORKSHEETS);
       ("found_worksheets", DStrs found_worksheets);
       ("has_architecture_sheet", DBool has_architecture);
       ("worksheet_compliance_rate", DNum worksheet_score);
       ("embedded_excel_count", DInt (embedded_excel_count excel_data))]
      errors.

Definition _check_milestones_compliance (excel : excel_data)
    (doc : pptx_document) : ComplianceResult :=
  let milestones_data := pptx_milestones doc in
  let has_milestones := has_milestones_section milestones_data in
  let milestone_slides := milestone_slides milestones_data in
  let implementation_dates := implementation_dates milestones_data in
  if negb has_milestones then
    mkResult "milestones_validation" false 0
      [("error", DStr "No milestones found in any slides")]
      ["No milestones found in any slides"]
  else
    let score := Q2Qc (4 # 10) in
    let score :=
      if negb (bool_decide (milestone_slides = []))
      then score + Q2Qc (3 # 10) else score in
    let score :=
      if negb (bool_decide (implementation_dates = [])) then
        let score := score + Q2Qc (3 # 10) in
        if available excel "end_date" then fmin (score + Q2Qc (2 # 10)) 1
        else score
      else score in
    let passed := Qc_leb (Q2Qc (6 # 10)) score in
    mkResult "milestones_validation" passed score
      [("has_milestones_section", DBool has_milestones);
       ("milestone_slides", DStrs (strs_of_nats milestone_slides));
       ("implementation_dates", DStrs implementation_dates);
       ("excel_end_dates", DStrs (shown (excel_get excel "end_date")));
       ("slides_with_milestones", DInt (length milestone_slides));
       ("dates_found", DInt (length implementation_dates))]
      (if passed then [] else ["Milestones section incomplete"]).

Definition positive_indicators : list string :=
  ["complete"; "passed"; "successful"; "green"; "ok"].

Definition negative_indicators : list string :=
  ["pending"; "failed"; "incomplete"; "red"; "issue"].

Definition _check_plt_status_compliance (doc : pptx_document)
    : ComplianceResult :=
  let plt_data := pptx_plt_status doc in
  let has_plt_status := has_plt_status plt_data in
  let plt_status := plt_status plt_data in
  let plt_slides := plt_slides plt_data in
  if negb has_plt_status then
    mkResult "plt_status_validation" false 0
      [("error", DStr "PLT status not found in any slides")]
      ["PLT (Production Live Testing) status not found"]
  else
    let score := Q2Qc (7 # 10) in
    let score :=
      if negb (opt_not plt_status) then
        let plt_status_lower := lower (str_of_opt plt_status) in
        if contains_any plt_status_lower positive_indicators
        then score + Q2Qc (3 # 10)
        else if contains_any plt_status_lower negative_indicators
        then score + Q2Qc (1 # 10)
        else score + Q2Qc (2 # 10)
      else score in
    let passed := Qc_leb (Q2Qc (7 # 10)) score in
    mkResult "plt_status_validation" passed score
      [("has_plt_status", DBool has_plt_status);
       ("plt_status", from_option DStr DNone plt_status);
       ("plt_slides", DStrs (strs_of_nats plt_slides));
       ("slides_with_plt", DInt (length plt_slides))]
      (if passed then [] else ["PLT status found but may need more detail"]).

(** The verdict and the score of [_check_plt_status_compliance] in
    binary64, as the code adds them: there [0.7 + 0.1] is
    0.7999999999999999 and [0.7 + 0.2] is 0.8999999999999999, where the
    exact sums above are 8/10 and 9/10. *)
Definition _check_plt_status_compliance_binary64 (doc : pptx_document)
    : bool * float :=
  let plt_data := pptx_plt_status doc in
  let has_plt_status := has_plt_status plt_data in
  let plt_status := plt_status plt_data in
  if negb has_plt_status then (false, 0%float)
  else
    let score := 0.7%float in
    let score :=
      if negb (opt_not plt_status) then
        let plt_status_lower := lower (str_of_opt plt_status) in
        if contains_any plt_status_lower positive_indicators
        then (score + 0.3)%float
        else if contains_any plt_status_lower negative_indicators
        then (score + 0.1)%float
        else (score + 0.2)%float
      else score in
    let passed := Binary64.geb score 0.7%float in
    (passed, score).

Definition _check_slide_count_compliance (doc : pptx_document)
    : ComplianceResult :=
  let slide_count := slide_count doc in
  let '(score, passed, errors) :=
    if (10 <=? slide_count)%nat then (1, true, [])
    else if (5 <=? slide_count)%nat then (Q2Qc (8 # 10), true, [])
    else if (3 <=? slide_count)%nat then
      (Q2Qc (6 # 10), true,
       ["Presentation seems short for a comprehensive test report"])
    else
      (Q2Qc (3 # 10), false,
       ["Presentation is too short for a proper test report"]) in
  mkResult "slide_count_validation" passed score
    [("slide_count", DInt slide_count);
     ("minimum_expected", DInt 5);
     ("comprehensive_threshold", DInt 10)]
    errors.

Definition get_check_functions (excel : excel_data) (doc : pptx_document)
    : list check_function :=
  [mkCheck "_check_first_slide_compliance"
     (Ok (OutResult (_check_first_slide_compliance excel
                       (first_slide_data doc))));
   mkCheck "_check_embedded_excel_compliance"
     (Ok (OutResult (_check_embedded_excel_compliance doc)));
   mkCheck "_check_milestones_compliance"
     (Ok (OutResult (_check_milestones_compliance excel doc)));
   mkCheck "_check_plt_status_compliance"
     (Ok (OutResult (_check_plt_status_compliance doc)));
   mkCheck "_check_slide_count_compliance"
     (Ok (OutResult (_check_slide_count_compliance doc)))].

End PptxChecks.
(** ** config.py, the column names *)

Module ColumnMappings.
Import Py Str.

Definition EXCEL_COLUMN_MAPPINGS : gmap string (list string) :=
  {[ "release" := ["Release"; "Release Version"; "Version"];
     "business_app_id" :=
       ["Business Application ID"; "Business App ID"; "App ID";
        "Application ID"];
     "enterprise_release_id" :=
       ["Enterprise Release ID"; "Release ID"; "Enterprise ID"];
     "project_name" := ["Project Name"; "Project"; "Name"];
     "task_id" := ["Task ID"; "Task"; "ID"];
     "end_date" :=
       ["End Date"; "Completion Date"; "Target Date"; "Due Date"] ]}.

(** The function is pure, so its [lru_cache] does not show. *)
Definition get_column_mapping_cache (column_name mapping_key : string) : bool :=
  let possible_names := default [] (EXCEL_COLUMN_MAPPINGS !! mapping_key) in
  existsb (fun name => contains (lower column_name) (lower name))
    possible_names.

End ColumnMappings.

(** ** smart_compliance_checker_complete_Version2.py, the other checks *)

(** The checks of this file wrap their body in [try]/[except] as well.  A
    check that indexes a reference list ([...[0]]) can raise and keeps its
    handler; the others are their [try] body. *)

Module Version2Checks.
Import Py Re Str Version2.

(** *** The implementation date *)

(** [not x] for a [str] or a list. *)
Definition value_not (x : str_or_list) : bool :=
  match x with
  | VStr t => str_not t
  | VList l => bool_decide (l = [])
  end.

(** What [for impl_date in x] goes through: the entries of a list, the
    characters of a [str]. *)
Definition iterate (x : str_or_list) : list string :=
  match x with
  | VList l => l
  | VStr t => map (fun c => String c "") (list_ascii_of_string t)
  end.

(** The loop [for impl_date in ...: if excel_date_normalized == impl_date:
    return ...]: the first entry that is equal, if any. *)
Fixpoint first_equal (x : string) (l : list string) : option string :=
  match l with
  | [] => None
  | impl_date :: l' =>
      if String.eqb x impl_date then Some impl_date else first_equal x l'
  end.

Definition _check_implementation_date_compliance
    (excel : excel_data) (implementation_dates : str_or_list)
    : ComplianceResult :=
  try_except
    (excel_install_date ← first_excel_value excel "install_start_date";
     if opt_not excel_install_date then Ok (mkResult false 0 false [])
     else if value_not implementation_dates then
       Ok (mkResult false 0 false [])
     else
       let excel_date_normalized :=
         normalize_date (default "" excel_install_date) in
       match first_equal excel_date_normalized (iterate implementation_dates)
       with
       | Some impl_date => Ok (mkResult true 1 false [])
       | None => Ok (mkResult false 0 false [])
       end)
    (fun e => mkResult false 0 true []).

(** *** The sheets of an embedded workbook *)

(** [re.sub(r'[^\w\s]', '', t)] *)
Fixpoint strip_special (t : string) : string :=
  match t with
  | EmptyString => EmptyString
  | String c t' =>
      if isword c || isspace c then String c (strip_special t')
      else strip_special t'
  end.

Definition _check_sheet_name_match (sheet_names : list string)
    (required_sheet : string) : bool :=
  if bool_decide (sheet_names = []) then false
  else if existsb (fun sheet_name =>
                     String.eqb (lower sheet_name) (lower required_sheet))
            sheet_names
  then true
  else
    let required_normalized := strip_special (lower required_sheet) in
    existsb (fun sheet_name =>
               let sheet_normalized := strip_special (lower sheet_name) in
               contains sheet_normalized required_normalized
               || contains required_normalized sheet_normalized)
      sheet_names.

Definition required_sheets : list string :=
  ["Cover Page"; "General Details"; "Business Scenario(s)";
   "Data Requirement"; "Architecture"; "Logs&Contacts"].

(** One entry of [excel_files_info]. *)
Record excel_info : Type := mkInfo {
  index : nat;
  content_type : string;
  sheet_names : list string;
  required_sheets_found : list (string * bool);
  total_sheets : nat
}.

(** A part that a relationship of the document points to: its content
    type and, when it has a blob, the sheet names that
    [_extract_sheet_names_from_blob] reads from it (the empty list when
    the blob cannot be read). *)
Record target_part : Type := mkPart {
  part_content_type : string;
  blob_sheet_names : option (list string)
}.

Definition is_workbook (content_type : string) : bool :=
  contains (lower content_type) "excel"
  || contains (lower content_type) "spreadsheet".

(** One turn of the loop over the relationships, for a relationship that
    has a target part. *)
Definition add_part (excel_files_info : list excel_info) (part : target_part)
    : list excel_info :=
  if is_workbook (part_content_type part) then
    let index := (length excel_files_info + 1)%nat in
    let excel_info :=
      match blob_sheet_names part with
      | Some sheet_names =>
          mkInfo index (part_content_type part) sheet_names
            (map (fun required_sheet =>
                    (required_sheet,
                     _check_sheet_name_match sheet_names required_sheet))
               required_sheets)
            (length sheet_names)
      | None => mkInfo index (part_content_type part) [] [] 0
      end in
    (excel_files_info ++ [excel_info])%list
  else excel_files_info.

(** A relationship of the document part.  An external relationship (a
    hyperlink) has no target part: reading [rel.target_part] raises
    [ValueError], which [hasattr] lets through. *)
Inductive relationship : Type :=
| External
| Internal (part : target_part).

Definition target_part_of (rel : relationship) : result target_part :=
  match rel with
  | External =>
      Raise (Exn "ValueError"
               "target_part property on _Relationship is undefined")
  | Internal part => Ok part
  end.

(** The loop over [document.part.rels.values()] inside its [try]: an
    exception ends the loop, and what was collected so far is returned. *)
Fixpoint for_rels (rels : list relationship)
    (excel_files_info : list excel_info) : list excel_info :=
  match rels with
  | [] => excel_files_info
  | rel :: rels' =>
      match target_part_of rel with
      | Ok part => for_rels rels' (add_part excel_files_info part)
      | Raise _ => excel_files_info
      end
  end.

Definition extract_sheet_names_from_embedded_excel (rels : list relationship)
    : list excel_info :=
  for_rels rels [].

(** The ['embedded_excel'] entry of [analyze]. *)
Record embedded_excel : Type := mkEmbeddedExcel {
  has_embedded_excel : bool;
  excel_count : nat;
  excel_files_info : list excel_info
}.

Definition _check_embedded_excel_with_sheets (rels : list relationship)
    : embedded_excel :=
  let excel_files_info := extract_sheet_names_from_embedded_excel rels in
  let excel_count := length excel_files_info in
  mkEmbeddedExcel (0 <? excel_count)%nat excel_count excel_files_info.

(** [sum(1 for found in required_sheets_found.values() if found)] *)
Definition found_in_file (excel_info : excel_info) : nat :=
  length (filter (fun kv => kv.2 = true) (required_sheets_found excel_info)).

(** The result of the embedded workbook check; of its breakdown by file
    the sheets marked found are kept, the display texts are left out. *)
Record sheets_result : Type := mkSheetsResult {
  sheets_passed : bool;
  sheets_score : Qc;
  per_file : gmap string (list (string * bool))
}.

(** [required_sheets_found.get(required_sheet, False)] *)
Definition sheet_flag (found : list (string * bool)) (required_sheet : string)
    : bool :=
  match find (fun kv => String.eqb kv.1 required_sheet) found with
  | Some kv => kv.2
  | None => false
  end.

(** One turn of the loop over [excel_files_info]. *)
Definition count_file
    (acc : nat * gmap string (list (string * bool))) (excel_info : excel_info)
    : nat * gmap string (list (string * bool)) :=
  let '(overall_found_sheets, sub_results) := acc in
  let found_in_this_file := found_in_file excel_info in
  let overall_found_sheets := Nat.max overall_found_sheets found_in_this_file in
  let excel_key := String.append "Excel File " (str_of_nat (index excel_info)) in
  (overall_found_sheets,
   <[excel_key :=
       map (fun required_sheet =>
              (required_sheet,
               sheet_flag (required_sheets_found excel_info) required_sheet))
         required_sheets]> sub_results).

Definition _check_embedded_excel_compliance (excel_data : embedded_excel)
    : sheets_result :=
  if negb (has_embedded_excel excel_data) || (excel_count excel_data =? 0)%nat
  then mkSheetsResult false 0 ∅
  else
    let total_required := length required_sheets in
    let '(overall_found_sheets, sub_results) :=
      foldl count_file (0%nat, ∅) (excel_files_info excel_data) in
    let score :=
      if (0 <? total_required)%nat
      then Qc_of_nat overall_found_sheets / Qc_of_nat total_required
      else 0 in
    mkSheetsResult (Qc_leb (Q2Qc (6 # 10)) score) score sub_results.

(** *** The first slide of a presentation *)

(** [first_slide_data]: the flag and the text entries of the dict. *)
Record slide_data : Type := mkSlideData {
  hyphenated_ids_found : bool;
  slide_values : field_values
}.

(** [(RLSE\d{7})\s*-\s*(PRJ0\d{4})] *)
Definition HYPHENATED_IDS : re :=
  Grp (Lit "RLSE" ~> times 7 d) ~> star s ~> Lit "-" ~> star s
  ~> Grp (Lit "PRJ0" ~> times 4 d).

(** [_analyze_first_slide] on the text of the first slide, [None] for a
    presentation without slides.  [metadata] stands for the search of the
    three [METADATA_PATTERNS]: the first group of the match of a field's
    pattern in the text, if it matches. *)
Definition _analyze_first_slide
    (metadata : string -> string -> option string)
    (slide_text : option string) : slide_data :=
  let first_slide_data :=
    mkSlideData false
      {[ "project_name" := None; "application_name" := None;
         "release" := None; "hyphenated_enterprise_release_id" := None;
         "hyphenated_clarity_project_id" := None ]} in
  match slide_text with
  | None => first_slide_data
  | Some slide_text =>
      let first_slide_data :=
        foldl (fun data field_name =>
                 match metadata field_name slide_text with
                 | Some group =>
                     mkSlideData (hyphenated_ids_found data)
                       (<[field_name := Some (strip group)]>
                          (slide_values data))
                 | None => data
                 end)
          first_slide_data ["project_name"; "application_name"; "release"] in
      match search re_I HYPHENATED_IDS slide_text with
      | Some e =>
          mkSlideData true
            (<["hyphenated_clarity_project_id" := nth_error (caps e) 1]>
               (<["hyphenated_enterprise_release_id" := nth_error (caps e) 0]>
                  (slide_values first_slide_data)))
      | None => first_slide_data
      end
  end.

(** The reference data that [_run_pptx_compliance_check] and
    [_run_docx_compliance_check] hand to the checker. *)
Definition reference_of (project_data : gmap string string) : excel_data :=
  {[ "enterprise_release_id" := [project_data !! "Enterprise Release ID"];
     "business_application" := [project_data !! "Business Application"];
     "business_app_id" := [project_data !! "Application ID"];
     "release" := [project_data !! "Release"];
     "clarity_project_id" := [project_data !! "Clarity Project ID"];
     "project_name" := [project_data !! "Project Name"];
     "install_start_date" := [project_data !! "Install Start Date"] ]}.

(** One of the two blocks of [_check_hyphenated_ids_compliance]. *)
Definition id_check (format : re) (excel_value ppt_value : option string)
    : bool * field_result :=
  if negb (opt_not excel_value) && negb (opt_not ppt_value) then
    if matches re_I format (default "" ppt_value)
       && String.eqb (upper (default "" excel_value))
            (upper (default "" ppt_value))
    then (true, mkField excel_value ppt_value true "match")
    else (false, mkField excel_value ppt_value false "mismatch")
  else if opt_not excel_value then
    (false, mkField excel_value ppt_value false "missing_excel")
  else (false, mkField excel_value ppt_value false "missing_document").

Definition _check_hyphenated_ids_compliance
    (excel : excel_data) (first_slide_data : slide_data) : ComplianceResult :=
  try_except
    (if negb (hyphenated_ids_found first_slide_data) then
       Ok (mkResult false 0 false [])
     else
       excel_enterprise ← first_excel_value excel "release_id";
       let ppt_enterprise :=
         default None (slide_values first_slide_data
                         !! "hyphenated__release_id") in
       excel_clarity ← first_excel_value excel "clarity_project_id";
       let ppt_clarity :=
         default None (slide_values first_slide_data
                         !! "hyphenated_clarity_project_id") in
       let matches := 0%nat in
       let total_checks := 2%nat in
       let '(enterprise_match, enterprise_result) :=
         id_check release_format excel_enterprise ppt_enterprise in
       let matches := if enterprise_match then S matches else matches in
       let '(clarity_match, clarity_result) :=
         id_check clarity_project_id_format excel_clarity ppt_clarity in
       let matches := if clarity_match then S matches else matches in
       let score :=
         if (0 <? total_checks)%nat
         then Qc_of_nat matches / Qc_of_nat total_checks else 0 in
       let passed := Qc_leb (Q2Qc (5 # 10)) score in
       Ok (mkResult passed score false
             [("Enterprise Release ID", SubField enterprise_result);
              ("Clarity Project ID", SubField clarity_result)]))
    (fun e => mkResult false 0 true []).

(** *** The other checks of the presentation checker *)

Definition slide_field_mappings : list (string * string * string) :=
  [("project_name", "project_name", "Project Name");
   ("business_application", "application_name", "Application Name");
   ("release", "release", "Release")].

(** One turn of the loop of [_check_first_slide_compliance]. *)
Definition check_slide_field (excel : excel_data)
    (first_slide_data : slide_data)
    (acc : nat * list (string * sub_result))
    (mapping : string * string * string)
    : result (nat * list (string * sub_result)) :=
  let '(matches, field_results) := acc in
  let '(excel_field, ppt_field, display_name) := mapping in
  excel_value ← first_excel_value excel excel_field;
  let ppt_value :=
    default None (slide_values first_slide_data !! ppt_field) in
  let '(matches, fm, st) :=
    if negb (opt_not excel_value) && negb (opt_not ppt_value) then
      let excel_normalized := strip (default "" excel_value) in
      let ppt_normalized := strip (default "" ppt_value) in
      if String.eqb (lower excel_normalized) (lower ppt_normalized)
      then (S matches, true, "match")
      else (matches, false, "mismatch")
    else if opt_not excel_value then (matches, false, "missing_excel")
    else (matches, false, "missing_document") in
  Ok (matches,
      (field_results
       ++ [(display_name,
            SubField (mkField excel_value ppt_value fm st))])%list).

Definition _check_first_slide_compliance
    (excel : excel_data) (first_slide_data : slide_data) : ComplianceResult :=
  try_except
    (let total_fields := length slide_field_mappings in
     '(matches, field_results) ←
        for_each (check_slide_field excel first_slide_data)
          slide_field_mappings (0%nat, []);
     let score :=
       if (0 <? total_fields)%nat
       then Qc_of_nat matches / Qc_of_nat total_fields else 0 in
     let passed := Qc_leb (Q2Qc (6 # 10)) score in
     Ok (mkResult passed score false field_results))
    (fun e => mkResult false 0 true []).

(** The ['pt_status'] entry of the analysis. *)
Record pt_status_data : Type := mkPtStatus {
  status_found : bool;
  status_value : option string;
  has_proper_header : bool;
  status_slide_number : option nat
}.

Definition _check_pt_status_compliance (pt_status_data : pt_status_data)
    : ComplianceResult :=
  if status_found pt_status_data
     && bool_decide (status_value pt_status_data
                     ∈ [Some "PASS"; Some "FAIL"])
  then
    let score := if has_proper_header pt_status_data then 1
                 else Q2Qc (7 # 10) in
    mkResult true score false []
  else mkResult false 0 false [].

Definition _check_presentation_structure (slide_count total_text_boxes : nat)
    : ComplianceResult :=
  let has_multiple_slides := (1 <? slide_count)%nat in
  let has_content := (0 <? total_text_boxes)%nat in
  let score : Qc := 0 in
  let score := if has_multiple_slides then score + Q2Qc (5 # 10) else score in
  let score := if has_content then score + Q2Qc (5 # 10) else score in
  mkResult (Qc_leb (Q2Qc (5 # 10)) score) score false [].

(** What the presentation analyzer returns: an error, or its entries. *)
Record presentation_data : Type := mkPresentation {
  presentation_error : option string;
  first_slide_data : slide_data;
  pt_status : pt_status_data;
  slide_count : nat;
  total_text_boxes : nat
}.

(** The report of [check_compliance]: the overall score and the results
    by name, in the order of the dict; the summary text is left out. *)
Record compliance_report : Type := mkComplianceReport {
  overall_score : Qc;
  detailed_results : list (string * ComplianceResult)
}.

Definition overall (detailed_results : list (string * ComplianceResult))
    : Qc :=
  let total_score := fsum (map (fun kv => score kv.2) detailed_results) in
  let max_possible_score := length detailed_results in
  if (0 <? max_possible_score)%nat
  then total_score / Qc_of_nat max_possible_score else 0.

Definition pptx_check_compliance (excel : excel_data)
    (document_data : presentation_data) : compliance_report :=
  match presentation_error document_data with
  | Some _ => mkComplianceReport 0 []
  | None =>
      let detailed_results :=
        [("first_slide_compliance",
          _check_first_slide_compliance excel (first_slide_data document_data));
         ("hyphenated_ids_compliance",
          _check_hyphenated_ids_compliance excel
            (first_slide_data document_data));
         ("pt_status_compliance",
          _check_pt_status_compliance (pt_status document_data));
         ("presentation_structure",
          _check_presentation_structure (slide_count document_data)
            (total_text_boxes document_data))] in
      mkComplianceReport (overall detailed_results) detailed_results
  end.

(** *** The document checker as a whole *)

(** The ['footer_data'] entry of the analysis. *)
Record footer_data : Type := mkFooterData {
  has_footer : bool;
  footer_text : string
}.

Definition _check_footer_compliance (footer_data : footer_data)
    : ComplianceResult :=
  if has_footer footer_data && negb (str_not (footer_text footer_data))
  then mkResult true 1 false []
  else mkResult false 0 false [].

(** What the document analyzer returns: an error, or its entries. *)
Record document_data : Type := mkDocumentData {
  document_error : option string;
  doc_first_page_data : field_values;
  doc_footer_data : footer_data;
  doc_table_of_contents : option toc_data;
  doc_embedded_excel : embedded_excel;
  doc_implementation_dates : str_or_list
}.

(** [analyze] on a document that loads.  [first_page_data] and
    [footer_data] stand for what [_analyze_first_page] and
    [_analyze_footer] return. *)
Definition analyze (first_page_data : field_values)
    (footer_data : footer_data) (doc : document) (rels : list relationship)
    : document_data :=
  let document_text := _extract_full_text doc in
  mkDocumentData None first_page_data footer_data
    (Some (_check_table_of_contents document_text))
    (_check_embedded_excel_with_sheets rels)
    (_extract_implementation_dates_enhanced doc document_text).

(** The five entries of [detailed_results]. *)
Record docx_results : Type := mkDocxResults {
  first_page_compliance : ComplianceResult;
  footer_compliance : ComplianceResult;
  table_of_contents_compliance : ComplianceResult;
  embedded_excel_compliance : sheets_result;
  implementation_date_compliance : ComplianceResult
}.

Record docx_report : Type := mkDocxReport {
  docx_overall_score : Qc;
  docx_detailed_results : option docx_results
}.

Definition docx_check_compliance (excel : excel_data)
    (document_data : document_data) : docx_report :=
  match document_error document_data with
  | Some _ => mkDocxReport 0 None
  | None =>
      let detailed_results :=
        mkDocxResults
          (_check_first_page_compliance excel
             (doc_first_page_data document_data))
          (_check_footer_compliance (doc_footer_data document_data))
          (_check_table_of_contents_compliance
             (doc_table_of_contents document_data))
          (_check_embedded_excel_compliance
             (doc_embedded_excel document_data))
          (_check_implementation_date_compliance excel
             (doc_implementation_dates document_data)) in
      let total_score :=
        fsum [score (first_page_compliance detailed_results);
              score (footer_compliance detailed_results);
              score (table_of_contents_compliance detailed_results);
              sheets_score (embedded_excel_compliance detailed_results);
              score (implementation_date_compliance detailed_results)] in
      let max_possible_score := 5%nat in
      mkDocxReport
        (if (0 <? max_possible_score)%nat
         then total_score / Qc_of_nat max_possible_score else 0)
        (Some detailed_results)
  end.

End Version2Checks.
(** ** Inputs of the examples *)

Module Examples.
Import Py BaseChecker Compliance.

(** A reference record with four fields, and a first page on which three
    of them match exactly and the task id is missing. *)
Definition example_reference : Compliance.excel_data :=
  {[ "business_app_id" := [Some "12345678"];
     "enterprise_release_id" := [Some "2025.M08"];
     "project_name" := [Some "Apollo"];
     "task_id" := [Some "TSK001"] ]}.

Definition example_first_page : Compliance.field_values :=
  {[ "business_app_id" := Some "12345678";
     "enterprise_release_id" := Some "2025.M08";
     "project_name" := Some "Apollo";
     "task_id" := None ]}.

(** The six reference fields of the monolithic checker, and a first page
    on which four match, the release differs and one value is missing. *)
Definition v2_reference : Version2.excel_data :=
  {[ "business_application" := [Some "Payments"];
     "business_app_id" := [Some "12345678"];
     "clarity_project_id" := [Some "PRJ01234"];
     "project_name" := [Some "Apollo"];
     "release" := [Some "RLSE0031115"];
     "enterprise_release_id" := [Some "2025.M08"] ]}.

Definition v2_first_page : Version2.field_values :=
  {[ "application_name" := Some "Payments";
     "application_id" := Some "12345678";
     "project_id" := Some "PRJ01234";
     "project_name" := Some "Apollo";
     "release" := Some "RLSE0099999";
     "enterprise_release_id" := None ]}.

(** A check that raises and a check that succeeds. *)
Definition check_boom : check_function :=
  mkCheck "_check_boom" (Raise (Exn "RuntimeError" "boom")).

Definition check_fine : check_function :=
  mkCheck "_check_fine"
    (Ok (OutResult (mkResult "fine_validation" true 1 [] []))).

(** The report of the outer [except] of [run_all_checks]. *)
Definition error_report (msg : string) : report :=
  mkReport ∅ (mkStats 0 None 0 0 "Error" None) None (Some msg).

(** A document with a table of contents and no scope section, and a text
    with the five required sections and no contents header. *)
Definition toc_only : docx_data :=
  mkDocx ∅ {[ "has_table_of_contents" := true; "has_scope_section" := false ]}.

Definition sections_without_header : string :=
  "3.3 NFR 3.4 In Scope 3.5 Out of Scope 4.1 Test Execution 12 Milestones".

(** A document whose implementation date stands in a milestones table,
    and one whose date follows its label in the text. *)
Definition milestones_document : Version2.document :=
  Version2.mkDocument ["12. Milestones"]
    [[["Milestone"; "Date"]; ["Implementation"; "08/11/2025"]]].

Definition labelled_document : Version2.document :=
  Version2.mkDocument ["Implementation Date: 08/11/2025"] [].

(** Four results with the scores 1.0, 0.0, 0.5 and 1.0. *)
Definition four_results : list ComplianceResult :=
  [mkResult "first_page_validation" true 1 [] [];
   mkResult "footer_validation" false 0 [] [];
   mkResult "table_of_contents_validation" false (Q2Qc (1 # 2)) [] [];
   mkResult "milestones_validation" true 1 [] []].

(** Two results under one name, and two under two names. *)
Definition same_name : list ComplianceResult :=
  [mkResult "a" true 1 [] []; mkResult "a" false 0 [] []].

Definition two_names : list ComplianceResult :=
  [mkResult "a" true 1 [] []; mkResult "b" false 0 [] []].

(** Four results with the scores 0.7, 0.7, 0.7 and 0.3, and the same four
    with the last two in the other order. *)
Definition near_threshold : list ComplianceResult :=
  [mkResult "a" true (Q2Qc (7 # 10)) [] [];
   mkResult "b" true (Q2Qc (7 # 10)) [] [];
   mkResult "c" true (Q2Qc (7 # 10)) [] [];
   mkResult "d" false (Q2Qc (3 # 10)) [] []].

Definition near_threshold_reordered : list ComplianceResult :=
  [mkResult "a" true (Q2Qc (7 # 10)) [] [];
   mkResult "b" true (Q2Qc (7 # 10)) [] [];
   mkResult "d" false (Q2Qc (3 # 10)) [] [];
   mkResult "c" true (Q2Qc (7 # 10)) [] []].

End Examples.

(** ** Example documents of the two checkers *)

Module Documents.
Import Py BaseChecker Compliance DocumentData Examples.

(** A test plan that agrees with [example_reference] on its first page
    and in its footer, has contents and scope section, a workbook with
    four of the six required sheets and the architecture one, and dated
    milestones. *)
Definition example_docx : docx_document :=
  mkDocxDocument
    (mkDocx example_first_page
       {[ "has_table_of_contents" := true; "has_scope_section" := true ]})
    (mkFooter (Some "Apollo"))
    (mkEmbedded true
       ["Cover Page"; "General Details"; "Architecture Diagram";
        "Logs&Contacts"] true 1)
    (mkMilestones true [] ["8/11/2025"]).

(** A four-slide status deck on the same project, its PLT reported as
    incomplete. *)
Definition example_pptx : pptx_document :=
  mkPptxDocument 4 (mkSlide true example_first_page)
    (mkEmbedded false [] false 0)
    (mkMilestones true [3%nat] [])
    (mkPlt true (Some "PLT: Incomplete, 3 defects open") [4%nat]).

(** A check that still returns the legacy dict. *)
Definition check_legacy : check_function :=
  mkCheck "_check_legacy"
    (Ok (OutLegacy (mkLegacy (Some true) (Some 1) None
                      [("passed", DBool true); ("score", DNum 1)]))).

End Documents.

(** * Properties *)

Module V2 := Version2.
Module B64 := Binary64.
Import Py BaseChecker Compliance Re Examples.

Section Aggregator.

Lemma foldl_Qcplus_perm (l l' : list Qc) :
  l ≡ₚ l' → ∀ a, foldl Qcplus a l = foldl Qcplus a l'.
Proof.
  induction 1 as [|x l l' _ IH|x y l|l l' l'' _ IH1 _ IH2]; intros a; simpl.
  - reflexivity.
  - apply IH.
  - f_equal. ring.
  - rewrite IH1. apply IH2.
Qed.

Lemma fsum_perm (l l' : list Qc) : l ≡ₚ l' → fsum l = fsum l'.
Proof. intros H. apply foldl_Qcplus_perm, H. Qed.

Lemma foldl_Qcplus_acc (l : list Qc) (a : Qc) :
  foldl Qcplus a l = a + foldr Qcplus 0 l.
Proof.
  revert a. induction l as [|x l IH]; intros a; simpl.
  - ring.
  - rewrite IH. ring.
Qed.

Lemma fsum_foldr (l : list Qc) : fsum l = foldr Qcplus 0 l.
Proof. unfold fsum. rewrite foldl_Qcplus_acc. ring. Qed.

Lemma dict_of_perm_acc {V : Type} (l l' : list (string * V)) :
  l ≡ₚ l' → NoDup (map fst l) →
  ∀ m : gmap string V,
    foldl (fun m kv => <[kv.1 := kv.2]> m) m l
    = foldl (fun m kv => <[kv.1 := kv.2]> m) m l'.
Proof.
  induction 1 as [|x l l' Hp IH|x y l|l l' l'' Hp1 IH1 Hp2 IH2];
    intros Hnd m; simpl.
  - reflexivity.
  - apply IH. by inversion Hnd.
  - f_equal. apply insert_insert_ne.
    inversion Hnd as [|? ? Hin _]; subst. intros Heq. apply Hin.
    rewrite Heq. simpl. left.
  - rewrite IH1 by done. apply IH2.
    by rewrite <- Hp1.
Qed.

Lemma dict_of_perm {V : Type} (l l' : list (string * V)) :
  l ≡ₚ l' → NoDup (map fst l) → dict_of l = dict_of l'.
Proof. intros Hp Hnd. by apply dict_of_perm_acc. Qed.

Lemma passed_count_perm (rs rs' : list ComplianceResult) :
  rs ≡ₚ rs' → passed_count rs = passed_count rs'.
Proof. intros Hp. unfold passed_count. by rewrite Hp. Qed.

End Aggregator.

Lemma legacy_results_perm (rs rs' : list ComplianceResult) :
  NoDup (map check_name rs) → rs ≡ₚ rs' →
  legacy_results rs = legacy_results rs'.
Proof.
  intros Hnd Hp. apply dict_of_perm.
  - by apply fmap_Permutation.
  - by rewrite map_map.
Qed.

(** ** The aggregator in binary64 *)

Lemma geb_cases (s : float) :
  let level :=
    if B64.geb s 0.9%float then "Fully Compliant"
    else if B64.geb s B64.COMPLIANCE_THRESHOLD then "Compliant"
    else if B64.geb s 0.4%float then "Partially Compliant"
    else "Non-compliant" in
  (level = "Fully Compliant" ↔ B64.geb s 0.9%float = true)
  ∧ (level = "Compliant"
     ↔ B64.geb s 0.9%float = false ∧ B64.geb s 0.6%float = true)
  ∧ (level = "Partially Compliant"
     ↔ B64.geb s 0.9%float = false ∧ B64.geb s 0.6%float = false
       ∧ B64.geb s 0.4%float = true)
  ∧ (level = "Non-compliant"
     ↔ B64.geb s 0.9%float = false ∧ B64.geb s 0.6%float = false
       ∧ B64.geb s 0.4%float = false).
Proof.
  unfold B64.COMPLIANCE_THRESHOLD. cbv zeta.
  destruct (B64.geb s 0.9%float), (B64.geb s 0.6%float),
    (B64.geb s 0.4%float);
    split_and!; split; (done || (intros (? & ?); done) || idtac);
    try (intros (? & ? & ?); done).
Qed.

Lemma pairwise_sum_short (fuel : nat) (a : list float) :
  (length a < 8)%nat → B64.pairwise_sum fuel a = foldl PrimFloat.add 0%float a.
Proof.
  intros H. apply Nat.ltb_lt in H. destruct fuel; simpl; by rewrite H.
Qed.

Lemma stats_nonempty (rs : list ComplianceResult) :
  rs ≠ [] →
  B64._calculate_overall_score rs
  = let scores := map (fun r => B64.to_float (score r)) rs in
    let s := B64.np_mean scores in
    B64.mkStats s
      (Some (B64.float_of_nat (passed_count rs)
             / B64.float_of_nat (length rs))%float)
      (passed_count rs) (length rs)
      (if B64.geb s 0.9%float then "Fully Compliant"
       else if B64.geb s B64.COMPLIANCE_THRESHOLD then "Compliant"
       else if B64.geb s 0.4%float then "Partially Compliant"
       else "Non-compliant")
      (Some (dict_of (map (fun r => (check_name r, B64.to_float (score r)))
                        rs))).
Proof.
  intros Hne. unfold B64._calculate_overall_score.
  by rewrite bool_decide_eq_false_2.
Qed.

(** What of the statistics does not depend on the order of the results:
    everything but the overall score, which is a sum in binary64, and the
    compliance level read off it. *)
Lemma binary64_stats_perm (rs rs' : list ComplianceResult) :
  NoDup (map check_name rs) → rs ≡ₚ rs' →
  let st := B64._calculate_overall_score rs in
  let st' := B64._calculate_overall_score rs' in
  B64.passed_checks st = B64.passed_checks st'
  ∧ B64.total_checks st = B64.total_checks st'
  ∧ B64.pass_rate st = B64.pass_rate st'
  ∧ B64.individual_scores st = B64.individual_scores st'
  ∧ (B64.overall_score st = B64.overall_score st' → st = st').
Proof.
  intros Hnd Hp. cbv zeta.
  destruct rs as [|r rs].
  { apply Permutation_nil_l in Hp. by subst. }
  destruct rs' as [|r' rs'].
  { symmetry in Hp. by apply Permutation_nil_cons in Hp. }
  rewrite !stats_nonempty by done. cbv zeta.
  cbn [B64.passed_checks B64.total_checks B64.pass_rate
       B64.individual_scores B64.overall_score].
  assert (Hlen : length (r :: rs) = length (r' :: rs')) by by rewrite Hp.
  assert (Hpc : passed_count (r :: rs) = passed_count (r' :: rs'))
    by by apply passed_count_perm.
  assert (Hd : dict_of (map (fun r => (check_name r, B64.to_float (score r)))
                          (r :: rs))
               = dict_of (map (fun r => (check_name r,
                                         B64.to_float (score r)))
                            (r' :: rs'))).
  { apply dict_of_perm.
    - by apply fmap_Permutation.
    - by rewrite map_map. }
  rewrite Hlen, Hpc, Hd. split_and!; try done.
  by intros ->.
Qed.

(** C1, amended.  For every list of results whose check names are
    pairwise distinct, the passed and total checks, the pass rate and the
    score of each check by name in the statistics of
    [_calculate_overall_score], and the results by name in the report of
    [run_all_checks], are the same for every permutation of the list.
    The overall score is the binary64 mean of the scores in the order of
    the list; when two orders give the same overall score the statistics
    are the same altogether, the compliance level included. *)
Theorem C1_report_permutation_invariant (rs rs' : list ComplianceResult) :
  NoDup (map check_name rs) → rs ≡ₚ rs' →
  let st := B64._calculate_overall_score rs in
  let st' := B64._calculate_overall_score rs' in
  B64.passed_checks st = B64.passed_checks st'
  ∧ B64.total_checks st = B64.total_checks st'
  ∧ B64.pass_rate st = B64.pass_rate st'
  ∧ B64.individual_scores st = B64.individual_scores st'
  ∧ legacy_results rs = legacy_results rs'
  ∧ (B64.overall_score st = B64.overall_score st' → st = st').
Proof.
  intros Hnd Hp. cbv zeta.
  destruct (binary64_stats_perm rs rs' Hnd Hp) as (H1 & H2 & H3 & H4 & H5).
  split_and!; try done. by apply legacy_results_perm.
Qed.

(** C1, as stated, fails.  The scores by name are a dict, in which the
    later of two results with one name wins: two results named alike with
    the scores 1 and 0 give a different map in each order.  And the
    overall score is a sum in binary64, which depends on the order: four
    results with distinct names and the scores 0.7, 0.7, 0.7, 0.3 give
    0.5999999999999999 and Partially Compliant, and with the last two
    exchanged 0.6 and Compliant. *)
Lemma C1_counterexample :
  (same_name ≡ₚ reverse same_name
   ∧ B64.individual_scores (B64._calculate_overall_score same_name)
     ≠ B64.individual_scores
         (B64._calculate_overall_score (reverse same_name)))
  ∧ (near_threshold ≡ₚ near_threshold_reordered
     ∧ NoDup (map check_name near_threshold)
     ∧ B64.overall_score (B64._calculate_overall_score near_threshold)
       = 0.5999999999999999%float
     ∧ B64.compliance_level (B64._calculate_overall_score near_threshold)
       = "Partially Compliant"
     ∧ B64.overall_score
         (B64._calculate_overall_score near_threshold_reordered)
       = 0.6%float
     ∧ B64.compliance_level
         (B64._calculate_overall_score near_threshold_reordered)
       = "Compliant").
Proof.
  split.
  - split; [apply perm_swap|].
    intros H.
    apply (f_equal (fun m => match m ≫= (.!! "a") with
                             | Some x => PrimFloat.eqb x 1%float
                             | None => false
                             end)) in H.
    vm_compute in H. discriminate H.
  - split_and!.
    + unfold near_threshold, near_threshold_reordered.
      do 2 apply perm_skip. apply perm_swap.
    + apply (bool_decide_unpack _). vm_compute. exact I.
    + vm_compute. reflexivity.
    + vm_compute. reflexivity.
    + vm_compute. reflexivity.
    + vm_compute. reflexivity.
Qed.

Lemma C1_witness :
  B64.individual_scores (B64._calculate_overall_score two_names)
  = B64.individual_scores (B64._calculate_overall_score (reverse two_names))
  ∧ legacy_results two_names = legacy_results (reverse two_names).
Proof.
  assert (Hnd : NoDup (map check_name two_names)).
  { apply (bool_decide_unpack _). vm_compute. exact I. }
  assert (Hp : two_names ≡ₚ reverse two_names) by apply perm_swap.
  pose proof (C1_report_permutation_invariant two_names (reverse two_names)
                Hnd Hp) as (_ & _ & _ & Hi & Hl & _).
  split; [exact Hi | exact Hl].
Defined.

Lemma Qc_leb_true (a b : Qc) : Qc_leb a b = true ↔ a <= b.
Proof. unfold Qc_leb. apply bool_decide_eq_true. Qed.

Lemma Qc_leb_false (a b : Qc) : Qc_leb a b = false ↔ b < a.
Proof.
  unfold Qc_leb. rewrite bool_decide_eq_false. split.
  - apply Qcnot_le_lt.
  - apply Qclt_not_le.
Qed.

(** C2, amended.  For a non-empty list of results the overall score is
    the mean that [np.mean] computes in binary64: for fewer than eight
    results, the scores added in the order of the list and the sum
    divided by their number.  The compliance level is Fully Compliant
    when the overall score is at least 0.9, Compliant when it is at least
    0.6, Partially Compliant when it is at least 0.4 and Non-compliant
    otherwise, each comparison made on the computed overall score.  The
    scores 1.0, 0.0, 0.5, 1.0 give 0.625 and Compliant, and an overall
    score of exactly 0.6 or 0.9 is Compliant or Fully Compliant. *)
Theorem C2_mean_and_banding (rs : list ComplianceResult) :
  rs ≠ [] →
  let st := B64._calculate_overall_score rs in
  let s := B64.overall_score st in
  let scores := map (fun r => B64.to_float (score r)) rs in
  s = B64.np_mean scores
  ∧ ((length rs < 8)%nat →
     s = (foldl PrimFloat.add 0 scores / B64.float_of_nat (length rs))%float)
  ∧ (B64.compliance_level st = "Fully Compliant"
     ↔ B64.geb s 0.9%float = true)
  ∧ (B64.compliance_level st = "Compliant"
     ↔ B64.geb s 0.9%float = false ∧ B64.geb s 0.6%float = true)
  ∧ (B64.compliance_level st = "Partially Compliant"
     ↔ B64.geb s 0.9%float = false ∧ B64.geb s 0.6%float = false
       ∧ B64.geb s 0.4%float = true)
  ∧ (B64.compliance_level st = "Non-compliant"
     ↔ B64.geb s 0.9%float = false ∧ B64.geb s 0.6%float = false
       ∧ B64.geb s 0.4%float = false)
  ∧ (map score rs = [1; 0; Q2Qc (1 # 2); 1] →
     s = 0.625%float ∧ B64.compliance_level st = "Compliant")
  ∧ (s = 0.6%float → B64.compliance_level st = "Compliant")
  ∧ (s = 0.9%float → B64.compliance_level st = "Fully Compliant").
Proof.
  intros Hne. cbv zeta. rewrite stats_nonempty by done. cbv zeta.
  cbn [B64.overall_score B64.compliance_level].
  set (scores := map (fun r => B64.to_float (score r)) rs).
  set (s := B64.np_mean scores).
  destruct (geb_cases s) as (H1 & H2 & H3 & H4). cbv zeta in H1, H2, H3, H4.
  split_and!; try done.
  - intros Hlen. unfold s, B64.np_mean, B64.np_sum.
    rewrite pairwise_sum_short by (unfold scores; by rewrite length_map).
    unfold scores. by rewrite length_map.
  - intros Hs.
    assert (E : s = 0.625%float).
    { unfold s, scores. rewrite <- (map_map score B64.to_float), Hs.
      vm_compute. reflexivity. }
    split; [exact E|]. rewrite E. vm_compute. reflexivity.
  - intros ->. vm_compute. reflexivity.
  - intros ->. vm_compute. reflexivity.
Qed.

(** C2, as stated, fails.  The overall score is not the exact mean of
    the scores: the scores 0.7, 0.7, 0.7 and 0.3 have the mean 0.6, which
    the claim bands as Compliant, as the aggregator on exact rationals
    does; but their sum in binary64 falls short of 2.4 and the overall
    score is 0.5999999999999999, below the threshold: the level is
    Partially Compliant. *)
Lemma C2_counterexample :
  mean (map score near_threshold) = Q2Qc (6 # 10)
  ∧ compliance_level (_calculate_overall_score near_threshold) = "Compliant"
  ∧ B64.to_float (Q2Qc (6 # 10)) = 0.6%float
  ∧ B64.overall_score (B64._calculate_overall_score near_threshold)
    = 0.5999999999999999%float
  ∧ B64.geb (B64.overall_score (B64._calculate_overall_score near_threshold))
      0.6%float = false
  ∧ B64.compliance_level (B64._calculate_overall_score near_threshold)
    = "Partially Compliant".
Proof.
  split_and!.
  - apply Qc_is_canon. reflexivity.
  - vm_compute. reflexivity.
  - vm_compute. reflexivity.
  - vm_compute. reflexivity.
  - vm_compute. reflexivity.
  - vm_compute. reflexivity.
Qed.

Lemma C2_witness :
  B64.overall_score (B64._calculate_overall_score four_results)
  = 0.625%float
  ∧ B64.compliance_level (B64._calculate_overall_score four_results)
    = "Compliant".
Proof.
  assert (Hne : four_results ≠ []) by discriminate.
  exact (proj1 (proj2 (proj2 (proj2 (proj2 (proj2 (proj2
           (C2_mean_and_banding four_results Hne))))))) eq_refl).
Defined.

Lemma str_not_true (s : string) : str_not s = true ↔ s = "".
Proof. destruct s; simpl; split; congruence. Qed.

Lemma str_not_false (s : string) : str_not s = false ↔ s ≠ "".
Proof. destruct s; simpl; split; congruence. Qed.

Lemma remove_char_filter (c : ascii) (s : string) :
  list_ascii_of_string (remove_char c s)
  = filter (fun d => d ≠ c) (list_ascii_of_string s).
Proof.
  induction s as [|d s IH]; simpl; [done|].
  destruct (Ascii.eqb_spec d c) as [->|Hne].
  - rewrite filter_cons_False by (intros H; by apply H). done.
  - rewrite filter_cons_True by done. simpl. by rewrite IH.
Qed.

Lemma set_of_str_empty (s : string) : set_of_str s = ∅ → s = "".
Proof.
  destruct s as [|c s]; [done|]. unfold set_of_str. simpl. set_solver.
Qed.

Lemma elem_of_set_of_str (c : ascii) (s : string) :
  c ∈ set_of_str s ↔ c ∈ list_ascii_of_string s.
Proof. unfold set_of_str. apply elem_of_list_to_set. Qed.

(** C3.  The similarity of two texts is 0 when either is empty; for
    non-empty texts it is 1 when their normalized forms are equal, and
    otherwise the number of characters the two normalized forms share over
    the number of characters either has.  The normalized form is the
    trimmed, lowercased text without its spaces, hyphens and underscores,
    so the three spellings of RLSE 0031115 normalize alike. *)
Theorem C3_similarity_cases (a b : string) :
  let na := _normalize_text_cached a in
  let nb := _normalize_text_cached b in
  (a = "" ∨ b = "" → _calculate_similarity_score a b = 0)
  ∧ (a ≠ "" → b ≠ "" → na = nb → _calculate_similarity_score a b = 1)
  ∧ (a ≠ "" → b ≠ "" → na ≠ nb →
     (0 < size (set_of_str na ∪ set_of_str nb))%nat
     ∧ _calculate_similarity_score a b
       = Qc_of_nat (size (set_of_str na ∩ set_of_str nb))
         / Qc_of_nat (size (set_of_str na ∪ set_of_str nb)))
  ∧ list_ascii_of_string na
    = filter (fun c => ¬ (c = " " ∨ c = "-" ∨ c = "_")%char)
        (list_ascii_of_string (lower (strip a)))
  ∧ _normalize_text_cached "RLSE 0031115" = _normalize_text_cached "rlse-0031115"
  ∧ _normalize_text_cached "rlse-0031115" = _normalize_text_cached "rlse_0031115".
Proof.
  intros na nb. split_and!.
  - unfold _calculate_similarity_score.
    intros [-> | ->]; simpl; [done|]. by rewrite orb_true_r.
  - intros Ha Hb Hn. unfold _calculate_similarity_score.
    apply str_not_false in Ha, Hb. rewrite Ha, Hb. simpl.
    fold na nb. rewrite Hn, String.eqb_refl. done.
  - intros Ha Hb Hn.
    assert (Hpos : (0 < size (set_of_str na ∪ set_of_str nb))%nat).
    { destruct (decide (size (set_of_str na ∪ set_of_str nb) = 0%nat)) as [Hz|]; [|lia].
      apply size_empty_inv in Hz. apply leibniz_equiv in Hz.
      apply empty_union_L in Hz as [H1 H2].
      apply set_of_str_empty in H1, H2. congruence. }
    split; [done|].
    unfold _calculate_similarity_score.
    apply str_not_false in Ha, Hb. rewrite Ha, Hb. simpl.
    fold na nb. apply String.eqb_neq in Hn. rewrite Hn.
    apply Nat.ltb_lt in Hpos. by rewrite Hpos.
  - unfold na, _normalize_text_cached. destruct (str_not a) eqn:Ha.
    + apply str_not_true in Ha. by subst.
    + rewrite !remove_char_filter, !list_filter_filter.
      apply list_filter_iff. intros c. tauto.
  - reflexivity.
  - reflexivity.
Qed.

Lemma Qc_ltb_true (a b : Qc) : Qc_ltb a b = true ↔ a < b.
Proof. unfold Qc_ltb. apply bool_decide_eq_true. Qed.

Lemma Qc_ltb_false (a b : Qc) : Qc_ltb a b = false ↔ b <= a.
Proof.
  unfold Qc_ltb. rewrite bool_decide_eq_false. split.
  - apply Qcnot_lt_le.
  - apply Qcle_not_lt.
Qed.

Section Max.

Lemma foldl_max_spec (l : list Qc) (cur : Qc) :
  cur <= foldl max_step cur l
  ∧ (∀ y, y ∈ l → y <= foldl max_step cur l)
  ∧ (foldl max_step cur l = cur ∨ foldl max_step cur l ∈ l).
Proof.
  revert cur. induction l as [|x l IH]; intros cur; simpl.
  - split_and!; [apply Qcle_refl | intros y Hy; by apply elem_of_nil in Hy | by left].
  - destruct (IH (max_step cur x)) as (H1 & H2 & H3).
    assert (Hc : cur <= max_step cur x ∧ x <= max_step cur x).
    { unfold max_step. destruct (Qc_ltb cur x) eqn:E.
      - apply Qc_ltb_true in E. split; [by apply Qclt_le_weak | apply Qcle_refl].
      - apply Qc_ltb_false in E. split; [apply Qcle_refl | done]. }
    destruct Hc as [Hc1 Hc2]. split_and!.
    + eapply Qcle_trans; eauto.
    + intros y Hy. apply elem_of_cons in Hy as [->|Hy]; [|by apply H2].
      eapply Qcle_trans; eauto.
    + destruct H3 as [H3|H3].
      * rewrite H3. unfold max_step. destruct (Qc_ltb cur x); [right; left | by left].
      * right. by right.
Qed.

Lemma fmax_spec (l : list Qc) :
  l ≠ [] → ∃ m, fmax l = Ok m ∧ m ∈ l ∧ ∀ y, y ∈ l → y <= m.
Proof.
  destruct l as [|x l]; [done|]. intros _. simpl.
  destruct (foldl_max_spec l x) as (H1 & H2 & H3).
  eexists. split; [reflexivity|]. split.
  - destruct H3 as [->|H3]; [left | by right].
  - intros y Hy. apply elem_of_cons in Hy as [->|Hy]; [done | by apply H2].
Qed.

End Max.

Lemma index_of_spec (l : list Qc) (x : Qc) :
  x ∈ l →
  ∃ i, index_of l x = Ok i ∧ l !! i = Some x
       ∧ ∀ j y, (j < i)%nat → l !! j = Some y → y ≠ x.
Proof.
  induction l as [|y l IH]; intros Hin; [by apply elem_of_nil in Hin|].
  simpl. case_bool_decide as Hy.
  - subst. exists 0%nat. split_and!; [done|done|]. intros; lia.
  - apply elem_of_cons in Hin as [->|Hin]; [done|].
    destruct (IH Hin) as (i & Hi & Hl & Hmin). rewrite Hi. simpl.
    exists (S i). split_and!; [done|done|].
    intros [|j] z Hj Hz; simpl in Hz.
    + by inversion Hz; subst.
    + eapply Hmin; [|exact Hz]. lia.
Qed.

Lemma vectorized_text_match_spec
    (target : string) (candidates : list string) (threshold : Qc) :
  let sim := _calculate_similarity_score target in
  ∃ is_match score best,
    _vectorized_text_match target candidates threshold
      = Ok (is_match, score, best)
    ∧ (target = "" ∨ candidates = [] →
       is_match = false ∧ score = 0 ∧ best = None)
    ∧ (target ≠ "" → candidates ≠ [] →
       (∀ c, c ∈ candidates → sim c <= score)
       ∧ (is_match = true ↔ threshold <= score)
       ∧ ∃ i c, best = Some c ∧ candidates !! i = Some c ∧ sim c = score
           ∧ ∀ j c', (j < i)%nat → candidates !! j = Some c' → sim c' < score).
Proof.
  intros sim. unfold _vectorized_text_match.
  destruct (str_not target) eqn:Ht; simpl.
  { exists false, 0, None. split_and!; [done|done|].
    intros Hne. by apply str_not_true in Ht. }
  case_bool_decide as Hc.
  { exists false, 0, None. split_and!; [done|done|]. done. }
  fold sim.
  assert (Hs : map sim candidates ≠ []) by by destruct candidates.
  rewrite bool_decide_eq_false_2 by done.
  destruct (fmax_spec _ Hs) as (m & Hm & Hin & Hmax). rewrite Hm. simpl.
  destruct (index_of_spec _ _ Hin) as (i & Hi & Hl & Hmin). rewrite Hi. simpl.
  rewrite list_lookup_fmap in Hl.
  destruct (candidates !! i) as [c|] eqn:Hci; [|done].
  simpl in Hl. injection Hl as Hl.
  unfold getitem. rewrite Hci. simpl.
  eexists _, _, _. split; [reflexivity|]. split_and!.
  - intros [-> | ->]; done.
  - intros _ _. split_and!.
    + intros c' Hc'. apply Hmax. apply list_elem_of_fmap. eauto.
    + apply Qc_leb_true.
    + exists i, c. split_and!; [done|done|done|].
      intros j c' Hj Hcj.
      assert (Hle : sim c' <= m).
      { apply Hmax. apply list_elem_of_fmap. exists c'. split; [done|].
        eapply list_elem_of_lookup_2; eauto. }
      assert (Hne : sim c' ≠ m).
      { eapply Hmin; [exact Hj|]. rewrite list_lookup_fmap, Hcj. done. }
      apply Qcle_lt_or_eq in Hle as [|]; done.
Qed.

(** C4.  [_vectorized_text_match] never raises.  For an empty target or
    no candidates it answers no match, score 0 and no best candidate.
    Otherwise its score is the greatest similarity of a candidate, it
    reports a match exactly when that score reaches the threshold (0.8
    when the caller gives none), and its best candidate is the first in
    list order whose similarity is the score. *)
Theorem C4_match_first_maximum
    (target : string) (candidates : list string) (threshold : Qc) :
  let sim := _calculate_similarity_score target in
  (∃ is_match score best,
     _vectorized_text_match target candidates threshold
       = Ok (is_match, score, best)
     ∧ (target = "" ∨ candidates = [] →
        is_match = false ∧ score = 0 ∧ best = None)
     ∧ (target ≠ "" → candidates ≠ [] →
        (∀ c, c ∈ candidates → sim c <= score)
        ∧ (is_match = true ↔ threshold <= score)
        ∧ ∃ i c, best = Some c ∧ candidates !! i = Some c ∧ sim c = score
            ∧ ∀ j c', (j < i)%nat → candidates !! j = Some c' →
                sim c' < score))
  ∧ DEFAULT_MATCH_THRESHOLD = Q2Qc (8 # 10)
  ∧ _vectorized_text_match "RLSE 0031115"
      ["RLSE"; "rlse-0031115"; "rlse_0031115"] DEFAULT_MATCH_THRESHOLD
    = Ok (true, 1, Some "rlse-0031115")
  ∧ _vectorized_text_match "abc" ["abd"; "xyz"] DEFAULT_MATCH_THRESHOLD
    = Ok (false, Qc_of_nat 2 / Qc_of_nat 4, Some "abd").
Proof.
  intros sim. split_and!.
  - apply vectorized_text_match_spec.
  - reflexivity.
  - vm_compute. reflexivity.
  - vm_compute. reflexivity.
Qed.

(** ** First-page and first-slide metadata *)

Lemma all_passed_spec (checks : list ComplianceResult) :
  all_passed checks = true ↔ ∀ c, c ∈ checks → passed c = true.
Proof.
  unfold all_passed. rewrite forallb_forall. split; intros H c Hc; apply H.
  - by apply list_elem_of_In.
  - by apply list_elem_of_In.
Qed.

(** The tail shared by the first-page and the first-slide check. *)
Lemma mean_and_all (fcs : list ComplianceResult) :
  let '(average_score, all_ok) :=
    if bool_decide (fcs = []) then (0, false)
    else (fsum (map score fcs) / Qc_of_nat (length fcs), all_passed fcs) in
  (fcs = [] → average_score = 0 ∧ all_ok = false)
  ∧ (fcs ≠ [] →
     average_score = foldr Qcplus 0 (map score fcs) / Qc_of_nat (length fcs)
     ∧ (all_ok = true ↔ ∀ c, c ∈ fcs → passed c = true)).
Proof.
  case_bool_decide as H.
  - split; [done|]. intros Hne. done.
  - split; [done|]. intros _. rewrite fsum_foldr. split; [done|].
    apply all_passed_spec.
Qed.

Lemma matched_app subs subs' :
  V2.matched (subs ++ subs') = (V2.matched subs + V2.matched subs')%nat.
Proof. unfold V2.matched. by rewrite list.filter_app, length_app. Qed.

Lemma matched_snoc subs k f :
  V2.matched (subs ++ [(k, V2.SubField f)])
  = (V2.matched subs + if V2.fmatch f then 1 else 0)%nat.
Proof.
  rewrite matched_app. f_equal. unfold V2.matched.
  destruct (V2.fmatch f) eqn:E.
  - rewrite filter_cons_True by (unfold V2.is_matched; by simpl).
    done.
  - rewrite filter_cons_False by (unfold V2.is_matched; simpl; congruence).
    done.
Qed.

Lemma check_field_spec excel fp n subs mapping n' subs' :
  V2.check_field excel fp (n, subs) mapping = Ok (n', subs') →
  V2.matched subs = n → V2.matched subs' = n' ∧ length subs' = S (length subs).
Proof.
  unfold V2.check_field. destruct mapping as [[ef df] dn].
  destruct (V2.first_excel_value excel ef) as [ev|e]; simpl; [|done].
  intros H Hm.
  repeat match type of H with
         | context [if ?b then _ else _] => destruct b
         end;
    injection H as <- <-;
    rewrite matched_snoc, length_app, Hm; simpl; lia.
Qed.

Lemma for_each_check_field_spec excel fp l n subs n' subs' :
  V2.for_each (V2.check_field excel fp) l (n, subs) = Ok (n', subs') →
  V2.matched subs = n →
  V2.matched subs' = n' ∧ length subs' = (length l + length subs)%nat.
Proof.
  revert n subs. induction l as [|x l IH]; intros n subs.
  - simpl. intros H Hm. injection H as <- <-. done.
  - change (V2.for_each (V2.check_field excel fp) (x :: l) (n, subs))
      with (V2.check_field excel fp (n, subs) x
            ≫= V2.for_each (V2.check_field excel fp) l).
    destruct (V2.check_field excel fp (n, subs) x) as [[n1 subs1]|e] eqn:E;
      [|discriminate].
    change (V2.for_each (V2.check_field excel fp) l (n1, subs1)
            = Ok (n', subs') → V2.matched subs = n →
            V2.matched subs' = n'
            ∧ length subs' = (length (x :: l) + length subs)%nat).
    intros H Hm. destruct (check_field_spec _ _ _ _ _ _ _ E Hm) as [Hm1 Hl1].
    destruct (IH _ _ H Hm1) as [Hm2 Hl2]. split; [done|]. simpl. lia.
Qed.

Lemma matched_le subs : (V2.matched subs <= length subs)%nat.
Proof. unfold V2.matched. apply length_filter. Qed.

Lemma six_tenths_of_six (m : nat) :
  (m <= 6)%nat →
  (Qc_leb (Q2Qc (6 # 10)) (Qc_of_nat m / Qc_of_nat 6) = true ↔ (4 <= m)%nat).
Proof.
  intros H.
  do 7 (destruct m as [|m];
        [vm_compute; split; intros; (done || lia)|]).
  lia.
Qed.

Section FirstPageFields.

Variables (excel : V2.excel_data) (fp : V2.field_values).

(** What the loop of the monolithic first-page check reads for one entry
    of [field_mappings], and whether it counts the field as a match. *)
Local Abbreviation excel_value_of m :=
  (match excel !! m.1.1 with Some (v :: _) => v | _ => None end).
Local Abbreviation doc_value_of m := (default None (fp !! m.1.2)).
Local Abbreviation field_match m :=
  (negb (opt_not (excel_value_of m)) && negb (opt_not (doc_value_of m))
   && V2._validate_id_format m.1.1 (strip (default "" (excel_value_of m)))
        (strip (default "" (doc_value_of m)))).

Lemma first_excel_value_ok (ef : string) :
  excel !! ef ≠ Some [] →
  V2.first_excel_value excel ef
  = Ok (match excel !! ef with Some (v :: _) => v | _ => None end).
Proof.
  intros H. unfold V2.first_excel_value.
  destruct (excel !! ef) as [[|v l]|]; [done| |]; reflexivity.
Qed.

Lemma check_field_ok n subs (m : string * string * string) :
  excel !! m.1.1 ≠ Some [] →
  ∃ f, V2.check_field excel fp (n, subs) m
       = Ok ((n + if field_match m then 1 else 0)%nat,
             (subs ++ [(m.2, V2.SubField f)])%list)
       ∧ V2.fmatch f = field_match m
       ∧ V2.expected f = excel_value_of m
       ∧ V2.actual f = doc_value_of m.
Proof.
  destruct m as [[ef df] dn]. cbn [fst snd]. intros Hne.
  unfold V2.check_field. rewrite (first_excel_value_ok ef Hne).
  set (ev := match excel !! ef with Some (v :: _) => v | _ => None end).
  set (dv := default None (fp !! df)).
  change (Ok ev ≫= ?k) with (k ev). cbv beta.
  destruct (opt_not ev); cbn [negb andb].
  - eexists. split; [rewrite Nat.add_0_r; reflexivity|]. done.
  - destruct (opt_not dv); cbn [negb andb].
    + eexists. split; [rewrite Nat.add_0_r; reflexivity|]. done.
    + destruct (V2._validate_id_format _ _ _).
      * eexists. split; [rewrite Nat.add_1_r; reflexivity|]. done.
      * eexists. split; [rewrite Nat.add_0_r; reflexivity|]. done.
Qed.

Lemma check_field_raises n subs (m : string * string * string) :
  excel !! m.1.1 = Some [] →
  ∃ e, V2.check_field excel fp (n, subs) m = Raise e.
Proof.
  destruct m as [[ef df] dn]. cbn [fst snd]. intros E.
  unfold V2.check_field, V2.first_excel_value, getitem. rewrite E.
  eexists. reflexivity.
Qed.

Lemma for_each_check_field_ok (l : list (string * string * string)) n subs :
  (∀ m, m ∈ l → excel !! m.1.1 ≠ Some []) →
  ∃ subs',
    V2.for_each (V2.check_field excel fp) l (n, subs)
    = Ok ((n + length (filter (fun m => field_match m = true) l))%nat,
          (subs ++ subs')%list)
    ∧ map fst subs' = map snd l
    ∧ map V2.is_matched subs' = map (fun m => field_match m) l.
Proof.
  revert n subs. induction l as [|m l IH]; intros n subs Hall.
  - exists []. cbn. rewrite Nat.add_0_r, app_nil_r. done.
  - destruct (check_field_ok n subs m) as (f & E & Hf & _ & _).
    { apply Hall. left. }
    destruct (IH (n + if field_match m then 1 else 0)%nat
                (subs ++ [(m.2, V2.SubField f)])%list) as (subs' & E' & H1 & H2).
    { intros m' Hm'. apply Hall. by right. }
    exists ((m.2, V2.SubField f) :: subs').
    change (V2.for_each (V2.check_field excel fp) (m :: l) (n, subs))
      with (V2.check_field excel fp (n, subs) m
            ≫= V2.for_each (V2.check_field excel fp) l).
    rewrite E. change (Ok ?a ≫= ?k) with (k a). cbv beta. rewrite E'.
    split_and!.
    + f_equal. f_equal.
      * destruct (field_match m) eqn:Em.
        -- rewrite filter_cons_True by done. cbn [length]. lia.
        -- rewrite filter_cons_False by congruence. lia.
      * by rewrite <- app_assoc.
    + cbn [map fst]. by rewrite H1.
    + cbn [map]. rewrite H2. f_equal. unfold V2.is_matched. cbn [snd].
      exact Hf.
Qed.

Lemma for_each_check_field_raises (l : list (string * string * string))
    n subs :
  (∃ m, m ∈ l ∧ excel !! m.1.1 = Some []) →
  ∃ e, V2.for_each (V2.check_field excel fp) l (n, subs) = Raise e.
Proof.
  revert n subs. induction l as [|m l IH]; intros n subs (m' & Hin & E).
  - by apply elem_of_nil in Hin.
  - change (V2.for_each (V2.check_field excel fp) (m :: l) (n, subs))
      with (V2.check_field excel fp (n, subs) m
            ≫= V2.for_each (V2.check_field excel fp) l).
    destruct (V2.check_field excel fp (n, subs) m) as [[n1 subs1]|e] eqn:Ec.
    + change (Ok ?a ≫= ?k) with (k a). cbv beta. apply IH.
      apply elem_of_cons in Hin as [->|Hin].
      * destruct (check_field_raises n subs m E) as [e He]. congruence.
      * by exists m'.
    + by exists e.
Qed.

Lemma v2_first_page_spec :
  let r := V2._check_first_page_compliance excel fp in
  let k := length (filter (fun m => field_match m = true) V2.field_mappings) in
  ((∃ m, m ∈ V2.field_mappings ∧ excel !! m.1.1 = Some []) →
   V2.failed r = true ∧ V2.passed r = false ∧ V2.score r = 0)
  ∧ ((∀ m, m ∈ V2.field_mappings → excel !! m.1.1 ≠ Some []) →
     V2.failed r = false
     ∧ map fst (V2.sub_results r) = map snd V2.field_mappings
     ∧ map V2.is_matched (V2.sub_results r)
       = map (fun m => field_match m) V2.field_mappings
     ∧ V2.matched (V2.sub_results r) = k
     ∧ V2.score r = Qc_of_nat k / Qc_of_nat 6
     ∧ (V2.passed r = true ↔ Q2Qc (6 # 10) <= V2.score r)
     ∧ (V2.passed r = true ↔ (4 <= k)%nat)).
Proof.
  cbv zeta. unfold V2._check_first_page_compliance. split.
  - intros Hex.
    destruct (for_each_check_field_raises V2.field_mappings 0 [] Hex)
      as [e ->].
    done.
  - intros Hall.
    destruct (for_each_check_field_ok V2.field_mappings 0 [] Hall)
      as (subs' & E & H1 & H2).
    pose proof (for_each_check_field_spec _ _ _ _ _ _ _ E eq_refl)
      as [Hm _].
    rewrite E. cbn [app] in *. cbn [mbind result_bind try_except].
    change (0 <? length V2.field_mappings)%nat with true.
    change (length V2.field_mappings) with 6%nat.
    cbn [V2.failed V2.sub_results V2.score V2.passed].
    rewrite Nat.add_0_l in Hm |- *.
    split_and!; [done|done|done|done|done|apply Qc_leb_true|].
    apply six_tenths_of_six.
    etrans; [apply length_filter|]. done.
Qed.

End FirstPageFields.



(** ** Failure isolation *)

Lemma collect_raise (f : check_function) (e : exn) :
  call f = Raise e →
  collect f = mkResult (__name__ f) false 0
                [("error", DStr (exn_msg e))] [exn_msg e].
Proof. intros H. unfold collect. by rewrite H. Qed.

Lemma collect_result (f : check_function) (r : ComplianceResult) :
  call f = Ok (OutResult r) → collect f = r.
Proof. intros H. unfold collect. by rewrite H. Qed.

(** Through the worker pool every check yields exactly one collected
    result, whatever the completion order, and a raising check yields a
    failed result with its message. *)
Lemma run_checks_parallel_isolates
    (as_completed : list check_function → list check_function)
    (fs : list check_function) (max_workers : Z) :
  (0 < max_workers)%Z → fs ≡ₚ as_completed fs →
  ∃ rs, _run_checks_parallel as_completed fs max_workers = Ok rs
        ∧ rs ≡ₚ map collect fs
        ∧ ∀ f e, f ∈ fs → call f = Raise e →
            ∃ r, r ∈ rs ∧ check_name r = __name__ f ∧ passed r = false
                 ∧ score r = 0 ∧ errors r = [exn_msg e].
Proof.
  intros Hw Hp. unfold _run_checks_parallel.
  destruct (max_workers <=? 0)%Z eqn:E; [lia|].
  eexists. split; [reflexivity|]. split.
  - by rewrite <- Hp.
  - intros f e Hf He. exists (collect f). split.
    + apply list_elem_of_fmap. exists f. split; [done|]. by rewrite <- Hp.
    + by rewrite (collect_raise _ _ He).
Qed.

(** Without the pool the first raising check ends the run: the report is
    the error report, whatever the other checks are. *)
Lemma sequential_run_aborts
    (as_completed : list check_function → list check_function)
    (before after : list check_function) (f : check_function) (e : exn)
    (max_workers : Z) :
  Forall (fun g => ¬ raises (call g)) before → call f = Raise e →
  run_all_checks as_completed (Ok (before ++ f :: after)%list) false
    max_workers
  = error_report (exn_msg e).
Proof.
  intros Hb Hf. unfold run_all_checks.
  assert (H : call_all (before ++ f :: after)%list = Raise e).
  { induction Hb as [|g before Hg _ IH]; simpl.
    - by rewrite Hf.
    - destruct (call g); [|done]. simpl. by rewrite IH. }
  simpl. by rewrite H.
Qed.

(** C6 on the code.  A raising check next to a sound one: run without the
    worker pool, or as the only check, the exception leaves the check and
    the run ends in the error report, with no result for either check;
    through the pool the same two checks give two results, the raising one
    failed with score 0 and its message. *)
Theorem C6_sequential_run_aborts
    (as_completed : list check_function → list check_function) :
  run_all_checks as_completed (Ok [check_boom; check_fine]) false 4
    = error_report "boom"
  ∧ run_all_checks as_completed (Ok [check_fine; check_boom]) false 4
    = error_report "boom"
  ∧ run_all_checks as_completed (Ok [check_boom]) true 4
    = error_report "boom"
  ∧ map collect [check_boom; check_fine]
    = [mkResult "_check_boom" false 0 [("error", DStr "boom")] ["boom"];
       mkResult "fine_validation" true 1 [] []].
Proof. split_and!; reflexivity. Qed.

(** ** Identifier formats *)

Lemma validate_id_format_equal (field_type excel_value doc_value : string) :
  lower excel_value = lower doc_value →
  V2._validate_id_format field_type excel_value doc_value = true.
Proof.
  intros H. unfold V2._validate_id_format. by rewrite H, String.eqb_refl.
Qed.

Lemma lower_upper_char (c : ascii) : lower_char (upper_char c) = lower_char c.
Proof. by destruct c as [[] [] [] [] [] [] [] []]. Qed.

Lemma lower_upper (t : string) : lower (upper t) = lower t.
Proof.
  induction t as [|c t IH]; [done|].
  unfold lower, upper in *. simpl. by rewrite lower_upper_char, IH.
Qed.

(** What the method computes: equality up to case, for every field. *)
Lemma validate_id_format_iff (field_type excel_value doc_value : string) :
  V2._validate_id_format field_type excel_value doc_value = true
  ↔ lower excel_value = lower doc_value.
Proof.
  split; [|apply validate_id_format_equal].
  unfold V2._validate_id_format.
  destruct (String.eqb_spec (lower excel_value) (lower doc_value)) as [|Hne];
    [done|].
  assert (Hu : String.eqb (upper excel_value) (upper doc_value) = false).
  { apply String.eqb_neq. intros H. apply Hne.
    by rewrite <- (lower_upper excel_value), H, lower_upper. }
  assert (He : String.eqb excel_value doc_value = false).
  { apply String.eqb_neq. by intros ->. }
  rewrite Hu, He, !andb_false_r.
  by repeat match goal with |- context [if ?b then _ else _] => destruct b end.
Qed.

(** C7 on the code.  For each identifier field a document value that does
    not have the field's format is accepted once it equals the reference
    value up to case: the comparison at the top of [_validate_id_format]
    returns before any format is looked at, and what the method decides
    is that equality alone. *)
Theorem C7_format_invalid_value_accepted :
  (∀ field_type excel_value doc_value,
     V2._validate_id_format field_type excel_value doc_value = true
     ↔ lower excel_value = lower doc_value)
  ∧ (V2.matches V2.re_I V2.release_format "TBD" = false
   ∧ V2._validate_id_format "release" "tbd" "TBD" = true)
  ∧ (V2.matches V2.no_flags V2.business_app_id_format "N/A" = false
     ∧ V2._validate_id_format "business_app_id" "n/a" "N/A" = true)
  ∧ (V2.matches V2.re_I V2.clarity_project_id_format "Prj-12" = false
     ∧ V2._validate_id_format "clarity_project_id" "PRJ-12" "Prj-12" = true)
  ∧ (V2.matches V2.re_I V2.enterprise_release_id_format "Summer Release"
     = false
     ∧ V2._validate_id_format "enterprise_release_id" "summer release"
         "Summer Release" = true)
  ∧ (V2.matches V2.re_I V2.release_format "RLSE0031115" = true
     ∧ V2.matches V2.no_flags V2.business_app_id_format "12345678" = true
     ∧ V2.matches V2.re_I V2.clarity_project_id_format "PRJ01234" = true
     ∧ V2.matches V2.re_I V2.enterprise_release_id_format "2025.M08" = true).
Proof.
  split; [apply validate_id_format_iff|].
  split_and!; vm_compute; reflexivity.
Qed.

(** ** Table of contents *)

(** C8, as stated, fails.  In the modular checker a document with the
    table of contents but without the scope section has one of its two
    markers, scores 0.6 and not 1/2, and does not pass although 0.6 is
    reached.  In the monolithic checker a text with all five required
    sections and no contents header scores 1 and does not pass. *)
Lemma C8_counterexample :
  (let r := _check_table_of_contents_compliance toc_only in
   score r = Q2Qc (6 # 10) ∧ score r ≠ Qc_of_nat 1 / Qc_of_nat 2
   ∧ Q2Qc (6 # 10) <= score r ∧ passed r = false)
  ∧ (let r := V2._check_table_of_contents_compliance
                (Some (V2._check_table_of_contents sections_without_header)) in
     V2.count_found sections_without_header = 5%nat
     ∧ V2.score r = 1 ∧ Q2Qc (6 # 10) <= V2.score r ∧ V2.passed r = false).
Proof.
  split.
  - split_and!.
    + apply Qc_is_canon. reflexivity.
    + intros H. apply (f_equal this) in H. vm_compute in H. discriminate H.
    + apply Qc_leb_true. reflexivity.
    + reflexivity.
  - split_and!.
    + vm_compute. reflexivity.
    + apply Qc_is_canon. vm_compute. reflexivity.
    + apply Qc_leb_true. vm_compute. reflexivity.
    + vm_compute. reflexivity.
Qed.

Lemma three_fifths (m : nat) :
  (m <= 5)%nat →
  (Q2Qc (6 # 10) <= Qc_of_nat m / Qc_of_nat 5 ↔ (3 <= m)%nat).
Proof.
  intros H. rewrite <- Qc_leb_true.
  do 6 (destruct m as [|m];
        [vm_compute; split; intros; (done || lia)|]).
  lia.
Qed.

Lemma count_found_le (document_text : string) :
  (V2.count_found document_text <= 5)%nat.
Proof.
  unfold V2.count_found.
  etrans; [apply length_filter|]. reflexivity.
Qed.

(** C8, amended.  The modular check scores 0.6 for the table of contents
    plus 0.4 for the scope section and passes exactly when the score is at
    least 0.8, that is when both markers are present.  The monolithic
    check scores the required sections found over the five required and
    passes exactly when the contents header is present and the score is at
    least 0.6, that is from three sections on. *)
Theorem C8_table_of_contents_scores
    (doc : docx_data) (toc : V2.toc_data) (document_text : string) :
  (let has_toc := get_flag (table_of_contents doc) "has_table_of_contents" in
   let has_scope := get_flag (table_of_contents doc) "has_scope_section" in
   let r := _check_table_of_contents_compliance doc in
   score r = (if has_toc then Q2Qc (6 # 10) else 0)
             + (if has_scope then Q2Qc (4 # 10) else 0)
   ∧ (passed r = true ↔ Q2Qc (8 # 10) <= score r)
   ∧ (passed r = true ↔ has_toc = true ∧ has_scope = true))
  ∧ (let r := V2._check_table_of_contents_compliance (Some toc) in
     V2.score r = V2.toc_compliance_percentage toc / Q2Qc (100 # 1)
     ∧ (V2.passed r = true
        ↔ V2.has_table_of_contents toc = true ∧ Q2Qc (6 # 10) <= V2.score r))
  ∧ (let r := V2._check_table_of_contents_compliance
                (Some (V2._check_table_of_contents document_text)) in
     let found := V2.count_found document_text in
     V2.score r = Qc_of_nat found / Qc_of_nat 5
     ∧ (V2.passed r = true
        ↔ Re.found V2.re_I V2.toc_header document_text = true
          ∧ Q2Qc (6 # 10) <= V2.score r)
     ∧ (V2.passed r = true
        ↔ Re.found V2.re_I V2.toc_header document_text = true
          ∧ (3 <= found)%nat)).
Proof.
  split_and!.
  - unfold _check_table_of_contents_compliance.
    destruct (get_flag (table_of_contents doc) "has_table_of_contents"),
      (get_flag (table_of_contents doc) "has_scope_section"); simpl;
      (split_and!;
       [apply Qc_is_canon; reflexivity
       | vm_compute; split; intros; done
       | vm_compute; intuition congruence]).
  - unfold V2._check_table_of_contents_compliance. simpl.
    split; [done|]. rewrite andb_true_iff, Qc_leb_true. done.
  - assert (Hs : V2.score (V2._check_table_of_contents_compliance
                    (Some (V2._check_table_of_contents document_text)))
                 = Qc_of_nat (V2.count_found document_text) / Qc_of_nat 5).
    { unfold V2._check_table_of_contents_compliance,
        V2._check_table_of_contents. simpl.
      change (Qc_of_nat 5) with (Q2Qc (5 # 1)).
      field. split; intros H; apply (f_equal this) in H; discriminate H. }
    unfold V2._check_table_of_contents_compliance in *. simpl in *.
    rewrite Hs. split_and!; [done| |].
    + rewrite andb_true_iff, Qc_leb_true. done.
    + rewrite andb_true_iff, Qc_leb_true, three_fifths; [done|].
      apply count_found_le.
Qed.

(** ** Milestone dates *)

(** The table scan has no way to deliver a date: its accumulator is the
    empty [str], and appending to it raises inside the scan's own [try]. *)
Lemma extract_dates_from_table_empty (doc : V2.document) :
  V2._extract_dates_from_milestones_table doc = "".
Proof.
  unfold V2._extract_dates_from_milestones_table, try_except.
  destruct (V2.for_each _ _ _) as [[]|e]; reflexivity.
Qed.

(** C9 on the code.  The extraction never returns a list: it returns the
    text of one.  The table scan contributes nothing: on a milestones
    table whose row holds the implementation date the scan raises at the
    date it found and the extraction returns the text of the empty list,
    where the claim has the one-element list of the date with its leading
    zero stripped. *)
Theorem C9_table_dates_lost :
  (∀ doc text, ∃ t, V2._extract_implementation_dates_enhanced doc text = V2.VStr t)
  ∧ (∀ doc, V2._extract_dates_from_milestones_table doc = "")
  ∧ Re.findall V2.re_I V2.OptimizedPatterns.DATE_GENERAL "08/11/2025"
    = ["08/11/2025"]
  ∧ raises (V2.scan_table "" [["Milestone"; "Date"];
                              ["Implementation"; "08/11/2025"]])
  ∧ V2.implementation_dates milestones_document = V2.VStr "[]"
  ∧ V2.implementation_dates milestones_document ≠ V2.VList ["8/11/2025"]
  ∧ V2.implementation_dates labelled_document = V2.VStr "['8/11/2025']".
Proof.
  split_and!.
  - intros doc text. eexists. reflexivity.
  - apply extract_dates_from_table_empty.
  - vm_compute. reflexivity.
  - vm_compute. exact I.
  - vm_compute. reflexivity.
  - discriminate.
  - vm_compute. reflexivity.
Qed.

(** ** Date normalization *)

Section Strip.

Lemma lstrip_head (t : string) :
  lstrip t = "" ∨ ∃ c r, lstrip t = String c r ∧ isspace c = false.
Proof.
  induction t as [|c t IH]; simpl; [by left|].
  destruct (isspace c) eqn:E; [done|]. right. eauto.
Qed.

Lemma lstrip_id (c : ascii) (r : string) :
  isspace c = false → lstrip (String c r) = String c r.
Proof. intros H. simpl. by rewrite H. Qed.

Lemma rstrip_head (c : ascii) (r : string) :
  isspace c = false → ∃ r', rstrip (String c r) = String c r'.
Proof.
  intros H. simpl. destruct (rstrip r); [rewrite H|]; eauto.
Qed.

Lemma rstrip_cons (c d : ascii) (t r : string) :
  rstrip t = String d r → rstrip (String c t) = String c (String d r).
Proof. intros H. simpl. by rewrite H. Qed.

Lemma rstrip_idemp (t : string) : rstrip (rstrip t) = rstrip t.
Proof.
  induction t as [|c t IH]; [done|].
  destruct (rstrip t) as [|d r] eqn:E.
  - simpl. rewrite E. destruct (isspace c) eqn:Ec; simpl; [done|].
    by rewrite Ec.
  - rewrite (rstrip_cons _ _ _ _ E). by apply rstrip_cons.
Qed.

Lemma strip_idemp (t : string) : strip (strip t) = strip t.
Proof.
  unfold strip. destruct (lstrip_head t) as [->|(c & r & -> & Hc)]; [done|].
  destruct (rstrip_head c r Hc) as [r' Hr]. rewrite Hr.
  rewrite (lstrip_id _ _ Hc), <- Hr. apply rstrip_idemp.
Qed.

Lemma rstrip_snoc (t : string) (c : ascii) :
  isspace c = false → rstrip (t ++ String c "") = t ++ String c "".
Proof.
  intros H. induction t as [|x t IH]; simpl.
  - by rewrite H.
  - rewrite IH.
    change (String x t ++ String c "") with (String x (t ++ String c "")).
    destruct (t ++ String c "") eqn:E; [|done].
    by destruct t.
Qed.

End Strip.

Arguments taken : simpl never.

Lemma taken_app (p r : string) : taken (p ++ r) r = p.
Proof.
  unfold taken.
  assert (H : (String.length (p ++ r) - String.length r = String.length p)%nat).
  { assert (String.length (p ++ r)
            = (String.length p + String.length r)%nat) as ->; [|lia].
    induction p as [|c p IH]; simpl; [done|]. by rewrite IH. }
  rewrite H. clear H. induction p as [|c p IH]; simpl.
  - by destruct r.
  - by rewrite IH.
Qed.

Lemma taken_1 a r : taken (String a r) r = String a "".
Proof. apply (taken_app (String a "") r). Qed.
Lemma taken_2 a b r : taken (String a (String b r)) r = String a (String b "").
Proof. apply (taken_app (String a (String b "")) r). Qed.
Lemma taken_4 a b c d r :
  taken (String a (String b (String c (String d r)))) r
  = String a (String b (String c (String d ""))).
Proof. apply (taken_app (String a (String b (String c (String d "")))) r). Qed.

Lemma isdigit_cases (c : ascii) :
  isdigit c = true →
  c ∈ ["0"; "1"; "2"; "3"; "4"; "5"; "6"; "7"; "8"; "9"]%char.
Proof.
  destruct c as [[] [] [] [] [] [] [] []]; vm_compute; intros H;
    try discriminate H; set_solver.
Qed.

Arguments isdigit : simpl never.

Section DatePattern.

Variable fl : flags.

Lemma inv_chr cls pr t cs k e :
  run fl (Chr cls) (mkPos pr t cs) k = Some e →
  ∃ c t', t = String c t' ∧ cls c = true ∧ k (mkPos (Some c) t' cs) = Some e.
Proof.
  simpl. destruct t as [|c t]; [done|]. destruct (cls c) eqn:E; [|done].
  eauto.
Qed.

Lemma inv_d12 pr t cs k e :
  run fl (Rep 1 (Some 2%nat) d) (mkPos pr t cs) k = Some e →
  ∃ m t' pr', t = m ++ t' ∧ V2.one_or_two_digits m = true
             ∧ k (mkPos pr' t' cs) = Some e.
Proof.
  simpl. destruct t as [|a t]; [done|].
  destruct (isdigit a) eqn:Ea; [|done].
  assert (H1 : k (mkPos (Some a) t cs) = Some e →
    ∃ m t' pr', String a t = m ++ t' ∧ V2.one_or_two_digits m = true
                ∧ k (mkPos pr' t' cs) = Some e).
  { intros H. exists (String a ""), t, (Some a). split_and!; [done| |done].
    unfold V2.one_or_two_digits, V2.digits. simpl. by rewrite Ea. }
  destruct t as [|b t]; [destruct (k _); [intros; by apply H1|done]|].
  destruct (isdigit b) eqn:Eb.
  - destruct (k (mkPos (Some b) t cs)) eqn:E2.
    + intros [= <-]. exists (String a (String b "")), t, (Some b).
      split_and!; [done| |done].
      unfold V2.one_or_two_digits, V2.digits. simpl. by rewrite Ea, Eb.
    + destruct (k (mkPos (Some a) (String b t) cs)) eqn:E1; [|done].
      intros [= <-]. by apply H1.
  - destruct (k (mkPos (Some a) (String b t) cs)) eqn:E1; [|done].
    intros [= <-]. by apply H1.
Qed.

Lemma inv_d4 pr t cs k e :
  run fl (times 4 d) (mkPos pr t cs) k = Some e →
  ∃ y t' pr', t = y ++ t' ∧ V2.four_digits y = true
             ∧ k (mkPos pr' t' cs) = Some e.
Proof.
  simpl.
  destruct t as [|a [|b [|c [|x t]]]]; simpl;
    repeat match goal with
           | |- context [isdigit ?c] => destruct (isdigit c) eqn:?
           end; try done.
  destruct (k (mkPos (Some x) t cs)) eqn:E; [|done].
  intros [= <-].
  exists (String a (String b (String c (String x "")))), t, (Some x).
  split_and!; [done| |done].
  unfold V2.four_digits, V2.digits. simpl.
  repeat match goal with H : isdigit _ = true |- _ => rewrite H; clear H end.
  done.
Qed.

Lemma one_or_two_digits_inv (m : string) :
  V2.one_or_two_digits m = true →
  (∃ a, m = String a "" ∧ isdigit a = true)
  ∨ (∃ a b, m = String a (String b "") ∧ isdigit a = true ∧ isdigit b = true).
Proof.
  unfold V2.one_or_two_digits, V2.digits.
  destruct m as [|a [|b [|c m]]]; simpl; try done.
  - rewrite !andb_true_r. eauto.
  - rewrite !andb_true_r, andb_true_iff. intros [? ?]. right. eauto.
  - by rewrite !andb_false_r.
Qed.

Lemma four_digits_inv (y : string) :
  V2.four_digits y = true →
  ∃ a b c x, y = String a (String b (String c (String x "")))
    ∧ isdigit a = true ∧ isdigit b = true ∧ isdigit c = true
    ∧ isdigit x = true.
Proof.
  unfold V2.four_digits, V2.digits.
  destruct y as [|a [|b [|c [|x [|z y]]]]]; simpl;
    rewrite ?andb_false_r; try done.
  rewrite !andb_true_r, !andb_true_iff. intros (? & ? & ? & ?).
  eauto 10.
Qed.

Lemma fwd_d12 pr m t cs :
  V2.one_or_two_digits m = true →
  ∃ pr', ∀ k e,
    k (mkPos pr' (String "/" t) cs) = Some e →
    run fl (Rep 1 (Some 2%nat) d) (mkPos pr (m ++ String "/" t) cs) k = Some e.
Proof.
  intros [(a & -> & Ha) | (a & b & -> & Ha & Hb)]%one_or_two_digits_inv.
  - exists (Some a). intros k e H.
    change (String a "" ++ String "/" t) with (String a (String "/" t)).
    simpl. rewrite Ha. by rewrite H.
  - exists (Some b). intros k e H.
    change (String a (String b "") ++ String "/" t)
      with (String a (String b (String "/" t))).
    simpl. rewrite Ha, Hb. by rewrite H.
Qed.

Lemma fwd_slash pr t cs k :
  run fl V2.slash (mkPos pr (String "/" t) cs) k = k (mkPos (Some "/"%char) t cs).
Proof. reflexivity. Qed.

Lemma fwd_d4 pr y t cs :
  V2.four_digits y = true →
  ∃ pr', ∀ k, run fl (times 4 d) (mkPos pr (y ++ t) cs) k
              = k (mkPos pr' t cs).
Proof.
  intros (a & b & c & x & -> & Ha & Hb & Hc & Hx)%four_digits_inv.
  exists (Some x). intros k.
  change (String a (String b (String c (String x ""))) ++ t)
    with (String a (String b (String c (String x t)))).
  simpl. rewrite Ha, Hb, Hc, Hx.
  by destruct (k _).
Qed.

Lemma run_seq a b p k :
  run fl (a ~> b) p k = run fl a p (fun p' => run fl b p' k).
Proof. reflexivity. Qed.

Lemma run_grp a p k :
  run fl (Grp a) p k
  = run fl a p (fun p' => k (mkPos (prev p') (rest p')
                               (caps p' ++ [taken (rest p) (rest p')]))).
Proof. reflexivity. Qed.

End DatePattern.

Arguments run : simpl never.

Ltac re_step H :=
  cbv beta in H; cbn [prev rest caps app] in H;
  rewrite ?taken_app in H; rewrite ?run_seq in H; rewrite ?run_grp in H.

Lemma date_pattern_sound (t : string) (e : pos) :
  re_match V2.no_flags V2.date_pattern t = Some e →
  ∃ month day year,
    caps e = [month; day; year] ∧ V2.mdy_prefix t month day year (rest e).
Proof.
  unfold re_match, V2.date_pattern, V2.slash. intros H. re_step H.
  apply inv_d12 in H as (m & t1 & pr1 & -> & Hm & H). re_step H.
  apply inv_chr in H as (c1 & t2 & -> & Hc1 & H). re_step H.
  apply Ascii.eqb_eq in Hc1 as <-.
  apply inv_d12 in H as (dd & t3 & pr3 & -> & Hd & H). re_step H.
  apply inv_chr in H as (c2 & t4 & -> & Hc2 & H). re_step H.
  apply Ascii.eqb_eq in Hc2 as <-.
  apply inv_d4 in H as (y & t5 & pr5 & -> & Hy & H). re_step H.
  injection H as <-. cbn [caps rest].
  exists m, dd, y. split; [done|]. split_and!; done.
Qed.

Lemma slash_app (t : string) : "/" ++ t = String "/" t.
Proof. reflexivity. Qed.

Lemma date_pattern_complete (t month day year rest' : string) :
  V2.mdy_prefix t month day year rest' →
  ∃ pr, re_match V2.no_flags V2.date_pattern t
        = Some (mkPos pr rest' [month; day; year]).
Proof.
  intros (-> & Hm & Hd & Hy). rewrite !slash_app.
  destruct (fwd_d12 V2.no_flags None month (day ++ String "/" (year ++ rest')) []
              Hm) as [pr1 H1].
  destruct (fwd_d12 V2.no_flags (Some "/"%char) day (year ++ rest') [month] Hd)
    as [pr2 H2].
  destruct (fwd_d4 V2.no_flags (Some "/"%char) year rest' [month; day] Hy)
    as [pr3 H3].
  exists pr3. unfold re_match, V2.date_pattern.
  rewrite run_seq, run_grp. apply H1.
  cbn [prev rest caps app]. rewrite taken_app.
  rewrite run_seq, fwd_slash, run_seq, run_grp.
  apply H2.
  cbn [prev rest caps app]. rewrite taken_app.
  rewrite run_seq, fwd_slash, run_grp, H3.
  cbn [prev rest caps app]. rewrite taken_app. done.
Qed.

Lemma isdigit_not_space (c : ascii) : isdigit c = true → isspace c = false.
Proof.
  intros H%isdigit_cases.
  repeat (apply elem_of_cons in H as [->|H]; [reflexivity|]).
  by apply elem_of_nil in H.
Qed.

Ltac each_digit H :=
  apply isdigit_cases in H;
  repeat (apply elem_of_cons in H as [->|H]);
  [..|by apply elem_of_nil in H].

Lemma canon_digits (m : string) :
  V2.one_or_two_digits m = true →
  (∃ n, int_of m = Ok n ∧ str_of_nat n = V2.strip_leading_zero m)
  ∧ V2.one_or_two_digits (V2.strip_leading_zero m) = true
  ∧ V2.strip_leading_zero (V2.strip_leading_zero m) = V2.strip_leading_zero m.
Proof.
  intros [(a & -> & Ha) | (a & b & -> & Ha & Hb)]%one_or_two_digits_inv.
  - each_digit Ha; (split_and!; [eexists; split; reflexivity|reflexivity..]).
  - each_digit Ha; each_digit Hb;
      (split_and!; [eexists; split; reflexivity|reflexivity..]).
Qed.

Lemma normalize_date_unfold (t : string) :
  V2.normalize_date t
  = match re_match V2.no_flags V2.date_pattern (strip t) with
    | Some e =>
        match caps e with
        | [month; day; year] =>
            try_except
              (month ← int_of month;
               day ← int_of day;
               Ok (str_of_nat month ++ "/" ++ str_of_nat day ++ "/" ++ year))
              (fun _ => strip t)
        | _ => strip t
        end
    | None => strip t
    end.
Proof.
  unfold V2.normalize_date. destruct t as [|c t]; [reflexivity|].
  cbn [str_not]. destruct (re_match _ _ _) as [e|]; [|reflexivity].
  destruct (caps e) as [|? [|? [|? [|? ?]]]]; reflexivity.
Qed.

Lemma normalize_date_prefix (t month day year rest' : string) :
  V2.mdy_prefix (strip t) month day year rest' →
  V2.normalize_date t
  = V2.strip_leading_zero month ++ "/" ++ V2.strip_leading_zero day ++ "/" ++ year.
Proof.
  intros H. rewrite normalize_date_unfold.
  destruct (date_pattern_complete _ _ _ _ _ H) as [pr ->]. cbn [caps].
  destruct H as (_ & Hm & Hd & _).
  destruct (canon_digits _ Hm) as [(n1 & -> & <-) _].
  destruct (canon_digits _ Hd) as [(n2 & Hd2 & <-) _].
  cbn. rewrite Hd2. reflexivity.
Qed.

Lemma normalize_date_other (t : string) :
  (∀ month day year rest', ¬ V2.mdy_prefix (strip t) month day year rest') →
  V2.normalize_date t = strip t.
Proof.
  intros H. rewrite normalize_date_unfold.
  destruct (re_match _ _ _) as [e|] eqn:E; [|reflexivity].
  apply date_pattern_sound in E as (m & dd & y & _ & Hp).
  by apply H in Hp.
Qed.

Lemma str_app_assoc (a b c : string) : (a ++ b) ++ c = a ++ b ++ c.
Proof.
  induction a as [|x a IH]; [done|].
  change (String x ((a ++ b) ++ c) = String x (a ++ b ++ c)). by rewrite IH.
Qed.

Lemma str_app_nil_r (a : string) : a ++ "" = a.
Proof.
  induction a as [|x a IH]; [done|].
  change (String x (a ++ "") = String x a). by rewrite IH.
Qed.

Lemma strip_date (month day year : string) :
  V2.one_or_two_digits month = true → V2.one_or_two_digits day = true →
  V2.four_digits year = true →
  strip (month ++ "/" ++ day ++ "/" ++ year)
  = month ++ "/" ++ day ++ "/" ++ year.
Proof.
  intros Hm Hd
    (a & b & c & x & -> & Ha & Hb & Hc & Hx%isdigit_not_space)%four_digits_inv.
  assert (Hl : lstrip (month ++ "/" ++ day ++ "/" ++ String a (String b (String c (String x ""))))
               = month ++ "/" ++ day ++ "/" ++ String a (String b (String c (String x "")))).
  { apply one_or_two_digits_inv in Hm
      as [(m1 & -> & H1) | (m1 & m2 & -> & H1 & _)];
      apply lstrip_id, isdigit_not_space, H1. }
  unfold strip. rewrite Hl.
  replace (month ++ "/" ++ day ++ "/" ++ String a (String b (String c (String x ""))))
    with ((month ++ "/" ++ day ++ "/" ++ String a (String b (String c "")))
          ++ String x "").
  - by apply rstrip_snoc.
  - rewrite !str_app_assoc. reflexivity.
Qed.

Lemma normalize_date_idempotent (t : string) :
  V2.normalize_date (V2.normalize_date t) = V2.normalize_date t.
Proof.
  destruct (re_match V2.no_flags V2.date_pattern (strip t)) as [e|] eqn:E.
  - apply date_pattern_sound in E as (m & dd & y & _ & Hp).
    rewrite (normalize_date_prefix _ _ _ _ _ Hp).
    destruct Hp as (_ & Hm & Hd & Hy).
    destruct (canon_digits _ Hm) as (_ & Hm1 & Hm2).
    destruct (canon_digits _ Hd) as (_ & Hd1 & Hd2).
    rewrite (normalize_date_prefix _ (V2.strip_leading_zero m)
               (V2.strip_leading_zero dd) y "").
    + by rewrite Hm2, Hd2.
    + split_and!; [|done..]. rewrite strip_date by done.
      by rewrite str_app_nil_r.
  - rewrite (normalize_date_unfold t), E.
    rewrite normalize_date_unfold, strip_idemp, E. reflexivity.
Qed.

(** C10, as stated, fails: a text that is no date is not always left
    unchanged.  Surrounding blanks are trimmed from it, and a text that
    starts with a date loses what follows the year. *)
Lemma C10_counterexample :
  (¬ V2.mdy_shaped " n/a " ∧ V2.normalize_date " n/a " ≠ " n/a ")
  ∧ (¬ V2.mdy_shaped "08/11/2025 TBD"
     ∧ V2.normalize_date "08/11/2025 TBD" ≠ "08/11/2025 TBD").
Proof.
  split; (split; [|vm_compute; discriminate]);
    intros (m & dd & y & H); apply date_pattern_complete in H as [pr H];
    vm_compute in H; discriminate H.
Qed.

(** C10, amended.  [normalize_date] trims the text; when the trimmed text
    starts with one or two digits, a slash, one or two digits, a slash and
    four digits, it returns month, day and year with the leading zero of
    month and day stripped, and drops what follows the year; every other
    text is returned trimmed.  It is idempotent, and it maps 08/11/2025 to
    8/11/2025 and 8/1/2025 to itself. *)
Theorem C10_normalize_date (t : string) :
  (∀ month day year rest',
     V2.mdy_prefix (strip t) month day year rest' →
     V2.normalize_date t
     = V2.strip_leading_zero month ++ "/" ++ V2.strip_leading_zero day
       ++ "/" ++ year)
  ∧ ((∀ month day year rest',
        ¬ V2.mdy_prefix (strip t) month day year rest') →
     V2.normalize_date t = strip t)
  ∧ V2.normalize_date (V2.normalize_date t) = V2.normalize_date t
  ∧ V2.normalize_date "08/11/2025" = "8/11/2025"
  ∧ V2.normalize_date "8/1/2025" = "8/1/2025".
Proof.
  split_and!.
  - apply normalize_date_prefix.
  - apply normalize_date_other.
  - apply normalize_date_idempotent.
  - reflexivity.
  - reflexivity.
Qed.

(** * Further properties of the code *)

Import Str DocumentData Documents.

Module V2C := Version2Checks.
Module CM := ColumnMappings.

(** ** Bounds on scores *)

Section Fractions.

Lemma Qc_of_nat_Z2Qc (n : nat) : Qc_of_nat n = Qc_of_Z (Z.of_nat n).
Proof. apply Qc_is_canon. simpl. apply Qred_correct. Qed.

Lemma Qc_of_nat_le (i j : nat) : (i <= j)%nat → Qc_of_nat i <= Qc_of_nat j.
Proof.
  intros H. rewrite !Qc_of_nat_Z2Qc. apply (proj1 (Z2Qc_inj_le _ _)). lia.
Qed.

Lemma Qc_of_nat_pos (n : nat) : (0 < n)%nat → 0 < Qc_of_nat n.
Proof.
  intros H. rewrite Qc_of_nat_Z2Qc, <- Z2Qc_inj_0.
  apply (proj1 (Z2Qc_inj_lt _ _)). lia.
Qed.

Lemma Qc_of_nat_S (n : nat) : Qc_of_nat (S n) = Qc_of_nat n + 1.
Proof.
  rewrite !Qc_of_nat_Z2Qc, Nat2Z.inj_succ. unfold Z.succ.
  by rewrite Z2Qc_inj_add, Z2Qc_inj_1.
Qed.

Lemma Qc_div_bounds (a b : Qc) :
  0 <= a → a <= b → 0 < b → 0 <= a / b ∧ a / b <= 1.
Proof.
  intros Ha Hab Hb.
  assert (Hi : 0 < / b) by by apply Qcinv_pos.
  unfold Qcdiv. split.
  - apply Qcmult_nonneg_nonneg; [done|]. by apply Qclt_le_weak.
  - rewrite <- (Qcmult_inv_r b).
    + by apply Qcmult_le_mono_pos_r.
    + apply Qclt_not_eq in Hb. congruence.
Qed.

Lemma Qc_fraction_bounds (i u : nat) :
  (i <= u)%nat → (0 < u)%nat →
  0 <= Qc_of_nat i / Qc_of_nat u ∧ Qc_of_nat i / Qc_of_nat u <= 1.
Proof.
  intros Hi Hu. apply Qc_div_bounds.
  - change 0 with (Qc_of_nat 0). apply Qc_of_nat_le. lia.
  - by apply Qc_of_nat_le.
  - by apply Qc_of_nat_pos.
Qed.

End Fractions.

(** ** The similarity matcher *)

Lemma chars_inter_comm (A B : gset ascii) : A ∩ B = B ∩ A.
Proof. set_solver. Qed.

Lemma chars_union_comm (A B : gset ascii) : A ∪ B = B ∪ A.
Proof. set_solver. Qed.

Lemma chars_inter_idemp (A : gset ascii) : A ∩ A = A.
Proof. set_solver. Qed.

Lemma chars_union_idemp (A : gset ascii) : A ∪ A = A.
Proof. set_solver. Qed.

Lemma similarity_symmetric (a b : string) :
  _calculate_similarity_score a b = _calculate_similarity_score b a.
Proof.
  unfold _calculate_similarity_score.
  rewrite (orb_comm (str_not a)), (String.eqb_sym (_normalize_text_cached a)).
  by rewrite (chars_inter_comm (set_of_str (_normalize_text_cached a))),
    (chars_union_comm (set_of_str (_normalize_text_cached a))).
Qed.

Lemma similarity_bounds (a b : string) :
  0 <= _calculate_similarity_score a b ∧ _calculate_similarity_score a b <= 1.
Proof.
  unfold _calculate_similarity_score.
  destruct (str_not a || str_not b); [done|].
  destruct (String.eqb _ _); [done|].
  destruct (0 <? _)%nat eqn:E; [|done].
  apply Qc_fraction_bounds.
  - apply subseteq_size. set_solver.
  - by apply Nat.ltb_lt.
Qed.

(** X1.  The similarity of two texts does not depend on their order and
    lies between 0 and 1. *)
Theorem X1_similarity_symmetric_bounded (a b : string) :
  _calculate_similarity_score a b = _calculate_similarity_score b a
  ∧ 0 <= _calculate_similarity_score a b
  ∧ _calculate_similarity_score a b <= 1.
Proof.
  split; [apply similarity_symmetric | apply similarity_bounds].
Qed.

(** X2.  The similarity looks at which characters occur, not at their
    order or number: two non-empty texts whose normalized forms use the
    same characters have similarity 1. *)
Theorem X2_same_characters_full_score (a b : string) :
  a ≠ "" → b ≠ "" →
  set_of_str (_normalize_text_cached a) = set_of_str (_normalize_text_cached b) →
  _calculate_similarity_score a b = 1.
Proof.
  intros Ha%str_not_false Hb%str_not_false Hs.
  unfold _calculate_similarity_score. rewrite Ha, Hb. simpl.
  destruct (String.eqb _ _) eqn:En; [done|].
  rewrite Hs, chars_inter_idemp, chars_union_idemp.
  destruct (0 <? _)%nat eqn:E.
  - apply Nat.ltb_lt, Qc_of_nat_pos in E.
    unfold Qcdiv. apply Qcmult_inv_r. apply Qclt_not_eq in E. congruence.
  - exfalso. apply Nat.ltb_ge in E.
    assert (Hz : size (set_of_str (_normalize_text_cached b)) = 0%nat) by lia.
    apply size_empty_inv, leibniz_equiv in Hz.
    rewrite Hz in Hs.
    apply set_of_str_empty in Hs, Hz.
    apply String.eqb_neq in En. congruence.
Qed.

Lemma X2_witness : _calculate_similarity_score "listen" "Silent" = 1.
Proof.
  apply X2_same_characters_full_score; [discriminate | discriminate |].
  vm_compute. reflexivity.
Defined.

Lemma vectorized_text_match_exists
    (target : string) (candidates : list string) (threshold : Qc) :
  ∃ is_match score best,
    _vectorized_text_match target candidates threshold
      = Ok (is_match, score, best)
    ∧ 0 <= score ∧ score <= 1
    ∧ (is_match = true →
       ∃ c, c ∈ candidates
            ∧ threshold <= _calculate_similarity_score target c)
    ∧ (target ≠ "" →
       (∃ c, c ∈ candidates
             ∧ threshold <= _calculate_similarity_score target c) →
       is_match = true).
Proof.
  destruct (vectorized_text_match_spec target candidates threshold)
    as (m & s & b & Heq & Hempty & Hfull).
  exists m, s, b. split; [done|].
  destruct (decide (target = "")) as [Ht|Ht].
  { destruct (Hempty (or_introl Ht)) as (-> & -> & ->).
    split_and!; done. }
  destruct (decide (candidates = [])) as [Hc|Hc].
  { destruct (Hempty (or_intror Hc)) as (-> & -> & ->).
    split_and!; [done|done|done|].
    intros _ (c & Hin & _). subst. by apply elem_of_nil in Hin. }
  destruct (Hfull Ht Hc) as (Hmax & Hm & i & c & -> & Hi & Hs & _).
  cbv zeta in *. subst s. split_and!.
  - apply similarity_bounds.
  - apply similarity_bounds.
  - intros Hm'. exists c. split.
    + eapply list_elem_of_lookup_2, Hi.
    + by apply Hm.
  - intros _ (c' & Hin & Hle). apply Hm.
    eapply Qcle_trans; [exact Hle|]. by apply Hmax.
Qed.

(** X3.  A field check is named after its field, scores between 0 and 1
    and never takes its exception branch.  With the document value
    missing or no reference values it fails with score 0 and one error;
    otherwise it reports no error and passes exactly when some reference
    value that is not [None] has similarity at least 0.8 with the document
    value. *)
Theorem X3_field_compliance
    (field_name : string) (document_value : option string)
    (excel_values : list (option string)) :
  let r := _check_field_compliance field_name document_value excel_values in
  check_name r = field_name ++ "_validation"
  ∧ 0 <= score r ∧ score r <= 1
  ∧ (opt_not document_value = true ∨ excel_values = [] →
     passed r = false ∧ score r = 0 ∧ length (errors r) = 1%nat)
  ∧ (opt_not document_value = false → excel_values ≠ [] →
     errors r = []
     ∧ (passed r = true ↔
        ∃ c, c ∈ omap id excel_values
             ∧ Q2Qc (8 # 10)
               <= _calculate_similarity_score (str_of_opt document_value) c)).
Proof.
  unfold _check_field_compliance.
  destruct (opt_not document_value) eqn:Hd.
  { simpl. split_and!; done. }
  case_bool_decide as He.
  { simpl. split_and!; done. }
  destruct (vectorized_text_match_exists (str_of_opt document_value)
              (omap id excel_values) DEFAULT_MATCH_THRESHOLD)
    as (m & s & b & -> & H0 & H1 & Hm1 & Hm2).
  simpl. split_and!; try done.
  - intros [|]; done.
  - intros _ _. split; [done|]. split; [exact Hm1|].
    apply Hm2. destruct document_value as [[|]|]; done.
Qed.

(** ** The aggregator *)

Lemma sum_bounds (scores : list Qc) :
  Forall (fun x => 0 <= x ∧ x <= 1) scores →
  0 <= foldr Qcplus 0 scores
  ∧ foldr Qcplus 0 scores <= Qc_of_nat (length scores).
Proof.
  induction 1 as [|x l [Hx0 Hx1] _ [IH0 IH1]]; simpl.
  - split; apply Qcle_refl.
  - split.
    + by apply Qcplus_nonneg_nonneg.
    + rewrite Qc_of_nat_S, (Qcplus_comm (Qc_of_nat _)).
      by apply Qcplus_le_compat.
Qed.

Lemma mean_bounds (scores : list Qc) :
  scores ≠ [] → Forall (fun x => 0 <= x ∧ x <= 1) scores →
  0 <= mean scores ∧ mean scores <= 1.
Proof.
  intros Hne Hall. unfold mean. rewrite fsum_foldr.
  destruct (sum_bounds _ Hall) as [H0 H1].
  apply Qc_div_bounds; [done|done|].
  apply Qc_of_nat_pos. destruct scores; [done|simpl; lia].
Qed.

(** X4.  When every result scores between 0 and 1, so does the overall
    score, and the pass rate too; the passed checks never outnumber the
    total, which is the number of results. *)
Theorem X4_overall_score_bounded (results : list ComplianceResult) :
  Forall (fun r => 0 <= score r ∧ score r <= 1) results →
  let st := _calculate_overall_score results in
  0 <= overall_score st ∧ overall_score st <= 1
  ∧ (passed_checks st <= total_checks st)%nat
  ∧ total_checks st = length results
  ∧ (∀ rate, pass_rate st = Some rate → 0 <= rate ∧ rate <= 1).
Proof.
  intros Hall. unfold _calculate_overall_score.
  case_bool_decide as He; simpl.
  { subst. split_and!; try done. }
  assert (Hp : (passed_count results <= length results)%nat)
    by apply length_filter.
  assert (Hl : (0 < length results)%nat)
    by (destruct results; [done|simpl; lia]).
  destruct (mean_bounds (map score results)) as [H0 H1].
  { by destruct results. }
  { by apply Forall_fmap. }
  split_and!; try done.
  intros rate [= <-]. by apply Qc_fraction_bounds.
Qed.

Lemma X4_witness :
  0 <= overall_score (_calculate_overall_score four_results)
  ∧ overall_score (_calculate_overall_score four_results) <= 1.
Proof.
  assert (H : Forall (fun r => 0 <= score r ∧ score r <= 1) four_results).
  { repeat constructor; vm_compute; discriminate. }
  pose proof (X4_overall_score_bounded four_results H) as (H0 & H1 & _).
  split; [exact H0 | exact H1].
Defined.

(** ** The run of all checks *)

Lemma dict_of_lookup_acc {V : Type} (items : list (string * V)) (k : string)
    (m : gmap string V) :
  is_Some (m !! k) ∨ k ∈ map fst items →
  is_Some (foldl (fun m kv => <[kv.1 := kv.2]> m) m items !! k).
Proof.
  revert m. induction items as [|[k' v] items IH]; intros m; simpl.
  - intros [H|H]; [done|]. by apply elem_of_nil in H.
  - intros H. apply IH.
    destruct (decide (k' = k)) as [->|Hne].
    + left. rewrite lookup_insert_eq. eauto.
    + destruct H as [H|H].
      * left. by rewrite lookup_insert_ne.
      * apply elem_of_cons in H as [H|H]; [simpl in H; congruence|].
        by right.
Qed.

Lemma dict_of_lookup {V : Type} (items : list (string * V)) (k : string) :
  k ∈ map fst items → is_Some (dict_of items !! k).
Proof. intros H. apply dict_of_lookup_acc. by right. Qed.

(** X5.  Run through the worker pool, a set of two or more checks always
    yields a full report, whatever raises and whatever the completion
    order: no error entry, as many checks counted as were submitted, and
    an entry in the results by name for the name of every collected
    result. *)
Theorem X5_pool_run_is_complete
    (as_completed : list check_function → list check_function)
    (fs : list check_function) (max_workers : Z) :
  (1 < length fs)%nat → (0 < max_workers)%Z → fs ≡ₚ as_completed fs →
  let rep := run_all_checks as_completed (Ok fs) true max_workers in
  error rep = None
  ∧ total_checks (overall_statistics rep) = length fs
  ∧ ∀ f, f ∈ fs →
      is_Some (individual_checks rep !! check_name (collect f)).
Proof.
  intros Hl Hw Hp. unfold run_all_checks, _run_checks_parallel. simpl.
  apply Nat.ltb_lt in Hl. rewrite Hl.
  destruct (max_workers <=? 0)%Z eqn:E; [lia|]. simpl.
  assert (Hlen : length (map collect (as_completed fs)) = length fs).
  { by rewrite length_map, <- Hp. }
  split_and!.
  - reflexivity.
  - unfold _calculate_overall_score. case_bool_decide as He; simpl.
    + rewrite He in Hlen. simpl in Hlen. apply Nat.ltb_lt in Hl. lia.
    + done.
  - intros f Hf. unfold legacy_results. apply dict_of_lookup.
    rewrite map_map. simpl. apply list_elem_of_fmap.
    exists (collect f). split; [done|].
    apply list_elem_of_fmap. exists f. split; [done|]. by rewrite <- Hp.
Qed.

Lemma X5_witness :
  error (run_all_checks reverse (Ok [check_boom; check_fine]) true 4) = None.
Proof.
  refine (proj1 (X5_pool_run_is_complete reverse [check_boom; check_fine] 4
                   _ _ _)).
  - simpl. lia.
  - lia.
  - apply perm_swap.
Defined.

(** ** Dates *)

(** X6.  What [normalize_date] returns carries no surrounding blanks, and
    it is either the trimmed input or a date and nothing else: one or two
    digits, a slash, one or two digits, a slash and four digits. *)
Theorem X6_normalize_date_output (t : string) :
  strip (V2.normalize_date t) = V2.normalize_date t
  ∧ (V2.normalize_date t = strip t ∨ V2.mdy_shaped (V2.normalize_date t)).
Proof.
  destruct (re_match V2.no_flags V2.date_pattern (strip t)) as [e|] eqn:E.
  - apply date_pattern_sound in E as (m & dd & y & _ & Hp).
    rewrite (normalize_date_prefix _ _ _ _ _ Hp).
    destruct Hp as (_ & Hm & Hd & Hy).
    destruct (canon_digits _ Hm) as (_ & Hm1 & _).
    destruct (canon_digits _ Hd) as (_ & Hd1 & _).
    split; [by apply strip_date|].
    right. exists (V2.strip_leading_zero m), (V2.strip_leading_zero dd), y.
    split_and!; [|done..]. by rewrite str_app_nil_r.
  - rewrite normalize_date_unfold, E. split; [apply strip_idemp | by left].
Qed.

(** ** Table of contents, monolithic checker *)

Lemma toc_score_fraction (document_text : string) :
  V2.score (V2._check_table_of_contents_compliance
              (Some (V2._check_table_of_contents document_text)))
  = Qc_of_nat (V2.count_found document_text) / Qc_of_nat 5.
Proof.
  unfold V2._check_table_of_contents_compliance,
    V2._check_table_of_contents. simpl.
  change (Qc_of_nat 5) with (Q2Qc (5 # 1)).
  field. split; intros H; apply (f_equal this) in H; discriminate H.
Qed.

(** X7.  On an analysed text the table-of-contents check passes exactly
    when the analysis found the contents header and calls the table
    comprehensive, that is when at least three of the five required
    sections were found; the score lies between 0 and 1. *)
Theorem X7_toc_verdict_is_both_flags (document_text : string) :
  let toc := V2._check_table_of_contents document_text in
  let r := V2._check_table_of_contents_compliance (Some toc) in
  (V2.passed r = true
   ↔ V2.has_table_of_contents toc = true
     ∧ V2.has_comprehensive_toc toc = true)
  ∧ (V2.has_comprehensive_toc toc = true
     ↔ (3 <= V2.found_sections_count toc)%nat)
  ∧ 0 <= V2.score r ∧ V2.score r <= 1.
Proof.
  pose proof (count_found_le document_text) as Hle.
  pose proof (toc_score_fraction document_text) as Hs.
  assert (Hc : V2.has_comprehensive_toc
                 (V2._check_table_of_contents document_text) = true
               ↔ (3 <= V2.count_found document_text)%nat).
  { unfold V2._check_table_of_contents. simpl.
    revert Hle. generalize (V2.count_found document_text). intros m Hm.
    do 6 (destruct m as [|m];
          [vm_compute; split; intros; (done || lia)|]).
    lia. }
  cbv zeta. split_and!.
  - rewrite Hc. unfold V2._check_table_of_contents_compliance in *.
    simpl in *. rewrite Hs, andb_true_iff, Qc_leb_true, three_fifths; done.
  - exact Hc.
  - rewrite Hs. apply Qc_fraction_bounds; lia.
  - rewrite Hs. apply Qc_fraction_bounds; lia.
Qed.

(** ** The de-duplication loop *)

Lemma unique_spec (seen : gset string) (dates : list string) :
  NoDup (V2.unique seen dates)
  ∧ (∀ x, x ∈ V2.unique seen dates ↔ x ∈ dates ∧ x ∉ seen)
  ∧ sublist (V2.unique seen dates) dates.
Proof.
  revert seen. induction dates as [|d dates IH]; intros seen; simpl.
  - split_and!; [constructor | | constructor].
    intros x. split; [by intros ?%elem_of_nil | by intros [?%elem_of_nil _]].
  - case_bool_decide as Hd.
    + destruct (IH seen) as (Hn & Hin & Hsub). split_and!; [done| |].
      * intros x. rewrite Hin, elem_of_cons. split; [tauto|].
        intros [[->|?] ?]; [done|tauto].
      * by apply sublist_cons.
    + destruct (IH ({[d]} ∪ seen)) as (Hn & Hin & Hsub). split_and!.
      * apply NoDup_cons_2; [|done]. rewrite Hin. set_solver.
      * intros x. rewrite !elem_of_cons, Hin. 
        destruct (decide (x = d)) as [->|Hne]; [tauto|]. set_solver.
      * by apply sublist_skip.
Qed.

Lemma unique_nodup_id (seen : gset string) (dates : list string) :
  NoDup dates → (∀ x, x ∈ dates → x ∉ seen) → V2.unique seen dates = dates.
Proof.
  revert seen. induction dates as [|d dates IH]; intros seen Hn Hs; [done|].
  simpl. inversion Hn as [|? ? Hd Hn']; subst.
  rewrite bool_decide_eq_false_2 by (apply Hs; left).
  f_equal. apply IH; [done|].
  intros x Hx. specialize (Hs x (list_elem_of_further _ _ _ Hx)).
  set_solver.
Qed.

Lemma filter_all {A : Type} (P : A → Prop) `{∀ x, Decision (P x)}
    (l : list A) :
  (∀ x, x ∈ l → P x) → filter P l = l.
Proof.
  induction l as [|a l IH]; intros Hall; [done|].
  rewrite filter_cons_True by (apply Hall; left).
  f_equal. apply IH. intros x Hx. apply Hall. by right.
Qed.

(** A date already seen is a date filtered out of the result. *)
Lemma unique_seen (d : string) (seen : gset string) (dates : list string) :
  V2.unique ({[d]} ∪ seen) dates
  = filter (fun x => x ≠ d) (V2.unique seen dates).
Proof.
  revert seen. induction dates as [|x dates IH]; intros seen; [done|].
  cbn [V2.unique]. destruct (decide (x ∈ seen)) as [Hs|Hs].
  - rewrite (bool_decide_eq_true_2 (x ∈ seen)) by done.
    rewrite bool_decide_eq_true_2 by set_solver. apply IH.
  - rewrite (bool_decide_eq_false_2 (x ∈ seen)) by done.
    destruct (decide (x = d)) as [->|Hne].
    + rewrite bool_decide_eq_true_2 by set_solver.
      rewrite filter_cons_False by (intros Hd; by apply Hd).
      symmetry. apply filter_all. intros y Hy Heq. subst y.
      apply (proj1 (proj2 (unique_spec _ _))) in Hy. set_solver.
    + rewrite bool_decide_eq_false_2 by set_solver.
      rewrite filter_cons_True by done. f_equal.
      rewrite <- IH. f_equal. set_solver.
Qed.

(** X8.  The loop that removes duplicate dates keeps exactly the dates of
    its input, each once, in the order of their first occurrence: the
    result for a date followed by more dates is that date, followed by
    the result for the other dates without that date.  A list without
    duplicates comes back unchanged. *)
Theorem X8_unique_dates (dates : list string) :
  NoDup (V2.unique ∅ dates)
  ∧ (∀ x, x ∈ V2.unique ∅ dates ↔ x ∈ dates)
  ∧ sublist (V2.unique ∅ dates) dates
  ∧ (NoDup dates → V2.unique ∅ dates = dates)
  ∧ V2.unique ∅ [] = []
  ∧ (∀ d, V2.unique ∅ (d :: dates)
          = d :: filter (fun x => x ≠ d) (V2.unique ∅ dates))
  ∧ V2.unique ∅ ["a"; "b"; "a"] = ["a"; "b"].
Proof.
  destruct (unique_spec ∅ dates) as (Hn & Hin & Hsub).
  split_and!; [done| |done| |done| |done].
  - intros x. rewrite Hin. set_solver.
  - intros Hd. apply unique_nodup_id; [done|]. set_solver.
  - intros d. cbn [V2.unique].
    rewrite bool_decide_eq_false_2 by set_solver.
    f_equal. apply unique_seen.
Qed.

(** ** Occurrence of one text in another *)

Section Contains.

Lemma prefix_app (a y : string) : String.prefix a (a ++ y) = true.
Proof.
  induction a as [|c a IH]; [by destruct y|].
  change (String c a ++ y) with (String c (a ++ y)). simpl.
  destruct (ascii_dec c c); [exact IH|done].
Qed.

Lemma prefix_inv (a b : string) :
  String.prefix a b = true → ∃ y, b = a ++ y.
Proof.
  revert b. induction a as [|c a IH]; intros b; simpl.
  - intros _. by exists b.
  - destruct b as [|d b]; simpl; [done|].
    destruct (ascii_dec c d) as [->|]; [|done].
    intros [y ->]%IH. by exists y.
Qed.

Lemma contains_nil (a : string) :
  contains "" a = String.prefix a "".
Proof. unfold contains. apply orb_false_r. Qed.

Lemma contains_cons (c : ascii) (b a : string) :
  contains (String c b) a = String.prefix a (String c b) || contains b a.
Proof. reflexivity. Qed.

Lemma contains_iff (b a : string) :
  contains b a = true ↔ ∃ x y, b = x ++ a ++ y.
Proof.
  split.
  - induction b as [|c b IH].
    + rewrite contains_nil. intros [y Hy]%prefix_inv. by exists "", y.
    + rewrite contains_cons, orb_true_iff.
      intros [[y Hy]%prefix_inv|(x & y & ->)%IH].
      * by exists "", y.
      * by exists (String c x), y.
  - intros (x & y & ->). induction x as [|c x IH].
    + change ("" ++ a ++ y) with (a ++ y).
      destruct (a ++ y) as [|c t] eqn:E.
      * rewrite contains_nil, <- E. apply prefix_app.
      * rewrite contains_cons, <- E, prefix_app. done.
    + change (String c x ++ a ++ y) with (String c (x ++ a ++ y)).
      rewrite contains_cons, IH. apply orb_true_r.
Qed.

Lemma contains_trans (c b a : string) :
  contains c b = true → contains b a = true → contains c a = true.
Proof.
  rewrite !contains_iff. intros (x & y & ->) (x' & y' & ->).
  exists (x ++ x'), (y' ++ y). by rewrite !str_app_assoc.
Qed.

Lemma contains_refl (a : string) : contains a a = true.
Proof. apply contains_iff. exists "", "". by rewrite str_app_nil_r. Qed.

End Contains.

(** ** The footer check *)

(** X9.  The footer check reports an error exactly when it fails, and it
    passes exactly when the footer carries a project name and some
    reference project name that is neither [None] nor empty has
    similarity at least 0.8 with it; its score lies between 0 and 1. *)
Theorem X9_footer_check (excel : excel_data) (doc : docx_document) :
  let r := DocxChecks._check_footer_compliance excel doc in
  let name := project_name_in_footer (footer doc) in
  check_name r = "footer_validation"
  ∧ (passed r = true ↔ errors r = [])
  ∧ (passed r = true ↔
     opt_not name = false
     ∧ ∃ c, c ∈ truthy_names (excel_get excel "project_name")
            ∧ Q2Qc (8 # 10) <= _calculate_similarity_score (str_of_opt name) c)
  ∧ 0 <= score r ∧ score r <= 1.
Proof.
  unfold DocxChecks._check_footer_compliance.
  destruct (opt_not (project_name_in_footer (footer doc))) eqn:Hn.
  { simpl. split_and!; try done. split; [done|]. intros [? _]; congruence. }
  destruct (available excel "project_name") eqn:Ha.
  - destruct (vectorized_text_match_exists
                (str_of_opt (project_name_in_footer (footer doc)))
                (truthy_names (excel_get excel "project_name"))
                DEFAULT_MATCH_THRESHOLD)
      as (m & s & b & -> & H0 & H1 & Hm1 & Hm2).
    simpl. split_and!; try done.
    + by destruct m.
    + split.
      * intros Hm. split; [done|]. by apply Hm1.
      * intros [_ Hc]. apply Hm2; [|done].
        destruct (project_name_in_footer (footer doc)) as [[|]|]; done.
  - simpl. split_and!; try done.
    split; [done|]. intros [_ (c & Hc & _)].
    unfold available, excel_get in *.
    destruct (excel !! "project_name") as [[|]|]; simpl in Hc;
      try done; by apply elem_of_nil in Hc.
Qed.

(** ** Embedded workbook *)

Lemma found_worksheets_le (names : list string) :
  (length (found_worksheets names) <= 6)%nat.
Proof. unfold found_worksheets. etrans; [apply length_filter|]. done. Qed.

Lemma embedded_score_verdict (k : nat) (arch : bool) :
  (k <= 6)%nat →
  let score := 0 + Qc_of_nat k / Qc_of_nat 6 * Q2Qc (8 # 10)
               + (if arch then Q2Qc (2 # 10) else 0) in
  (Qc_leb (Q2Qc (7 # 10)) score = true
   ↔ (arch = true ∧ (4 <= k)%nat) ∨ k = 6%nat)
  ∧ Qc_leb 0 score = true ∧ Qc_leb score 1 = true.
Proof.
  intros H.
  do 7 (destruct k as [|k];
        [destruct arch; vm_compute;
         (split; [split; [intros; (done || (try (left; split; [done|lia]);
                                            try (right; lia)))
                         | intros [[? ?]|?]; (done || lia)]
                 | done])|]).
  lia.
Qed.


(** ** Milestones *)

(** X11.  The milestones check of the document checker passes exactly
    when the milestones section is present: it scores 0.6 for the section
    alone and 1 once a date was extracted.  The reference end dates never
    change score or verdict, as the 0.2 they add is cut off at 1. *)
Theorem X11_docx_milestones (excel : excel_data) (doc : docx_document) :
  let m := docx_milestones doc in
  let r := DocxChecks._check_milestones_compliance excel doc in
  passed r = has_milestones_section m
  ∧ score r = (if has_milestones_section m
               then if bool_decide (implementation_dates m = [])
                    then Q2Qc (6 # 10) else 1
               else 0)
  ∧ (errors r = [] ↔ passed r = true).
Proof.
  unfold DocxChecks._check_milestones_compliance.
  destruct (has_milestones_section (docx_milestones doc)); simpl; [|done].
  case_bool_decide; simpl.
  - split_and!; [reflexivity | reflexivity | done].
  - destruct (available excel "end_date");
      (split_and!; [reflexivity | apply Qc_is_canon; reflexivity | done]).
Qed.

(** X12.  The milestones check of the presentation checker passes exactly
    when milestones were found and a slide or a date goes with them; its
    score lies between 0 and 1, and reference end dates never lower it. *)
Theorem X12_pptx_milestones (excel : excel_data) (doc : pptx_document) :
  let m := pptx_milestones doc in
  let r := PptxChecks._check_milestones_compliance excel doc in
  (passed r = true ↔
   has_milestones_section m = true
   ∧ (milestone_slides m ≠ [] ∨ implementation_dates m ≠ []))
  ∧ 0 <= score r ∧ score r <= 1
  ∧ score (PptxChecks._check_milestones_compliance ∅ doc) <= score r
  ∧ (errors r = [] ↔ passed r = true).
Proof.
  unfold PptxChecks._check_milestones_compliance.
  destruct (has_milestones_section (pptx_milestones doc)); simpl.
  2: { split_and!; try done. split; [done|]. intros [? _]; done. }
  change (available ∅ "end_date") with false.
  do 2 case_bool_decide; simpl; destruct (available excel "end_date");
    (split_and!;
     [first [ split; [intros; split; [done|tauto] | intros _; by vm_compute]
            | split; [by vm_compute | intros [_ [?|?]]; done] ]
     | by vm_compute | by vm_compute | by vm_compute | by vm_compute]).
Qed.

(** ** The PLT status check *)

(** X13.  The PLT status check passes exactly when a PLT status was
    found, whatever its text: the text only moves the score, which is
    0.7 without a text and with a text 0.7 plus 0.3 for a positive
    indicator, else plus 0.1 for a negative one, else plus 0.2, above 0.7
    and at most 1; an error is reported exactly on a failure.  In
    binary64, as the code adds them, these scores are 1.0,
    0.7999999999999999 and 0.8999999999999999, and the verdict is the
    same. *)
Theorem X13_plt_status_verdict (doc : pptx_document) :
  let p := pptx_plt_status doc in
  let r := PptxChecks._check_plt_status_compliance doc in
  let r64 := PptxChecks._check_plt_status_compliance_binary64 doc in
  let text := lower (str_of_opt (plt_status p)) in
  passed r = has_plt_status p
  ∧ (errors r = [] ↔ passed r = true)
  ∧ (has_plt_status p = false → score r = 0)
  ∧ (has_plt_status p = true → opt_not (plt_status p) = true →
     score r = Q2Qc (7 # 10))
  ∧ (has_plt_status p = true → opt_not (plt_status p) = false →
     Q2Qc (7 # 10) < score r ∧ score r <= 1
     ∧ score r
       = Q2Qc (7 # 10)
         + (if contains_any text PptxChecks.positive_indicators
            then Q2Qc (3 # 10)
            else if contains_any text PptxChecks.negative_indicators
            then Q2Qc (1 # 10)
            else Q2Qc (2 # 10)))
  ∧ r64.1 = passed r
  ∧ (has_plt_status p = false → r64.2 = 0%float)
  ∧ (has_plt_status p = true → opt_not (plt_status p) = true →
     r64.2 = 0.7%float)
  ∧ (has_plt_status p = true → opt_not (plt_status p) = false →
     r64.2
     = if contains_any text PptxChecks.positive_indicators
       then 1%float
       else if contains_any text PptxChecks.negative_indicators
       then 0.7999999999999999%float
       else 0.8999999999999999%float).
Proof.
  unfold PptxChecks._check_plt_status_compliance,
    PptxChecks._check_plt_status_compliance_binary64. cbv zeta.
  destruct (has_plt_status (pptx_plt_status doc)); cbn [negb]; [|done].
  destruct (opt_not (plt_status (pptx_plt_status doc))); cbn [negb].
  { split_and!; done. }
  match goal with
  | |- context [contains_any ?t PptxChecks.positive_indicators] =>
      destruct (contains_any t PptxChecks.positive_indicators);
        [|destruct (contains_any t PptxChecks.negative_indicators)]
  end; cbn [passed errors score fst snd].
  all: split_and!; try done.
  all: intros _ _; first [by vm_compute | split_and!; by vm_compute].
Qed.

(** X14.  A PLT status whose text contains [incomplete], in any case,
    gets the full score 1 of a positive status: the positive indicators
    are looked for first and [complete] occurs in [incomplete], so the
    negative indicator [incomplete] is never the one that counts. *)
Theorem X14_incomplete_scores_as_complete (doc : pptx_document) (s : string) :
  has_plt_status (pptx_plt_status doc) = true →
  plt_status (pptx_plt_status doc) = Some s →
  contains (lower s) "incomplete" = true →
  score (PptxChecks._check_plt_status_compliance doc) = 1
  ∧ passed (PptxChecks._check_plt_status_compliance doc) = true
  ∧ errors (PptxChecks._check_plt_status_compliance doc) = [].
Proof.
  intros Hh Hs Hc. unfold PptxChecks._check_plt_status_compliance.
  cbv zeta. rewrite Hh, Hs. cbn [negb opt_not].
  change (str_of_opt (Some s)) with s.
  assert (Hn : str_not s = false).
  { destruct s; [|done]. by vm_compute in Hc. }
  rewrite Hn. cbn [negb].
  assert (Hp : contains_any (lower s) PptxChecks.positive_indicators = true).
  { unfold contains_any, PptxChecks.positive_indicators.
    cbn [existsb].
    rewrite (contains_trans (lower s) "incomplete" "complete" Hc);
      [done | by vm_compute]. }
  rewrite Hp. cbn [passed errors score].
  split_and!; try done. apply Qc_is_canon. reflexivity.
Qed.

Lemma X14_witness :
  score (PptxChecks._check_plt_status_compliance
           (mkPptxDocument 12 (mkSlide false ∅) (mkEmbedded false [] false 0)
              (mkMilestones false [] [])
              (mkPlt true (Some "PLT: Incomplete, 3 defects open") [7])))
  = 1.
Proof.
  refine (proj1 (X14_incomplete_scores_as_complete _
                   "PLT: Incomplete, 3 defects open" _ _ _));
    reflexivity.
Defined.

(** ** The slide count check *)

(** X15.  The slide count check passes from three slides on and is
    free of errors from five slides on, so three and four slides pass
    with an error entry; its score never decreases when slides are
    added. *)
Theorem X15_slide_count (doc doc' : pptx_document) :
  let r := PptxChecks._check_slide_count_compliance doc in
  let r' := PptxChecks._check_slide_count_compliance doc' in
  (passed r = true ↔ (3 <= slide_count doc)%nat)
  ∧ (errors r = [] ↔ (5 <= slide_count doc)%nat)
  ∧ (score r = 1 ↔ (10 <= slide_count doc)%nat)
  ∧ Q2Qc (3 # 10) <= score r ∧ score r <= 1
  ∧ ((slide_count doc <= slide_count doc')%nat → score r <= score r').
Proof.
  unfold PptxChecks._check_slide_count_compliance.
  destruct (Nat.leb_spec 10 (slide_count doc));
    [|destruct (Nat.leb_spec 5 (slide_count doc));
      [|destruct (Nat.leb_spec 3 (slide_count doc))]];
  (destruct (Nat.leb_spec 10 (slide_count doc'));
    [|destruct (Nat.leb_spec 5 (slide_count doc'));
      [|destruct (Nat.leb_spec 3 (slide_count doc'))]]);
  cbn [passed errors score];
  (split_and!;
   [split; intros; (done || lia)
   |split; intros; (done || lia)
   |split; intros; (done || lia)
   |by vm_compute | by vm_compute
   |intros; (lia || by vm_compute)]).
Qed.

(** ** Whole runs of the two checkers *)

Section Runs.

Lemma dict_of_notin_acc {V : Type} (items : list (string * V)) (k : string)
    (m : gmap string V) :
  k ∉ map fst items →
  foldl (fun m kv => <[kv.1 := kv.2]> m) m items !! k = m !! k.
Proof.
  revert m. induction items as [|[k' v'] items IH]; intros m; simpl; [done|].
  intros Hn. apply not_elem_of_cons in Hn as [Hne Hn].
  rewrite IH by done. by rewrite lookup_insert_ne.
Qed.

Lemma dict_of_lookup_Some {V : Type} (items : list (string * V)) (k : string)
    (v : V) :
  NoDup (map fst items) → (k, v) ∈ items → dict_of items !! k = Some v.
Proof.
  unfold dict_of. generalize (∅ : gmap string V).
  induction items as [|[k' v'] items IH]; intros m Hnd Hin; simpl.
  - by apply elem_of_nil in Hin.
  - simpl in Hnd. inversion Hnd as [|? ? Hk Hnd']; subst.
    apply elem_of_cons in Hin as [[= -> ->]|Hin].
    + rewrite dict_of_notin_acc by done. by rewrite lookup_insert_eq.
    + by apply IH.
Qed.

Lemma dom_dict_of_acc {V : Type} (items : list (string * V))
    (m : gmap string V) :
  dom (foldl (fun m kv => <[kv.1 := kv.2]> m) m items)
  = dom m ∪ list_to_set (map fst items).
Proof.
  revert m. induction items as [|[k v] items IH]; intros m; simpl.
  - set_solver.
  - rewrite IH, dom_insert_L. set_solver.
Qed.

Lemma dom_dict_of {V : Type} (items : list (string * V)) :
  dom (dict_of items) = list_to_set (map fst items).
Proof. unfold dict_of. rewrite dom_dict_of_acc. set_solver. Qed.

Lemma call_all_results (fs : list check_function)
    (rs : list ComplianceResult) :
  Forall2 (fun f r => call f = Ok (OutResult r)) fs rs →
  call_all fs = Ok (map OutResult rs)
  ∧ as_results (map OutResult rs) = Ok rs
  ∧ map collect fs = rs.
Proof.
  induction 1 as [|f r fs rs Hf _ (IH1 & IH2 & IH3)]; [done|].
  simpl. rewrite Hf, IH1, IH2, IH3. split_and!; try done.
  by rewrite (collect_result f r Hf).
Qed.

(** What of the statistics does not depend on the order of the
    results. *)
Lemma stats_perm (rs rs' : list ComplianceResult) :
  rs ≡ₚ rs' → NoDup (map check_name rs) →
  let st := _calculate_overall_score rs in
  let st' := _calculate_overall_score rs' in
  total_checks st = total_checks st'
  ∧ passed_checks st = passed_checks st'
  ∧ pass_rate st = pass_rate st'
  ∧ individual_scores st = individual_scores st'.
Proof.
  intros Hp Hnd. cbv zeta. unfold _calculate_overall_score.
  destruct rs as [|r rs].
  { apply Permutation_nil_l in Hp. by subst. }
  destruct rs' as [|r' rs'].
  { symmetry in Hp. by apply Permutation_nil_cons in Hp. }
  rewrite !bool_decide_eq_false_2 by done.
  cbn [total_checks passed_checks pass_rate individual_scores].
  assert (Hlen : length (r :: rs) = length (r' :: rs')) by by rewrite Hp.
  rewrite (passed_count_perm _ _ Hp), Hlen.
  split_and!; try done. f_equal. apply dict_of_perm.
  - by apply fmap_Permutation.
  - by rewrite map_map.
Qed.

(** When every check returns a [ComplianceResult] and the names of the
    results are distinct, the pool and the plain loop produce the same
    results by name; the statistics of the loop are those of the results
    in the order of the checks, the statistics of the pool those of the
    results in the order of completion. *)
Lemma pool_and_loop
    (order : list check_function → list check_function)
    (fs : list check_function) (rs : list ComplianceResult)
    (max_workers : Z) :
  (0 < max_workers)%Z → fs ≡ₚ order fs →
  Forall2 (fun f r => call f = Ok (OutResult r)) fs rs →
  NoDup (map check_name rs) →
  run_all_checks order (Ok fs) true max_workers
  = mkReport (legacy_results rs)
      (_calculate_overall_score (map collect (order fs)))
      (Some (mkMeta 0 true max_workers)) None
  ∧ run_all_checks order (Ok fs) false max_workers
    = mkReport (legacy_results rs) (_calculate_overall_score rs)
        (Some (mkMeta 0 false 1)) None
  ∧ rs ≡ₚ map collect (order fs).
Proof.
  intros Hw Hp Hall Hnd.
  destruct (call_all_results fs rs Hall) as (Hc & Ha & Hm).
  assert (Hperm : rs ≡ₚ map collect (order fs)).
  { rewrite <- Hm. apply fmap_Permutation. exact Hp. }
  unfold run_all_checks, _run_checks_parallel. simpl.
  rewrite Hc. simpl. rewrite Ha. simpl. split_and!; [|done|done].
  destruct (1 <? length fs)%nat eqn:El.
  - destruct (max_workers <=? 0)%Z eqn:E; [lia|]. simpl.
    by rewrite <- (legacy_results_perm _ _ Hnd Hperm).
  - assert (Ho : order fs = fs).
    { apply Nat.ltb_ge in El. destruct fs as [|f [|f' fs]].
      + symmetry. by apply Permutation_nil_l.
      + symmetry. by apply Permutation_singleton_l.
      + simpl in El. lia. }
    by rewrite Ho, Hm.
Qed.

Lemma legacy_results_lookup (rs : list ComplianceResult)
    (r : ComplianceResult) :
  NoDup (map check_name rs) → r ∈ rs →
  legacy_results rs !! check_name r
  = Some (mkLegacyResult (passed r) (score r) (details r) (errors r)).
Proof.
  intros Hnd Hin. unfold legacy_results. apply dict_of_lookup_Some.
  - by rewrite map_map.
  - apply list_elem_of_fmap. by exists r.
Qed.

Lemma legacy_results_dom (rs : list ComplianceResult) :
  dom (legacy_results rs) = list_to_set (map check_name rs).
Proof. unfold legacy_results. by rewrite dom_dict_of, map_map. Qed.

(** *** Scores of the single checks *)

Lemma check_field_bounds (field_name : string) (v : option string)
    (refs : list (option string)) :
  0 <= score (_check_field_compliance field_name v refs)
  ∧ score (_check_field_compliance field_name v refs) <= 1.
Proof.
  unfold _check_field_compliance.
  destruct (opt_not v); [done|].
  case_bool_decide; [done|].
  destruct (vectorized_text_match_exists (str_of_opt v) (omap id refs)
              DEFAULT_MATCH_THRESHOLD)
    as (m & s & b & -> & H0 & H1 & _).
  done.
Qed.

Lemma field_checks_bounds (excel : excel_data) (data : field_values) :
  Forall (fun x => 0 <= x ∧ x <= 1) (map score (field_checks excel data)).
Proof.
  apply Forall_fmap. unfold field_checks. apply Forall_flat_map.
  apply Forall_forall. intros k _.
  destruct (available excel k); [|constructor].
  constructor; [|constructor]. apply check_field_bounds.
Qed.

Lemma averaged_bounds (fcs : list ComplianceResult) :
  Forall (fun x => 0 <= x ∧ x <= 1) (map score fcs) →
  0 <= (if bool_decide (fcs = []) then (0, false)
        else (fsum (map score fcs) / Qc_of_nat (length fcs),
              all_passed fcs)).1
  ∧ (if bool_decide (fcs = []) then (0, false)
     else (fsum (map score fcs) / Qc_of_nat (length fcs),
           all_passed fcs)).1 <= 1.
Proof.
  intros Hall. case_bool_decide as He; [done|]. simpl.
  rewrite <- (length_map score fcs).
  apply (mean_bounds (map score fcs)); [|done]. by destruct fcs.
Qed.

Lemma first_page_bounds (excel : excel_data) (doc : docx_data) :
  check_name (_check_first_page_compliance excel doc) = "first_page_validation"
  ∧ 0 <= score (_check_first_page_compliance excel doc)
  ∧ score (_check_first_page_compliance excel doc) <= 1.
Proof.
  unfold _check_first_page_compliance.
  pose proof (averaged_bounds _
                (field_checks_bounds excel (first_page_data doc))) as H.
  cbv zeta.
  destruct (if bool_decide (field_checks excel (first_page_data doc) = [])
            then _ else _) as [a p].
  done.
Qed.

Lemma first_slide_bounds (excel : excel_data) (s : first_slide) :
  check_name (_check_first_slide_compliance excel s) = "first_slide_validation"
  ∧ 0 <= score (_check_first_slide_compliance excel s)
  ∧ score (_check_first_slide_compliance excel s) <= 1.
Proof.
  unfold _check_first_slide_compliance.
  destruct (has_content s); [|done]. cbn [negb].
  pose proof (averaged_bounds _
                (field_checks_bounds excel (slide_fields s))) as H.
  cbv zeta.
  destruct (if bool_decide (field_checks excel (slide_fields s) = [])
            then _ else _) as [a p].
  done.
Qed.

Lemma table_of_contents_bounds (doc : docx_data) :
  check_name (_check_table_of_contents_compliance doc)
  = "table_of_contents_validation"
  ∧ 0 <= score (_check_table_of_contents_compliance doc)
  ∧ score (_check_table_of_contents_compliance doc) <= 1.
Proof.
  unfold _check_table_of_contents_compliance.
  destruct (get_flag _ "has_table_of_contents"),
    (get_flag _ "has_scope_section"); by vm_compute.
Qed.

Lemma footer_bounds (excel : excel_data) (doc : docx_document) :
  check_name (DocxChecks._check_footer_compliance excel doc)
  = "footer_validation"
  ∧ 0 <= score (DocxChecks._check_footer_compliance excel doc)
  ∧ score (DocxChecks._check_footer_compliance excel doc) <= 1.
Proof.
  unfold DocxChecks._check_footer_compliance.
  destruct (opt_not (project_name_in_footer (footer doc))); [done|].
  destruct (available excel "project_name"); [|done].
  destruct (vectorized_text_match_exists
              (str_of_opt (project_name_in_footer (footer doc)))
              (truthy_names (excel_get excel "project_name"))
              DEFAULT_MATCH_THRESHOLD)
    as (m & s & b & -> & H0 & H1 & _).
  done.
Qed.

Lemma docx_embedded_bounds (doc : docx_document) :
  check_name (DocxChecks._check_embedded_excel_compliance doc)
  = "embedded_excel_validation"
  ∧ 0 <= score (DocxChecks._check_embedded_excel_compliance doc)
  ∧ score (DocxChecks._check_embedded_excel_compliance doc) <= 1.
Proof.
  unfold DocxChecks._check_embedded_excel_compliance.
  destruct (has_embedded_excel (docx_embedded_excel doc)); [|done].
  cbn [negb]. cbv zeta.
  pose proof (found_worksheets_le
                (worksheet_names (docx_embedded_excel doc))) as Hk.
  destruct (embedded_score_verdict _
              (has_architecture_sheet (docx_embedded_excel doc)) Hk)
    as (_ & H0 & H1).
  apply Qc_leb_true in H0, H1.
  destruct (has_architecture_sheet (docx_embedded_excel doc));
    cbn [check_name score]; [done|].
  by rewrite Qcplus_0_r in H0, H1.
Qed.

Lemma pptx_embedded_bounds (doc : pptx_document) :
  check_name (PptxChecks._check_embedded_excel_compliance doc)
  = "embedded_excel_validation"
  ∧ 0 <= score (PptxChecks._check_embedded_excel_compliance doc)
  ∧ score (PptxChecks._check_embedded_excel_compliance doc) <= 1.
Proof.
  unfold PptxChecks._check_embedded_excel_compliance.
  destruct (has_embedded_excel (pptx_embedded_excel doc)); [|done].
  cbn [negb]. cbv zeta.
  pose proof (found_worksheets_le
                (worksheet_names (pptx_embedded_excel doc))) as Hk.
  destruct (embedded_score_verdict _
              (has_architecture_sheet (pptx_embedded_excel doc)) Hk)
    as (_ & H0 & H1).
  apply Qc_leb_true in H0, H1.
  rewrite bool_decide_eq_false_2 by done. cbn [negb].
  destruct (has_architecture_sheet (pptx_embedded_excel doc));
    cbn [check_name score]; [done|].
  by rewrite Qcplus_0_r in H0, H1.
Qed.

Lemma docx_milestones_bounds (excel : excel_data) (doc : docx_document) :
  check_name (DocxChecks._check_milestones_compliance excel doc)
  = "milestones_validation"
  ∧ 0 <= score (DocxChecks._check_milestones_compliance excel doc)
  ∧ score (DocxChecks._check_milestones_compliance excel doc) <= 1.
Proof.
  unfold DocxChecks._check_milestones_compliance.
  destruct (has_milestones_section (docx_milestones doc)); [|done].
  cbn [negb]. cbv zeta.
  case_bool_decide; destruct (available excel "end_date"); by vm_compute.
Qed.

Lemma pptx_milestones_bounds (excel : excel_data) (doc : pptx_document) :
  check_name (PptxChecks._check_milestones_compliance excel doc)
  = "milestones_validation"
  ∧ 0 <= score (PptxChecks._check_milestones_compliance excel doc)
  ∧ score (PptxChecks._check_milestones_compliance excel doc) <= 1.
Proof.
  unfold PptxChecks._check_milestones_compliance.
  destruct (has_milestones_section (pptx_milestones doc)); [|done].
  cbn [negb]. cbv zeta.
  do 2 case_bool_decide; destruct (available excel "end_date");
    by vm_compute.
Qed.

Lemma plt_status_bounds (doc : pptx_document) :
  check_name (PptxChecks._check_plt_status_compliance doc)
  = "plt_status_validation"
  ∧ 0 <= score (PptxChecks._check_plt_status_compliance doc)
  ∧ score (PptxChecks._check_plt_status_compliance doc) <= 1.
Proof.
  unfold PptxChecks._check_plt_status_compliance. cbv zeta.
  destruct (has_plt_status (pptx_plt_status doc)); cbn [negb]; [|done].
  destruct (opt_not (plt_status (pptx_plt_status doc))); cbn [negb];
    [by vm_compute|].
  match goal with
  | |- context [contains_any ?t PptxChecks.positive_indicators] =>
      destruct (contains_any t PptxChecks.positive_indicators);
        [|destruct (contains_any t PptxChecks.negative_indicators)]
  end; by vm_compute.
Qed.

Lemma slide_count_bounds (doc : pptx_document) :
  check_name (PptxChecks._check_slide_count_compliance doc)
  = "slide_count_validation"
  ∧ 0 <= score (PptxChecks._check_slide_count_compliance doc)
  ∧ score (PptxChecks._check_slide_count_compliance doc) <= 1.
Proof.
  unfold PptxChecks._check_slide_count_compliance.
  destruct (10 <=? slide_count doc)%nat; [by vm_compute|].
  destruct (5 <=? slide_count doc)%nat; [by vm_compute|].
  destruct (3 <=? slide_count doc)%nat; by vm_compute.
Qed.

End Runs.





(** ** The implementation date of the monolithic checker *)

Lemma first_equal_Some (x y : string) (l : list string) :
  V2C.first_equal x l = Some y → y = x ∧ x ∈ l.
Proof.
  induction l as [|d l IH]; simpl; [done|].
  destruct (String.eqb_spec x d) as [->|Hne].
  - intros [= ->]. split; [done|]. apply elem_of_cons. by left.
  - intros [-> Hin]%IH. split; [done|]. apply elem_of_cons. by right.
Qed.

Lemma first_equal_None (x : string) (l : list string) :
  V2C.first_equal x l = None ↔ x ∉ l.
Proof.
  induction l as [|d l IH]; simpl.
  - split; [|done]. intros _ H. by apply elem_of_nil in H.
  - destruct (String.eqb_spec x d) as [->|Hne].
    + split; [done|]. intros H. exfalso. apply H, elem_of_cons. by left.
    + rewrite IH, not_elem_of_cons. tauto.
Qed.

Lemma first_excel_value_cases (excel : V2.excel_data) (k : string) :
  (excel !! k = None ∧ V2.first_excel_value excel k = Ok None)
  ∨ (excel !! k = Some []
     ∧ ∃ e, V2.first_excel_value excel k = Raise e)
  ∨ (∃ v rest, excel !! k = Some (v :: rest)
               ∧ V2.first_excel_value excel k = Ok v).
Proof.
  unfold V2.first_excel_value, getitem.
  destruct (excel !! k) as [[|v rest]|]; simpl.
  - right. left. eauto.
  - right. right. eauto.
  - by left.
Qed.

(** X18.  Given a list of document dates, the implementation date check
    passes exactly when the first reference install date is present and
    not empty and its normalized form is one of the document dates as
    they stand; the score is 1 on a pass and 0 otherwise, and the check
    only takes its exception branch on an empty reference list. *)
Theorem X18_implementation_date_on_list
    (excel : V2.excel_data) (dates : list string) :
  let r := V2C._check_implementation_date_compliance excel (V2.VList dates) in
  (V2.passed r = true ↔
   ∃ d rest, excel !! "install_start_date" = Some (Some d :: rest)
             ∧ d ≠ "" ∧ V2.normalize_date d ∈ dates)
  ∧ V2.score r = (if V2.passed r then 1 else 0)
  ∧ (V2.failed r = true ↔ excel !! "install_start_date" = Some []).
Proof.
  unfold V2C._check_implementation_date_compliance.
  destruct (first_excel_value_cases excel "install_start_date")
    as [[He ->]|[[He [e ->]]|(v & rest & He & ->)]]; simpl.
  - rewrite He. split_and!; try done.
    split; [done|]. by intros (d & rest & ? & _).
  - rewrite He. split_and!; try done.
    split; [done|]. by intros (d & rest & ? & _).
  - rewrite He. destruct v as [d|]; simpl.
    2: { split_and!; try done. split; [done|].
         by intros (d & rest' & ? & _). }
    destruct (str_not d) eqn:Hd; simpl.
    { destruct d; [|done]. split_and!; try done. split; [done|].
      intros (d & rest' & [= <- <-] & Hne & _). done. }
    case_bool_decide as Hl; simpl.
    { subst dates. split_and!; try done. split; [done|].
      intros (d' & rest' & _ & _ & Hin). by apply elem_of_nil in Hin. }
    destruct (V2C.first_equal (V2.normalize_date d) dates) as [y|] eqn:Hf;
      simpl.
    + apply first_equal_Some in Hf as [-> Hin]. split_and!; try done.
      split; [|done]. intros _. exists d, rest. split_and!; try done.
      by destruct d.
    + apply first_equal_None in Hf. split_and!; try done.
      split; [done|]. intros (d' & rest' & [= <- <-] & _ & Hin). done.
Qed.

Lemma date_check_on_text
    (excel : V2.excel_data) (t d : string) (rest : list (option string)) :
  excel !! "install_start_date" = Some (Some d :: rest) →
  String.length (V2.normalize_date d) ≠ 1%nat →
  let r := V2C._check_implementation_date_compliance excel (V2.VStr t) in
  V2.passed r = false ∧ V2.score r = 0 ∧ V2.failed r = false.
Proof.
  intros He Hlen. unfold V2C._check_implementation_date_compliance.
  unfold V2.first_excel_value, getitem. rewrite He. simpl.
  destruct (str_not d); [done|]. simpl.
  destruct (str_not t); [done|]. simpl.
  destruct (V2C.first_equal _ _) as [y|] eqn:Hf; [|done].
  exfalso. apply first_equal_Some in Hf as [-> Hin].
  apply list_elem_of_fmap in Hin as (c & Hc & _).
  rewrite Hc in Hlen. done.
Qed.

(** X19.  On the value the analyzer stores under [implementation_dates],
    a text and not a list, the check compares the reference date with
    single characters: it fails whenever the normalized reference date is
    not one character long, also when the document states that very
    date. *)
Theorem X19_analyzer_dates_never_match
    (excel : V2.excel_data) (doc : V2.document) (d : string)
    (rest : list (option string)) :
  excel !! "install_start_date" = Some (Some d :: rest) →
  String.length (V2.normalize_date d) ≠ 1%nat →
  let r := V2C._check_implementation_date_compliance excel
             (V2.implementation_dates doc) in
  V2.passed r = false ∧ V2.score r = 0 ∧ V2.failed r = false.
Proof.
  intros He Hlen. unfold V2.implementation_dates,
    V2._extract_implementation_dates_enhanced. cbv zeta.
  by apply date_check_on_text with (d := d) (rest := rest).
Qed.

Lemma X19_witness :
  V2.passed
    (V2C._check_implementation_date_compliance
       {[ "install_start_date" := [Some "08/11/2025"] ]}
       (V2.implementation_dates labelled_document))
  = false.
Proof.
  refine (proj1 (X19_analyzer_dates_never_match
                   {[ "install_start_date" := [Some "08/11/2025"] ]}
                   labelled_document "08/11/2025" [] _ _)).
  - reflexivity.
  - vm_compute. lia.
Defined.

(** ** The hyphenated ids of the first slide *)

Lemma id_check_spec (format : re) (e p : option string) :
  (V2C.id_check format e p).1 = V2.fmatch (V2C.id_check format e p).2
  ∧ ((V2C.id_check format e p).1 = true ↔
     ∃ ev pv, e = Some ev ∧ p = Some pv ∧ ev ≠ "" ∧ pv ≠ ""
              ∧ V2.matches V2.re_I format pv = true
              ∧ upper ev = upper pv).
Proof.
  assert (Hnot : ∀ t, str_not t = false ↔ t ≠ "") by (by intros []).
  unfold V2C.id_check.
  destruct (opt_not e) eqn:He; cbn [negb andb].
  { split; [done|]. split; [done|].
    intros (ev & pv & -> & _ & Hne & _). apply Hnot in Hne.
    simpl in He. congruence. }
  destruct (opt_not p) eqn:Hp; cbn [negb andb].
  { split; [done|]. split; [done|].
    intros (ev & pv & _ & -> & _ & Hne & _). apply Hnot in Hne.
    simpl in Hp. congruence. }
  destruct e as [ev|]; [|done]. destruct p as [pv|]; [|done].
  simpl in He, Hp. apply Hnot in He, Hp. cbn [default from_option id].
  change (default "" (Some ev)) with ev.
  change (default "" (Some pv)) with pv.
  destruct (V2.matches V2.re_I format pv) eqn:Hm; cbn [andb].
  - destruct (String.eqb_spec (upper ev) (upper pv)) as [Hu|Hu];
      cbn [fst snd V2.fmatch].
    + split; [done|]. split; [|done]. intros _.
      exists ev, pv. split_and!; done.
    + split; [done|]. split; [done|].
      intros (? & ? & [= <-] & [= <-] & _ & _ & _ & ?). done.
  - cbn [fst snd V2.fmatch]. split; [done|]. split; [done|].
    intros (? & ? & [= <-] & [= <-] & _ & _ & ? & _). congruence.
Qed.

Lemma hyphenated_score (m1 m2 : bool) :
  let matches :=
    (if m2 then S (if m1 then 1 else 0) else if m1 then 1 else 0)%nat in
  let score := Qc_of_nat matches / Qc_of_nat 2 in
  (Qc_leb (Q2Qc (5 # 10)) score = true ↔ m1 = true ∨ m2 = true)
  ∧ (score = 0 ↔ m1 = false ∧ m2 = false)
  ∧ (score = 1 ↔ m1 = true ∧ m2 = true)
  ∧ (score = 0 ∨ score = Q2Qc (1 # 2) ∨ score = 1).
Proof.
  assert (H2 : Qc_of_nat 2 / Qc_of_nat 2 = 1)
    by (apply Qc_is_canon; reflexivity).
  assert (H1 : Qc_of_nat 1 / Qc_of_nat 2 = Q2Qc (1 # 2))
    by (apply Qc_is_canon; reflexivity).
  assert (H0 : Qc_of_nat 0 / Qc_of_nat 2 = 0)
    by (apply Qc_is_canon; reflexivity).
  assert (N10 : (1 : Qc) ≠ 0) by (by vm_compute).
  assert (N12 : Q2Qc (1 # 2) ≠ 0) by (by vm_compute).
  assert (N11 : Q2Qc (1 # 2) ≠ 1) by (by vm_compute).
  assert (L1 : Qc_leb (Q2Qc (5 # 10)) 1 = true) by (by vm_compute).
  assert (L2 : Qc_leb (Q2Qc (5 # 10)) (Q2Qc (1 # 2)) = true)
    by (by vm_compute).
  assert (L0 : Qc_leb (Q2Qc (5 # 10)) 0 = false) by (by vm_compute).
  destruct m1, m2; cbv zeta; rewrite ?H2, ?H1, ?H0, ?L1, ?L2, ?L0;
    split_and!; try (split; intros; intuition congruence); tauto.
Qed.

(** X20.  The hyphenated ids check scores 0, 1/2 or 1 and passes exactly
    when one of its two ids matches.  An id matches only when the
    reference value and the slide value are both present, the slide value
    has the format of the id and the two are equal up to case: here,
    unlike in the first page check, the format is necessary.  The
    reference release id is read under the key [release_id] and the slide
    value under [hyphenated__release_id]. *)
Theorem X20_hyphenated_ids
    (excel : V2.excel_data) (first_slide_data : V2C.slide_data) :
  let r := V2C._check_hyphenated_ids_compliance excel first_slide_data in
  let slide k := default None (V2C.slide_values first_slide_data !! k) in
  let agree format (e p : option string) :=
    ∃ ev pv, e = Some ev ∧ p = Some pv ∧ ev ≠ "" ∧ pv ≠ ""
             ∧ V2.matches V2.re_I format pv = true ∧ upper ev = upper pv in
  (V2.score r = 0 ∨ V2.score r = Q2Qc (1 # 2) ∨ V2.score r = 1)
  ∧ (V2.passed r = true ↔ V2.score r ≠ 0)
  ∧ (V2.passed r = true ↔
     V2C.hyphenated_ids_found first_slide_data = true
     ∧ ∃ e c, V2.first_excel_value excel "release_id" = Ok e
              ∧ V2.first_excel_value excel "clarity_project_id" = Ok c
              ∧ (agree V2.release_format e (slide "hyphenated__release_id")
                 ∨ agree V2.clarity_project_id_format c
                     (slide "hyphenated_clarity_project_id")))
  ∧ (V2.score r = 1 ↔
     V2C.hyphenated_ids_found first_slide_data = true
     ∧ ∃ e c, V2.first_excel_value excel "release_id" = Ok e
              ∧ V2.first_excel_value excel "clarity_project_id" = Ok c
              ∧ agree V2.release_format e (slide "hyphenated__release_id")
              ∧ agree V2.clarity_project_id_format c
                  (slide "hyphenated_clarity_project_id")).
Proof.
  cbv zeta. unfold V2C._check_hyphenated_ids_compliance.
  assert (H01 : (0 : Qc) ≠ 1) by (by vm_compute).
  destruct (V2C.hyphenated_ids_found first_slide_data); cbn [negb].
  2: { simpl. split_and!; try done; try tauto.
       - split; [done|]. by intros [? _].
       - split; [done|]. by intros [? _]. }
  destruct (V2.first_excel_value excel "release_id") as [e|x]; simpl.
  2: { split_and!; try tauto; try done.
       - split; [done|]. by intros (_ & ? & ? & ? & _).
       - split; [done|]. by intros (_ & ? & ? & ? & _). }
  destruct (V2.first_excel_value excel "clarity_project_id") as [c|x]; simpl.
  2: { split_and!; try tauto; try done.
       - split; [done|]. by intros (_ & ? & ? & _ & ? & _).
       - split; [done|]. by intros (_ & ? & ? & _ & ? & _). }
  destruct (id_check_spec V2.release_format e
              (default None (V2C.slide_values first_slide_data
                               !! "hyphenated__release_id")))
    as [_ H1].
  destruct (id_check_spec V2.clarity_project_id_format c
              (default None (V2C.slide_values first_slide_data
                               !! "hyphenated_clarity_project_id")))
    as [_ H2].
  destruct (V2C.id_check V2.release_format e _) as [m1 f1].
  destruct (V2C.id_check V2.clarity_project_id_format c _) as [m2 f2].
  cbn [fst] in H1, H2. cbn [V2.passed V2.score].
  destruct (hyphenated_score m1 m2) as (Hp & H0 & Hone & Hcases).
  cbv zeta in Hp, H0, Hone, Hcases.
  split_and!.
  - exact Hcases.
  - rewrite Hp, H0. destruct m1, m2; intuition congruence.
  - rewrite Hp. split.
    + intros Hm. split; [done|]. exists e, c. split_and!; try done.
      destruct Hm as [Hm|Hm]; [left; by apply H1|right; by apply H2].
    + intros (_ & e' & c' & [= <-] & [= <-] & [Ha|Ha]);
        [left; by apply H1|right; by apply H2].
  - rewrite Hone. split.
    + intros [Hm1 Hm2]. split; [done|]. exists e, c.
      split_and!; try done; [by apply H1|by apply H2].
    + intros (_ & e' & c' & [= <-] & [= <-] & Ha & Hb).
      split; [by apply H1|by apply H2].
Qed.

Lemma reference_of_release_id (project_data : gmap string string) :
  V2C.reference_of project_data !! "release_id" = None.
Proof.
  unfold V2C.reference_of.
  repeat (rewrite lookup_insert_ne by done).
  by rewrite lookup_singleton_ne.
Qed.

Lemma reference_of_clarity (project_data : gmap string string) :
  V2.first_excel_value (V2C.reference_of project_data) "clarity_project_id"
  = Ok (project_data !! "Clarity Project ID").
Proof.
  unfold V2.first_excel_value, V2C.reference_of.
  repeat (rewrite lookup_insert_ne by done).
  by rewrite lookup_insert_eq.
Qed.

Lemma analyzed_slide_keys
    (metadata : string → string → option string)
    (slide_text : option string) (k : string) :
  k ∉ ["project_name"; "application_name"; "release";
       "hyphenated_enterprise_release_id"; "hyphenated_clarity_project_id"] →
  V2C.slide_values (V2C._analyze_first_slide metadata slide_text) !! k = None.
Proof.
  intros Hk.
  repeat (apply not_elem_of_cons in Hk as [? Hk]).
  unfold V2C._analyze_first_slide.
  destruct slide_text as [slide_text|]; cbn [V2C.slide_values].
  { cbn [foldl].
    destruct (metadata "project_name" slide_text),
      (metadata "application_name" slide_text),
      (metadata "release" slide_text),
      (search V2.re_I V2C.HYPHENATED_IDS slide_text);
      cbn [V2C.slide_values V2C.hyphenated_ids_found];
      repeat (rewrite lookup_insert_ne by done);
      by rewrite lookup_singleton_ne. }
  repeat (rewrite lookup_insert_ne by done).
  by rewrite lookup_singleton_ne.
Qed.

(** X21.  On the first-slide data the analyzer produces and the reference
    data the application hands over, the Enterprise Release ID never
    counts: the analyzer writes no key [hyphenated__release_id] and the
    reference data has no key [release_id].  The check then scores 0 or
    1/2, never 1, and passes exactly when the Clarity Project ID alone
    matches. *)
Theorem X21_enterprise_release_id_never_counts
    (metadata : string → string → option string)
    (slide_text : option string) (project_data : gmap string string) :
  let data := V2C._analyze_first_slide metadata slide_text in
  let r := V2C._check_hyphenated_ids_compliance
             (V2C.reference_of project_data) data in
  V2.failed r = false
  ∧ (V2.score r = 0 ∨ V2.score r = Q2Qc (1 # 2))
  ∧ V2.score r ≠ 1
  ∧ (V2.passed r = true ↔ V2.score r = Q2Qc (1 # 2))
  ∧ (V2.passed r = true ↔
     V2C.hyphenated_ids_found data = true
     ∧ (V2C.id_check V2.clarity_project_id_format
          (project_data !! "Clarity Project ID")
          (default None
             (V2C.slide_values data !! "hyphenated_clarity_project_id"))).1
       = true)
  ∧ (∀ f, ("Enterprise Release ID", V2.SubField f) ∈ V2.sub_results r →
       V2.fmatch f = false ∧ V2.status f = "missing_excel").
Proof.
  cbv zeta. unfold V2C._check_hyphenated_ids_compliance.
  assert (H12 : Q2Qc (1 # 2) ≠ 0) by (by vm_compute).
  assert (H11 : Q2Qc (1 # 2) ≠ 1) by (by vm_compute).
  assert (H01 : (0 : Qc) ≠ 1) by (by vm_compute).
  destruct (V2C.hyphenated_ids_found _); cbn [negb].
  2: { simpl. split_and!.
       - done.
       - by left.
       - done.
       - done.
       - split; [done|]. by intros [? _].
       - intros f Hf. by apply elem_of_nil in Hf. }
  rewrite reference_of_clarity.
  unfold V2.first_excel_value at 1. rewrite reference_of_release_id.
  cbn [default from_option getitem lookup list_lookup]. simpl.
  rewrite (analyzed_slide_keys _ _ "hyphenated__release_id").
  2: { repeat (apply not_elem_of_cons; split; [done|]).
       apply not_elem_of_nil. }
  cbn [default from_option V2C.id_check opt_not negb andb].
  destruct (V2C.id_check V2.clarity_project_id_format _ _) as [m2 f2].
  cbn [V2.failed V2.score V2.passed V2.sub_results fst].
  destruct m2.
  - assert (Hs : Qc_of_nat 1 / Qc_of_nat 2 = Q2Qc (1 # 2))
      by (apply Qc_is_canon; reflexivity).
    rewrite Hs. split_and!.
    + done.
    + by right.
    + done.
    + split; [intros _; done | intros _; by vm_compute].
    + split; [done | intros _; by vm_compute].
    + intros f Hf. apply elem_of_cons in Hf as [[= ->]|Hf]; [done|].
      apply elem_of_cons in Hf as [[=]|Hf]. by apply elem_of_nil in Hf.
  - assert (Hs : Qc_of_nat 0 / Qc_of_nat 2 = 0)
      by (apply Qc_is_canon; reflexivity).
    rewrite Hs. split_and!.
    + done.
    + by left.
    + done.
    + split; [by vm_compute | done].
    + split; [by vm_compute | by intros [_ ?]].
    + intros f Hf. apply elem_of_cons in Hf as [[= ->]|Hf]; [done|].
      apply elem_of_cons in Hf as [[=]|Hf]. by apply elem_of_nil in Hf.
Qed.

(** ** Sheet names of an embedded workbook *)

Lemma strip_special_app (x y : string) :
  V2C.strip_special (x ++ y) = V2C.strip_special x ++ V2C.strip_special y.
Proof.
  induction x as [|c x IH]; [done|].
  change (String c x ++ y) with (String c (x ++ y)). simpl.
  destruct (isword c || isspace c); [|exact IH].
  change (String c (V2C.strip_special x) ++ V2C.strip_special y)
    with (String c (V2C.strip_special x ++ V2C.strip_special y)).
  by rewrite IH.
Qed.

Lemma contains_strip_special (b a : string) :
  contains b a = true →
  contains (V2C.strip_special b) (V2C.strip_special a) = true.
Proof.
  rewrite !contains_iff. intros (x & y & ->).
  exists (V2C.strip_special x), (V2C.strip_special y).
  by rewrite !strip_special_app.
Qed.

Lemma contains_empty (b : string) : contains b "" = true.
Proof. apply contains_iff. by exists "", b. Qed.

Lemma sheet_name_match_iff (sheet_names : list string) (required : string) :
  V2C._check_sheet_name_match sheet_names required = true
  ↔ ∃ n, n ∈ sheet_names
         ∧ (contains (V2C.strip_special (lower n))
              (V2C.strip_special (lower required)) = true
            ∨ contains (V2C.strip_special (lower required))
                (V2C.strip_special (lower n)) = true).
Proof.
  unfold V2C._check_sheet_name_match.
  case_bool_decide as He.
  { subst. split; [done|]. intros (n & Hn & _). by apply elem_of_nil in Hn. }
  destruct (existsb _ sheet_names) eqn:Hx.
  - split; [|done]. intros _.
    apply existsb_exists in Hx as (n & Hin & Heq).
    apply String.eqb_eq in Heq. exists n. split.
    + by apply list_elem_of_In.
    + left. rewrite Heq. apply contains_refl.
  - cbv zeta. rewrite existsb_exists. split.
    + intros (n & Hin & Hor). exists n. split; [by apply list_elem_of_In|].
      by apply orb_true_iff.
    + intros (n & Hin & Hor). exists n. split; [by apply list_elem_of_In|].
      by apply orb_true_iff.
Qed.

(** X22.  A required sheet counts as present exactly when some sheet
    name, lowercased and freed of punctuation, contains the required name
    so treated or is contained in it; the exact comparison made first
    adds nothing.  So the matcher finds every sheet that the modular
    checker finds, a sheet name made of punctuation only stands for every
    required sheet, and a workbook whose only sheet is called [A] has all
    six required sheets. *)
Theorem X22_sheet_name_match (sheet_names : list string) (required : string) :
  (V2C._check_sheet_name_match sheet_names required = true
   ↔ ∃ n, n ∈ sheet_names
          ∧ (contains (V2C.strip_special (lower n))
               (V2C.strip_special (lower required)) = true
             ∨ contains (V2C.strip_special (lower required))
                 (V2C.strip_special (lower n)) = true))
  ∧ (worksheet_found sheet_names required = true →
     V2C._check_sheet_name_match sheet_names required = true)
  ∧ (∀ n, n ∈ sheet_names → V2C.strip_special (lower n) = "" →
       V2C._check_sheet_name_match sheet_names required = true)
  ∧ (required ∈ V2C.required_sheets →
     V2C._check_sheet_name_match ["A"] required = true).
Proof.
  split_and!.
  - apply sheet_name_match_iff.
  - unfold worksheet_found. intros (n & Hin & Hc)%existsb_exists.
    apply sheet_name_match_iff. exists n.
    split; [by apply list_elem_of_In|]. left.
    by apply contains_strip_special.
  - intros n Hin Hn. apply sheet_name_match_iff. exists n.
    split; [done|]. right. rewrite Hn. apply contains_empty.
  - intros Hr. unfold V2C.required_sheets in Hr.
    repeat (apply elem_of_cons in Hr as [->|Hr]; [by vm_compute|]).
    by apply elem_of_nil in Hr.
Qed.

(** ** The embedded workbooks of the monolithic checker *)

Lemma count_flags (f : string → bool) (l : list string) :
  length (filter (fun kv : string * bool => kv.2 = true)
            (map (fun r => (r, f r)) l))
  = length (filter (fun r => f r = true) l).
Proof.
  induction l as [|r l IH]; [done|]. cbn [map].
  rewrite !filter_cons. cbn [snd].
  destruct (f r); repeat case_decide; try done. cbn [length].
  by rewrite IH.
Qed.

Lemma add_part_found (infos : list V2C.excel_info) (part : V2C.target_part) :
  map V2C.found_in_file (V2C.add_part infos part)
  = (map V2C.found_in_file infos
     ++ (if V2C.is_workbook (V2C.part_content_type part)
         then [match V2C.blob_sheet_names part with
               | Some names =>
                   length (filter (fun r =>
                                     V2C._check_sheet_name_match names r = true)
                             V2C.required_sheets)
               | None => 0%nat
               end]
         else []))%list.
Proof.
  unfold V2C.add_part.
  destruct (V2C.is_workbook _); [|by rewrite app_nil_r].
  rewrite map_app. f_equal.
  destruct (V2C.blob_sheet_names part); [|done].
  unfold V2C.found_in_file. cbn [map V2C.required_sheets_found].
  by rewrite count_flags.
Qed.

Lemma extract_found (parts : list V2C.target_part)
    (infos : list V2C.excel_info) :
  map V2C.found_in_file (foldl V2C.add_part infos parts)
  = (map V2C.found_in_file infos
     ++ flat_map (fun part =>
                    if V2C.is_workbook (V2C.part_content_type part)
                    then [match V2C.blob_sheet_names part with
                          | Some names =>
                              length (filter
                                        (fun r =>
                                           V2C._check_sheet_name_match names r
                                           = true)
                                        V2C.required_sheets)
                          | None => 0%nat
                          end]
                    else []) parts)%list.
Proof.
  revert infos. induction parts as [|p parts IH]; intros infos; simpl.
  - by rewrite app_nil_r.
  - rewrite IH, add_part_found. by rewrite <- app_assoc.
Qed.

(** The loop over the relationships reads the target parts up to the
    first external relationship, and all of them when there is none. *)
Lemma for_rels_prefix (parts : list V2C.target_part)
    (rest : list V2C.relationship) (infos : list V2C.excel_info) :
  rest = [] ∨ (∃ rest', rest = V2C.External :: rest') →
  V2C.for_rels (map V2C.Internal parts ++ rest) infos
  = foldl V2C.add_part infos parts.
Proof.
  intros Hrest. revert infos.
  induction parts as [|p parts IH]; intros infos.
  - destruct Hrest as [->|[rest' ->]]; reflexivity.
  - cbn [map app V2C.for_rels V2C.target_part_of foldl]. apply IH.
Qed.

Lemma rels_split (rels : list V2C.relationship) :
  ∃ parts rest,
    rels = (map V2C.Internal parts ++ rest)%list
    ∧ (rest = [] ∨ ∃ rest', rest = V2C.External :: rest').
Proof.
  induction rels as [|rel rels (parts & rest & -> & Hrest)].
  - exists [], []. split; [done|by left].
  - destruct rel as [|p].
    + exists [], (V2C.External :: map V2C.Internal parts ++ rest)%list.
      split; [done|]. right. by eexists.
    + exists (p :: parts), rest. done.
Qed.

Lemma count_file_max (infos : list V2C.excel_info) (n : nat)
    (m : gmap string (list (string * bool))) :
  (foldl V2C.count_file (n, m) infos).1
  = Nat.max n (max_list (map V2C.found_in_file infos)).
Proof.
  revert n m. induction infos as [|i infos IH]; intros n m; simpl.
  - lia.
  - rewrite IH. lia.
Qed.

Lemma max_list_ge (k : nat) (l : list nat) :
  (0 < k)%nat → (k <= max_list l)%nat ↔ ∃ x, x ∈ l ∧ (k <= x)%nat.
Proof.
  intros Hk. induction l as [|y l IH]; simpl.
  - split; [lia|]. intros (x & Hx & _). by apply elem_of_nil in Hx.
  - split.
    + intros H. destruct (decide (k <= y)%nat) as [Hy|Hy].
      * exists y. split; [|done]. apply elem_of_cons. by left.
      * destruct (proj1 IH) as (x & Hx & Hkx); [lia|].
        exists x. split; [|done]. apply elem_of_cons. by right.
    + intros (x & Hx & Hkx). apply elem_of_cons in Hx as [->|Hx]; [lia|].
      assert (k <= max_list l)%nat by (apply IH; eauto). lia.
Qed.

Lemma sheets_score_verdict (k : nat) :
  (k <= 6)%nat →
  (Qc_leb (Q2Qc (6 # 10)) (Qc_of_nat k / Qc_of_nat 6) = true ↔ (4 <= k)%nat)
  ∧ 0 <= Qc_of_nat k / Qc_of_nat 6 ∧ Qc_of_nat k / Qc_of_nat 6 <= 1.
Proof.
  intros Hk.
  assert (Hc : (k = 0 ∨ k = 1 ∨ k = 2 ∨ k = 3 ∨ k = 4 ∨ k = 5 ∨ k = 6)%nat)
    by lia.
  destruct Hc as [->|[->|[->|[->|[->|[->| ->]]]]]];
    (split_and!; [|by vm_compute|by vm_compute]).
  - assert (E : Qc_leb (Q2Qc (6 # 10)) (Qc_of_nat 0 / Qc_of_nat 6) = false)
      by (by vm_compute).
    rewrite E. split; [done|lia].
  - assert (E : Qc_leb (Q2Qc (6 # 10)) (Qc_of_nat 1 / Qc_of_nat 6) = false)
      by (by vm_compute).
    rewrite E. split; [done|lia].
  - assert (E : Qc_leb (Q2Qc (6 # 10)) (Qc_of_nat 2 / Qc_of_nat 6) = false)
      by (by vm_compute).
    rewrite E. split; [done|lia].
  - assert (E : Qc_leb (Q2Qc (6 # 10)) (Qc_of_nat 3 / Qc_of_nat 6) = false)
      by (by vm_compute).
    rewrite E. split; [done|lia].
  - assert (E : Qc_leb (Q2Qc (6 # 10)) (Qc_of_nat 4 / Qc_of_nat 6) = true)
      by (by vm_compute).
    rewrite E. split; [lia|done].
  - assert (E : Qc_leb (Q2Qc (6 # 10)) (Qc_of_nat 5 / Qc_of_nat 6) = true)
      by (by vm_compute).
    rewrite E. split; [lia|done].
  - assert (E : Qc_leb (Q2Qc (6 # 10)) (Qc_of_nat 6 / Qc_of_nat 6) = true)
      by (by vm_compute).
    rewrite E. split; [lia|done].
Qed.

(** The sheets found in the workbook of one part. *)
Lemma workbooks_found (parts : list V2C.target_part) (x : nat) :
  x ∈ flat_map (fun part =>
                  if V2C.is_workbook (V2C.part_content_type part)
                  then [match V2C.blob_sheet_names part with
                        | Some names =>
                            length (filter
                                      (fun r =>
                                         V2C._check_sheet_name_match names r
                                         = true)
                                      V2C.required_sheets)
                        | None => 0%nat
                        end]
                  else []) parts
  ↔ ∃ part, part ∈ parts
      ∧ V2C.is_workbook (V2C.part_content_type part) = true
      ∧ x = match V2C.blob_sheet_names part with
            | Some names =>
                length (filter
                          (fun r => V2C._check_sheet_name_match names r = true)
                          V2C.required_sheets)
            | None => 0%nat
            end.
Proof.
  rewrite list_elem_of_In, in_flat_map. split.
  - intros (p & Hp & Hx). exists p.
    destruct (V2C.is_workbook _); [|done].
    destruct Hx as [<-|[]]. split_and!; [by apply list_elem_of_In|done|done].
  - intros (p & Hp & Hw & ->). exists p.
    split; [by apply list_elem_of_In|]. rewrite Hw. by left.
Qed.

(** The check on what the reader returns: the best workbook over six,
    among the workbooks that the reader reaches. *)
Lemma workbooks_score (rels : list V2C.relationship)
    (parts : list V2C.target_part) (rest : list V2C.relationship) :
  rels = (map V2C.Internal parts ++ rest)%list →
  rest = [] ∨ (∃ rest', rest = V2C.External :: rest') →
  let r := V2C._check_embedded_excel_compliance
             (V2C._check_embedded_excel_with_sheets rels) in
  let best :=
    max_list
      (flat_map (fun part =>
                   if V2C.is_workbook (V2C.part_content_type part)
                   then [match V2C.blob_sheet_names part with
                         | Some names =>
                             length (filter
                                       (fun r =>
                                          V2C._check_sheet_name_match names r
                                          = true)
                                       V2C.required_sheets)
                         | None => 0%nat
                         end]
                   else []) parts) in
  (best <= 6)%nat
  ∧ V2C.sheets_score r = Qc_of_nat best / Qc_of_nat 6
  ∧ V2C.sheets_passed r = Qc_leb (Q2Qc (6 # 10)) (V2C.sheets_score r).
Proof.
  intros -> Hrest. cbv zeta.
  unfold V2C._check_embedded_excel_compliance,
    V2C._check_embedded_excel_with_sheets,
    V2C.extract_sheet_names_from_embedded_excel.
  rewrite (for_rels_prefix parts rest [] Hrest).
  cbn [V2C.has_embedded_excel V2C.excel_count V2C.excel_files_info].
  pose proof (extract_found parts []) as Hfound.
  cbn [map app] in Hfound.
  pose proof (workbooks_found parts) as Hin.
  set (infos := foldl V2C.add_part [] parts) in *.
  set (found := flat_map _ parts) in *.
  assert (Hle : ∀ x, x ∈ found → (x <= 6)%nat).
  { intros x (p & _ & _ & ->)%Hin.
    destruct (V2C.blob_sheet_names p); [|lia].
    etrans; [apply length_filter|]. done. }
  assert (Hmax : (max_list found <= 6)%nat).
  { destruct (decide (found = [])) as [->|Hne]; [simpl; lia|].
    apply Hle. by apply max_list_elem_of. }
  split; [exact Hmax|].
  destruct (decide (infos = [])) as [He|He].
  { rewrite He in *. cbn [length Nat.ltb Nat.leb negb orb].
    cbn [V2C.sheets_passed V2C.sheets_score].
    assert (Hf : found = []) by (by destruct found).
    rewrite Hf. split; [|done]. apply Qc_is_canon. reflexivity. }
  assert (Hlen : (0 <? length infos)%nat = true).
  { apply Nat.ltb_lt. destruct infos; [done|simpl; lia]. }
  assert (Hlen' : (length infos =? 0)%nat = false).
  { apply Nat.eqb_neq. destruct infos; [done|simpl; lia]. }
  rewrite Hlen, Hlen'. cbn [negb orb].
  pose proof (count_file_max infos 0 ∅) as Hcm.
  destruct (foldl V2C.count_file (0%nat, ∅) infos) as [k subs].
  cbn [fst] in Hcm. rewrite Hfound in Hcm. simpl in Hcm. subst k.
  done.
Qed.

(** X23.  The reader of the embedded workbooks goes through the
    relationships of the document and stops at the first external one (a
    hyperlink): the target parts before it are the parts it reads, all of
    them when no relationship is external.  The embedded workbook check
    scores the best single workbook among the parts read: the largest
    number of required sheets matched by the sheet names of one workbook,
    over six.  It passes exactly when one workbook alone has four of the
    six; sheets spread over several workbooks do not add up, and a
    workbook part without a blob counts as a workbook with no sheet.  A
    workbook behind an external relationship is not read: when the first
    relationship is external the score is 0 and the check fails. *)
Theorem X23_best_single_workbook (rels : list V2C.relationship)
    (parts : list V2C.target_part) (rest : list V2C.relationship) :
  rels = (map V2C.Internal parts ++ rest)%list →
  rest = [] ∨ (∃ rest', rest = V2C.External :: rest') →
  let r := V2C._check_embedded_excel_compliance
             (V2C._check_embedded_excel_with_sheets rels) in
  let matched names :=
    length (filter (fun required =>
                      V2C._check_sheet_name_match names required = true)
              V2C.required_sheets) in
  (V2C.sheets_passed r = true ↔
   ∃ part names, part ∈ parts
     ∧ V2C.is_workbook (V2C.part_content_type part) = true
     ∧ V2C.blob_sheet_names part = Some names
     ∧ (4 <= matched names)%nat)
  ∧ 0 <= V2C.sheets_score r ∧ V2C.sheets_score r <= 1
  ∧ (∀ part names, part ∈ parts
       → V2C.is_workbook (V2C.part_content_type part) = true
       → V2C.blob_sheet_names part = Some names
       → Qc_of_nat (matched names) / Qc_of_nat 6 <= V2C.sheets_score r)
  ∧ V2C.excel_files_info (V2C._check_embedded_excel_with_sheets rels)
    = foldl V2C.add_part [] parts
  ∧ (parts = [] → V2C.sheets_score r = 0 ∧ V2C.sheets_passed r = false).
Proof.
  intros Hrels Hrest. cbv zeta.
  destruct (workbooks_score rels parts rest Hrels Hrest) as (Hmax & Hs & Hp).
  cbv zeta in Hmax, Hs, Hp. rewrite Hp, Hs. clear Hp Hs.
  pose proof (workbooks_found parts) as Hin.
  set (found := flat_map _ parts) in *.
  destruct (sheets_score_verdict (max_list found) Hmax) as (Hv & H0 & H1).
  split_and!; try done.
  - rewrite Hv, (max_list_ge 4 found) by lia. split.
    + intros (x & (p & Hp & Hw & ->)%Hin & Hx).
      destruct (V2C.blob_sheet_names p) as [names|] eqn:Hb; [|lia].
      by exists p, names.
    + intros (p & names & Hp & Hw & Hb & Hx). eexists. split; [|exact Hx].
      apply Hin. exists p. by rewrite Hb.
  - intros p names Hp Hw Hb.
    assert (Hx : (length (filter
                            (fun r => V2C._check_sheet_name_match names r
                                      = true) V2C.required_sheets)
                  <= max_list found)%nat).
    { apply max_list_elem_of_le, Hin. exists p. by rewrite Hb. }
    unfold Qcdiv. apply Qcmult_le_compat_r.
    + by apply Qc_of_nat_le.
    + by vm_compute.
  - subst rels. unfold V2C._check_embedded_excel_with_sheets,
      V2C.extract_sheet_names_from_embedded_excel.
    cbn [V2C.excel_files_info]. by apply for_rels_prefix.
  - intros Hnil. unfold found. rewrite Hnil. split.
    + apply Qc_is_canon. reflexivity.
    + reflexivity.
Qed.

(** A hyperlink between two workbooks: the first workbook, with three of
    the six sheets, is read; the second, with all six, is not. *)
Lemma X23_witness :
  V2C.sheets_passed
    (V2C._check_embedded_excel_compliance
       (V2C._check_embedded_excel_with_sheets
          [V2C.Internal
             (V2C.mkPart "application/vnd.ms-excel"
                (Some ["Cover Page"; "General Details"; "Architecture"]));
           V2C.External;
           V2C.Internal
             (V2C.mkPart "application/vnd.ms-excel"
                (Some ["Cover Page"; "General Details";
                       "Business Scenario(s)"; "Data Requirement";
                       "Architecture"; "Logs&Contacts"]))]))
  = false
  ∧ V2C.sheets_score
      (V2C._check_embedded_excel_compliance
         (V2C._check_embedded_excel_with_sheets
            [V2C.Internal
               (V2C.mkPart "application/vnd.ms-excel"
                  (Some ["Cover Page"; "General Details"; "Architecture"]));
             V2C.External;
             V2C.Internal
               (V2C.mkPart "application/vnd.ms-excel"
                  (Some ["Cover Page"; "General Details";
                         "Business Scenario(s)"; "Data Requirement";
                         "Architecture"; "Logs&Contacts"]))]))
    <= 1.
Proof.
  split; [reflexivity|].
  refine (proj1 (proj2 (proj2
            (X23_best_single_workbook _
               [V2C.mkPart "application/vnd.ms-excel"
                  (Some ["Cover Page"; "General Details"; "Architecture"])]
               (V2C.External
                :: [V2C.Internal
                      (V2C.mkPart "application/vnd.ms-excel"
                         (Some ["Cover Page"; "General Details";
                                "Business Scenario(s)"; "Data Requirement";
                                "Architecture"; "Logs&Contacts"]))])
               _ _)))).
  - reflexivity.
  - right. eexists. reflexivity.
Defined.

(** ** Column names *)

Lemma column_mapping_iff (column_name mapping_key : string) :
  CM.get_column_mapping_cache column_name mapping_key = true
  ↔ ∃ names name, CM.EXCEL_COLUMN_MAPPINGS !! mapping_key = Some names
                  ∧ name ∈ names
                  ∧ contains (lower column_name) (lower name) = true.
Proof.
  unfold CM.get_column_mapping_cache. cbv zeta.
  destruct (CM.EXCEL_COLUMN_MAPPINGS !! mapping_key) as [names|]; simpl.
  - rewrite existsb_exists. split.
    + intros (name & Hin & Hc). exists names, name.
      split_and!; [done|by apply list_elem_of_In|done].
    + intros (names' & name & [= <-] & Hin & Hc). exists name.
      split; [by apply list_elem_of_In|done].
  - split; [done|]. by intros (? & ? & ? & _).
Qed.

Lemma column_contains_id (column_name : string) (names : list string) :
  Forall (fun name => contains (lower name) "id" = true) names →
  existsb (fun name => contains (lower column_name) (lower name)) names = true →
  CM.get_column_mapping_cache column_name "task_id" = true.
Proof.
  intros Hall (name & Hin & Hc)%existsb_exists.
  apply column_mapping_iff. exists ["Task ID"; "Task"; "ID"], "ID".
  split_and!; [done | set_solver |].
  eapply contains_trans; [exact Hc|].
  rewrite Forall_forall in Hall. apply Hall.
  first [exact Hin | by apply list_elem_of_In].
Qed.

(** X24.  A column name answers to a mapping key when it contains, up to
    case, one of the names listed for the key, and to no key that is not
    listed.  The keys overlap: every column that answers to
    [business_app_id] or to [enterprise_release_id] also answers to
    [task_id], whose names include the bare [ID], and every column with
    [name] in it answers to [project_name]. *)
Theorem X24_column_names_overlap (column_name : string) :
  (∀ key, CM.get_column_mapping_cache column_name key = true
          ↔ ∃ names name, CM.EXCEL_COLUMN_MAPPINGS !! key = Some names
                          ∧ name ∈ names
                          ∧ contains (lower column_name) (lower name) = true)
  ∧ (∀ key, CM.get_column_mapping_cache (upper column_name) key
            = CM.get_column_mapping_cache column_name key)
  ∧ (CM.get_column_mapping_cache column_name "business_app_id" = true →
     CM.get_column_mapping_cache column_name "task_id" = true)
  ∧ (CM.get_column_mapping_cache column_name "enterprise_release_id" = true →
     CM.get_column_mapping_cache column_name "task_id" = true)
  ∧ (contains (lower column_name) "name" = true →
     CM.get_column_mapping_cache column_name "project_name" = true)
  ∧ (∀ key, key ∉ ["release"; "business_app_id"; "enterprise_release_id";
                   "project_name"; "task_id"; "end_date"] →
       CM.get_column_mapping_cache column_name key = false).
Proof.
  split_and!.
  - intros key. apply column_mapping_iff.
  - intros key. unfold CM.get_column_mapping_cache. by rewrite lower_upper.
  - apply column_contains_id. repeat constructor.
  - apply column_contains_id. repeat constructor.
  - intros Hc. apply column_mapping_iff.
    exists ["Project Name"; "Project"; "Name"], "Name".
    split_and!; [done | set_solver | exact Hc].
  - intros key Hk. repeat (apply not_elem_of_cons in Hk as [? Hk]).
    unfold CM.get_column_mapping_cache, CM.EXCEL_COLUMN_MAPPINGS.
    repeat (rewrite lookup_insert_ne by done).
    by rewrite lookup_singleton_ne.
Qed.

(** ** The overall score of the monolithic checkers *)

Lemma analyzed_hyphenated_score
    (metadata : string → string → option string)
    (slide_text : option string) (project_data : gmap string string) :
  let r := V2C._check_hyphenated_ids_compliance
             (V2C.reference_of project_data)
             (V2C._analyze_first_slide metadata slide_text) in
  0 <= V2.score r ∧ V2.score r <= Q2Qc (1 # 2).
Proof.
  cbv zeta. unfold V2C._check_hyphenated_ids_compliance.
  destruct (V2C.hyphenated_ids_found _); cbn [negb]; [|by vm_compute].
  rewrite reference_of_clarity.
  unfold V2.first_excel_value at 1. rewrite reference_of_release_id.
  cbn [default from_option getitem lookup list_lookup]. simpl.
  rewrite (analyzed_slide_keys _ _ "hyphenated__release_id").
  2: { repeat (apply not_elem_of_cons; split; [done|]).
       apply not_elem_of_nil. }
  cbn [default from_option V2C.id_check opt_not negb andb].
  destruct (V2C.id_check V2.clarity_project_id_format _ _) as [[] f2];
    by vm_compute.
Qed.

Lemma check_slide_field_le excel data n subs mapping n' subs' :
  V2C.check_slide_field excel data (n, subs) mapping = Ok (n', subs') →
  (n' <= S n)%nat.
Proof.
  unfold V2C.check_slide_field. destruct mapping as [[ef df] dn].
  destruct (V2.first_excel_value excel ef) as [ev|e]; simpl; [|done].
  intros H.
  repeat match type of H with
         | context [if ?b then _ else _] => destruct b
         end;
    injection H as <- _; lia.
Qed.

Lemma for_each_slide_field_le excel data l n subs n' subs' :
  V2.for_each (V2C.check_slide_field excel data) l (n, subs) = Ok (n', subs') →
  (n' <= n + length l)%nat.
Proof.
  revert n subs. induction l as [|x l IH]; intros n subs.
  - simpl. intros [= <- _]. lia.
  - change (V2.for_each (V2C.check_slide_field excel data) (x :: l) (n, subs))
      with (V2C.check_slide_field excel data (n, subs) x
            ≫= V2.for_each (V2C.check_slide_field excel data) l).
    destruct (V2C.check_slide_field excel data (n, subs) x)
      as [[n1 subs1]|e] eqn:E; [|discriminate].
    change (Ok (n1, subs1)
            ≫= V2.for_each (V2C.check_slide_field excel data) l)
      with (V2.for_each (V2C.check_slide_field excel data) l (n1, subs1)).
    intros H. apply IH in H. apply check_slide_field_le in E.
    simpl. lia.
Qed.

Lemma v2_first_slide_bounds (excel : V2.excel_data) (data : V2C.slide_data) :
  0 <= V2.score (V2C._check_first_slide_compliance excel data)
  ∧ V2.score (V2C._check_first_slide_compliance excel data) <= 1.
Proof.
  unfold V2C._check_first_slide_compliance.
  destruct (V2.for_each _ V2C.slide_field_mappings (0%nat, []))
    as [[n subs]|e] eqn:E; [|done].
  apply for_each_slide_field_le in E. simpl in *.
  apply Qc_fraction_bounds; lia.
Qed.

Lemma pt_status_bounds (pt : V2C.pt_status_data) :
  0 <= V2.score (V2C._check_pt_status_compliance pt)
  ∧ V2.score (V2C._check_pt_status_compliance pt) <= 1.
Proof.
  unfold V2C._check_pt_status_compliance.
  destruct (_ && _); [|done]. by destruct (V2C.has_proper_header pt).
Qed.

Lemma structure_bounds (slide_count total_text_boxes : nat) :
  0 <= V2.score (V2C._check_presentation_structure slide_count
                   total_text_boxes)
  ∧ V2.score (V2C._check_presentation_structure slide_count
                total_text_boxes) <= 1.
Proof.
  unfold V2C._check_presentation_structure.
  by destruct (1 <? slide_count)%nat, (0 <? total_text_boxes)%nat.
Qed.

Lemma four_scores (a b c d : Qc) :
  0 <= a ∧ a <= 1 → 0 <= b ∧ b <= Q2Qc (1 # 2) → 0 <= c ∧ c <= 1 →
  0 <= d ∧ d <= 1 →
  0 <= fsum [a; b; c; d] / Qc_of_nat 4
  ∧ fsum [a; b; c; d] / Qc_of_nat 4 <= Q2Qc (7 # 8).
Proof.
  intros [A0 A1] [B0 B1] [C0 C1] [D0 D1].
  rewrite fsum_foldr. cbn [foldr]. unfold Qcdiv.
  assert (H4 : 0 <= / Qc_of_nat 4) by (by vm_compute).
  split.
  - apply Qcmult_nonneg_nonneg; [|done].
    repeat apply Qcplus_nonneg_nonneg; done.
  - replace (Q2Qc (7 # 8))
      with ((1 + (Q2Qc (1 # 2) + (1 + (1 + 0)))) * / Qc_of_nat 4)
      by (apply Qc_is_canon; reflexivity).
    apply Qcmult_le_compat_r; [|done].
    repeat apply Qcplus_le_compat; try done.
Qed.

(** X25.  Through the application, the overall score of a presentation
    never exceeds 7/8: it is the mean of four checks, each between 0 and
    1, and the hyphenated ids check cannot give more than 1/2 on what the
    analyzer and the application hand over.  An analysis that ended in an
    error scores 0 with no detailed result. *)
Theorem X25_presentation_score_capped
    (metadata : string → string → option string)
    (slide_text : option string) (project_data : gmap string string)
    (pt : V2C.pt_status_data) (slide_count total_text_boxes : nat)
    (analysis_error : option string) :
  let data :=
    V2C.mkPresentation analysis_error
      (V2C._analyze_first_slide metadata slide_text)
      pt slide_count total_text_boxes in
  let rep := V2C.pptx_check_compliance (V2C.reference_of project_data) data in
  0 <= V2C.overall_score rep
  ∧ V2C.overall_score rep <= Q2Qc (7 # 8)
  ∧ (analysis_error ≠ None →
     V2C.overall_score rep = 0 ∧ V2C.detailed_results rep = [])
  ∧ (analysis_error = None → length (V2C.detailed_results rep) = 4%nat).
Proof.
  cbv zeta. unfold V2C.pptx_check_compliance.
  cbn [V2C.presentation_error V2C.first_slide_data V2C.pt_status
       V2C.slide_count V2C.total_text_boxes].
  destruct analysis_error as [msg|]; cbn [V2C.overall_score V2C.detailed_results].
  { split_and!; try done. }
  unfold V2C.overall. cbn [length Nat.ltb Nat.leb map snd].
  destruct (four_scores _ _ _ _
              (v2_first_slide_bounds (V2C.reference_of project_data)
                 (V2C._analyze_first_slide metadata slide_text))
              (analyzed_hyphenated_score metadata slide_text project_data)
              (pt_status_bounds pt)
              (structure_bounds slide_count total_text_boxes)) as [H0 H1].
  split_and!; try done.
Qed.

Lemma v2_first_page_bounds (excel : V2.excel_data) (fp : V2.field_values) :
  0 <= V2.score (V2._check_first_page_compliance excel fp)
  ∧ V2.score (V2._check_first_page_compliance excel fp) <= 1.
Proof.
  unfold V2._check_first_page_compliance.
  destruct (V2.for_each (V2.check_field excel fp) V2.field_mappings (0%nat, []))
    as [[n subs]|e] eqn:E; [|done].
  destruct (for_each_check_field_spec _ _ _ _ _ _ _ E eq_refl) as [Hm Hl].
  simpl. simpl in Hl. apply Qc_fraction_bounds; [|lia].
  rewrite <- Hm, <- Hl. apply matched_le.
Qed.

Lemma v2_footer_bounds (footer : V2C.footer_data) :
  0 <= V2.score (V2C._check_footer_compliance footer)
  ∧ V2.score (V2C._check_footer_compliance footer) <= 1.
Proof. unfold V2C._check_footer_compliance. by destruct (_ && _). Qed.

Lemma five_scores (a b c d : Qc) :
  0 <= a ∧ a <= 1 → 0 <= b ∧ b <= 1 → 0 <= c ∧ c <= 1 → 0 <= d ∧ d <= 1 →
  0 <= fsum [a; b; c; d; 0] / Qc_of_nat 5
  ∧ fsum [a; b; c; d; 0] / Qc_of_nat 5 <= Q2Qc (4 # 5).
Proof.
  intros [A0 A1] [B0 B1] [C0 C1] [D0 D1].
  rewrite fsum_foldr. cbn [foldr]. unfold Qcdiv.
  assert (H5 : 0 <= / Qc_of_nat 5) by (by vm_compute).
  split.
  - apply Qcmult_nonneg_nonneg; [|done].
    repeat apply Qcplus_nonneg_nonneg; done.
  - replace (Q2Qc (4 # 5))
      with ((1 + (1 + (1 + (1 + (0 + 0))))) * / Qc_of_nat 5)
      by (apply Qc_is_canon; reflexivity).
    apply Qcmult_le_compat_r; [|done].
    repeat apply Qcplus_le_compat; try done.
Qed.

(** X26.  Through the application, the overall score of a test plan whose
    reference install date is a date never exceeds 4/5: the implementation
    date check scores 0 on the text the analyzer stores for the dates,
    whatever the document says, and the other four checks score at most 1
    each. *)
Theorem X26_test_plan_score_capped
    (first_page : V2.field_values) (footer : V2C.footer_data)
    (doc : V2.document) (rels : list V2C.relationship)
    (project_data : gmap string string) (d : string) :
  project_data !! "Install Start Date" = Some d →
  String.length (V2.normalize_date d) ≠ 1%nat →
  let rep := V2C.docx_check_compliance (V2C.reference_of project_data)
               (V2C.analyze first_page footer doc rels) in
  0 <= V2C.docx_overall_score rep
  ∧ V2C.docx_overall_score rep <= Q2Qc (4 # 5)
  ∧ (∀ rs, V2C.docx_detailed_results rep = Some rs →
       V2.passed (V2C.implementation_date_compliance rs) = false).
Proof.
  intros Hd Hlen. cbv zeta.
  unfold V2C.docx_check_compliance, V2C.analyze.
  cbn [V2C.document_error V2C.doc_first_page_data V2C.doc_footer_data
       V2C.doc_table_of_contents V2C.doc_embedded_excel
       V2C.doc_implementation_dates V2C.docx_overall_score
       V2C.docx_detailed_results V2C.first_page_compliance
       V2C.footer_compliance V2C.table_of_contents_compliance
       V2C.embedded_excel_compliance V2C.implementation_date_compliance
       Nat.ltb Nat.leb].
  assert (He : V2C.reference_of project_data !! "install_start_date"
               = Some [Some d]).
  { unfold V2C.reference_of.
    repeat (rewrite lookup_insert_ne by done).
    by rewrite lookup_singleton_eq, Hd. }
  destruct (date_check_on_text (V2C.reference_of project_data)
              (V2.repr_list
                 (V2.unique ∅
                    (V2.extend
                       (map V2.normalize_date
                          (filter (fun date => str_not date = false)
                             (findall V2.re_I_M
                                V2.OptimizedPatterns.DATE_IMPLEMENTATION
                                (V2._extract_full_text doc))))
                       (V2.VStr
                          (V2._extract_dates_from_milestones_table doc)))))
              d [] He Hlen) as (Hp & Hs & _).
  unfold V2._extract_implementation_dates_enhanced. cbv zeta.
  rewrite Hs.
  assert (Htoc : 0 <= V2.score
                        (V2._check_table_of_contents_compliance
                           (Some (V2._check_table_of_contents
                                    (V2._extract_full_text doc))))
                 ∧ V2.score
                     (V2._check_table_of_contents_compliance
                        (Some (V2._check_table_of_contents
                                 (V2._extract_full_text doc)))) <= 1).
  { rewrite toc_score_fraction. apply Qc_fraction_bounds; [|lia].
    apply count_found_le. }
  assert (Hemb : 0 <= V2C.sheets_score
                        (V2C._check_embedded_excel_compliance
                           (V2C._check_embedded_excel_with_sheets rels))
                 ∧ V2C.sheets_score
                     (V2C._check_embedded_excel_compliance
                        (V2C._check_embedded_excel_with_sheets rels)) <= 1).
  { destruct (rels_split rels) as (parts & rest & Hrels & Hrest).
    destruct (workbooks_score rels parts rest Hrels Hrest)
      as (Hmax & -> & _).
    apply Qc_fraction_bounds; [exact Hmax|lia]. }
  destruct (five_scores _ _ _ _
              (v2_first_page_bounds (V2C.reference_of project_data) first_page)
              (v2_footer_bounds footer) Htoc Hemb) as [H0 H1].
  split_and!; [exact H0 | exact H1 |].
  intros rs [= <-]. exact Hp.
Qed.

Lemma X26_witness :
  V2C.docx_overall_score
    (V2C.docx_check_compliance
       (V2C.reference_of {[ "Install Start Date" := "08/11/2025" ]})
       (V2C.analyze ∅ (V2C.mkFooterData true "Apollo test plan")
          labelled_document []))
  <= Q2Qc (4 # 5).
Proof.
  refine (proj1 (proj2 (X26_test_plan_score_capped ∅
                          (V2C.mkFooterData true "Apollo test plan")
                          labelled_document []
                          {[ "Install Start Date" := "08/11/2025" ]}
                          "08/11/2025" _ _))).
  - reflexivity.
  - vm_compute. lia.
Defined.

(** ** The legacy return format *)

Lemma call_all_ok (fs : list check_function) :
  Forall (fun g => ¬ raises (call g)) fs →
  ∃ outs, call_all fs = Ok outs ∧ Forall2 (fun g o => call g = Ok o) fs outs.
Proof.
  induction 1 as [|g fs Hg _ (outs & IH & Hall)].
  - exists []. split; [done|constructor].
  - destruct (call g) as [o|e] eqn:E; [|by destruct Hg].
    exists (o :: outs). simpl. rewrite E, IH. split; [done|].
    by constructor.
Qed.

Lemma as_results_raises (outs : list check_output) (d : legacy_dict) :
  OutLegacy d ∈ outs → ∃ e, as_results outs = Raise e.
Proof.
  induction outs as [|o outs IH]; [by intros ?%elem_of_nil|].
  intros [<-|Hin]%elem_of_cons.
  - simpl. eauto.
  - destruct (IH Hin) as [e He]. destruct o; simpl; eauto.
    rewrite He. simpl. eauto.
Qed.

Lemma sequential_legacy_aborts
    (as_completed : list check_function → list check_function)
    (fs : list check_function) (f : check_function) (d : legacy_dict)
    (max_workers : Z) :
  f ∈ fs → call f = Ok (OutLegacy d) →
  Forall (fun g => ¬ raises (call g)) fs →
  ∃ e, run_all_checks as_completed (Ok fs) false max_workers
       = error_report (exn_msg e).
Proof.
  intros Hf Hd Hall.
  destruct (call_all_ok fs Hall) as (outs & Hca & Hall2).
  assert (Hin : OutLegacy d ∈ outs).
  { clear -Hf Hd Hall2. induction Hall2 as [|g o fs outs Hg _ IH].
    - by apply elem_of_nil in Hf.
    - apply elem_of_cons in Hf as [->|Hf].
      + rewrite Hd in Hg. injection Hg as <-. apply elem_of_cons. by left.
      + apply elem_of_cons. right. by apply IH. }
  destruct (as_results_raises outs d Hin) as [e He].
  exists e. unfold run_all_checks. simpl. rewrite Hca. simpl. by rewrite He.
Qed.

(** X27.  A check that returns a dict in the legacy format is only
    handled by the worker pool.  There its dict becomes a result under
    the name of the check function, with [False], [0.0] and the empty
    list for the keys it lacks; in the sequential loop the same return
    value ends the whole run in the error report, with no result for any
    check. *)
Theorem X27_legacy_dict_only_in_pool
    (as_completed : list check_function → list check_function)
    (fs : list check_function) (f : check_function) (d : legacy_dict)
    (max_workers : Z) :
  f ∈ fs → call f = Ok (OutLegacy d) →
  Forall (fun g => ¬ raises (call g)) fs →
  (1 < length fs)%nat → (0 < max_workers)%Z → fs ≡ₚ as_completed fs →
  NoDup (map (fun g => check_name (collect g)) fs) →
  let pool := run_all_checks as_completed (Ok fs) true max_workers in
  let loop := run_all_checks as_completed (Ok fs) false max_workers in
  error pool = None
  ∧ individual_checks pool !! __name__ f
    = Some (mkLegacyResult (default false (l_passed d))
              (default 0 (l_score d)) (l_items d) (default [] (l_errors d)))
  ∧ error loop ≠ None
  ∧ individual_checks loop = ∅
  ∧ compliance_level (overall_statistics loop) = "Error".
Proof.
  intros Hf Hd Hall Hlen Hw Hp Hnd pool loop.
  assert (Hc : collect f
               = mkResult (__name__ f) (default false (l_passed d))
                   (default 0 (l_score d)) (l_items d)
                   (default [] (l_errors d))).
  { unfold collect. by rewrite Hd. }
  split_and!.
  - unfold pool, run_all_checks, _run_checks_parallel. simpl.
    apply Nat.ltb_lt in Hlen. rewrite Hlen.
    destruct (max_workers <=? 0)%Z eqn:E; [lia|]. done.
  - unfold pool, run_all_checks, _run_checks_parallel. simpl.
    apply Nat.ltb_lt in Hlen. rewrite Hlen.
    destruct (max_workers <=? 0)%Z eqn:E; [lia|]. simpl.
    assert (Hperm : map collect fs ≡ₚ map collect (as_completed fs))
      by (by apply fmap_Permutation).
    assert (Hnd' : NoDup (map check_name (map collect fs)))
      by (by rewrite map_map).
    rewrite <- (legacy_results_perm _ _ Hnd' Hperm).
    replace (__name__ f) with (check_name (collect f)) by (by rewrite Hc).
    rewrite (legacy_results_lookup _ (collect f) Hnd').
    + by rewrite Hc.
    + apply list_elem_of_fmap. by exists f.
  - destruct (sequential_legacy_aborts as_completed fs f d max_workers
                Hf Hd Hall) as [e He].
    unfold loop. by rewrite He.
  - destruct (sequential_legacy_aborts as_completed fs f d max_workers
                Hf Hd Hall) as [e He].
    unfold loop. by rewrite He.
  - destruct (sequential_legacy_aborts as_completed fs f d max_workers
                Hf Hd Hall) as [e He].
    unfold loop. by rewrite He.
Qed.

Lemma X27_witness :
  individual_checks
    (run_all_checks reverse (Ok [check_legacy; check_fine]) false 4)
  = ∅.
Proof.
  refine (proj1 (proj2 (proj2 (proj2
            (X27_legacy_dict_only_in_pool reverse [check_legacy; check_fine]
               check_legacy
               (mkLegacy (Some true) (Some 1) None
                  [("passed", DBool true); ("score", DNum 1)])
               4 _ _ _ _ _ _ _))))).
  - apply elem_of_cons. by left.
  - reflexivity.
  - repeat constructor; simpl; tauto.
  - simpl. lia.
  - lia.
  - apply perm_swap.
  - apply (bool_decide_unpack _). by vm_compute.
Defined.

